(** * Panel layout of anemoi-analyse: [panel_daemon] and the grid walk of
      [FieldPlotter.plot]

    A shallow embedding of [src/anemoi_analyse/field_plotter.py] (the layout
    resolver [panel_daemon], lines 18-148, and the panel loop of
    [FieldPlotter.plot], lines 447-524) and of [get_data] in
    [src/anemoi_analyse/data.py], lines 32-75.

    Modelling conventions.
    - Python integers are [Z].  The entries of the numpy vectors are int64;
      the one arithmetic operation performed on them ([panel_shape[ref_dim]
      += 1]) is written with its wrap-around.  The lengths handed to
      [panel_daemon] are results of [len], far inside the int64 range; the
      dtype promotion numpy performs for integers of 64 bits and more is not
      modelled.
    - Python exceptions are values of [exn]; a computation that may raise
      returns a [result].
    - [None] is [None]: a Python value that is either [None] or a sequence
      is an [option (list _)].
    - [np.argsort] is the default (quicksort) kind, which on vectors of at
      most 16 entries is numpy's insertion sort. *)

From Stdlib Require Import ZArith List Bool String Ascii Lia.
From Stdlib Require Import DecimalString.
Import ListNotations.
Local Open Scope string_scope.
Local Open Scope Z_scope.

(** ** Exceptions and results *)

Inductive exn : Type :=
| AssertionError (msg : string)
| ValueError (msg : string)
| TypeError
| IndexError
| UnboundLocalError (name : string)
| FileNotFoundError
| Exception (msg : string).

Inductive result (A : Type) : Type :=
| Ok (a : A)
| Raise (e : exn).
Arguments Ok {A} a.
Arguments Raise {A} e.

Definition bind {A B : Type} (r : result A) (f : A -> result B) : result B :=
  match r with
  | Ok a => f a
  | Raise e => Raise e
  end.

Notation "x <- r ;; k" := (bind r (fun x => k))
  (at level 61, r at next level, right associativity).
Notation "' pat <- r ;; k" := (bind r (fun x => match x with pat => k end))
  (at level 61, pat pattern, r at next level, right associativity).

Definition rmap {A B : Type} (f : A -> B) (r : result A) : result B :=
  match r with
  | Ok a => Ok (f a)
  | Raise e => Raise e
  end.

Definition is_ok {A : Type} (r : result A) : bool :=
  match r with
  | Ok _ => true
  | Raise _ => false
  end.

(** ** Python and numpy primitives used by the source *)

Module Py.

(** [l[n]] on a Python list: negative indices count from the end. *)
Definition index {A : Type} (l : list A) (n : Z) : result A :=
  let len := Z.of_nat (List.length l) in
  let k := if n <? 0 then n + len else n in
  if (k <? 0) || (len <=? k) then Raise IndexError
  else match nth_error l (Z.to_nat k) with
       | Some a => Ok a
       | None => Raise IndexError
       end.

(** [l[n]] where the index expression may evaluate to [None]. *)
Definition index_opt {A : Type} (l : list A) (n : option Z) : result A :=
  match n with
  | None => Raise TypeError
  | Some k => index l k
  end.

(** [l[i] = v] for an index known to be in range. *)
Fixpoint set_nth {A : Type} (l : list A) (i : nat) (v : A) : list A :=
  match l, i with
  | [], _ => []
  | _ :: t, O => v :: t
  | h :: t, S i' => h :: set_nth t i' v
  end.

(** [l[i] = v] with the range check of a Python list. *)
Definition assign {A : Type} (l : list A) (i : nat) (v : A) : result (list A) :=
  if Nat.ltb i (List.length l) then Ok (set_nth l i v) else Raise IndexError.

(** [a, b = l]. *)
Definition unpack2 {A : Type} (l : list A) : result (A * A) :=
  match l with
  | [a; b] => Ok (a, b)
  | _ :: _ :: _ :: _ => Raise (ValueError "too many values to unpack (expected 2)")
  | _ => Raise (ValueError "not enough values to unpack (expected 2)")
  end.

(** [range(n)]. *)
Definition range (n : Z) : list Z :=
  map Z.of_nat (seq 0 (Z.to_nat n)).

(** [x is None or i == x]. *)
Definition none_or_eq (x : option Z) (i : Z) : bool :=
  match x with
  | None => true
  | Some v => i =? v
  end.

(** [l[-2:]]. *)
Definition last2 {A : Type} (l : list A) : list A :=
  skipn (List.length l - 2) l.

(** [l[1:]]. *)
Definition from1 {A : Type} (l : list A) : list A := skipn 1 l.

(** [min(l)] for a non-empty sequence of integers. *)
Definition min (l : list Z) : Z :=
  match l with
  | [] => 0
  | h :: t => fold_left Z.min t h
  end.

(** [tuple(x)] and [reversed(x)]: both raise [TypeError] on [None]. *)
Definition tuple {A : Type} (x : option (list A)) : result (list A) :=
  match x with
  | Some l => Ok l
  | None => Raise TypeError
  end.

Definition reversed {A : Type} (x : option (list A)) : result (list A) :=
  match x with
  | Some l => Ok (rev l)
  | None => Raise TypeError
  end.

(** [s.endswith(suffix)]. *)
Definition endswith (s suffix : string) : bool :=
  let n := String.length s in
  let k := String.length suffix in
  Nat.leb k n && String.eqb (substring (n - k) k s) suffix.

(** f-string rendering of an integer. *)
Definition str_of_Z (z : Z) : string :=
  NilZero.string_of_int (Z.to_int z).
#[global] Arguments str_of_Z z : simpl never.

End Py.

Module Np.

(** int64 wrap-around. *)
Definition wrap64 (z : Z) : Z :=
  (z + 2 ^ 63) mod 2 ^ 64 - 2 ^ 63.
#[global] Arguments wrap64 z : simpl never.

(** One pass of the insertion sort of [np.argsort]: the sorted prefix is
    held reversed (its head is the rightmost position); [vi] moves left
    while its key is strictly below the key to its left. *)
Fixpoint sift (v : list Z) (vi : nat) (rprefix : list nat) : list nat :=
  match rprefix with
  | [] => [vi]
  | k :: rest =>
      if nth vi v 0 <? nth k v 0 then k :: sift v vi rest
      else vi :: rprefix
  end.

Definition argsort (v : list Z) : list nat :=
  rev (fold_left (fun acc vi => sift v vi acc) (seq 0 (List.length v)) []).

(** Fancy indexing [v[idx]]: a fresh vector. *)
Definition take (v : list Z) (idx : list nat) : list Z :=
  map (fun i => nth i v 0) idx.

End Np.

(** ** The layout resolver *)

(** The five tuples returned by [panel_daemon]. *)
Record plan : Type := mkPlan {
  panel_shape : list Z;
  var_idx_xy : list nat;
  var_len_xy : list Z;
  ens_mean : list (option Z);
  ref : list (option Z)
}.

(** The near-square packing table; entry 0 is [None]. *)
Definition conf_map : list (option (Z * Z)) :=
  [ None;
    Some (1,1); Some (1,2); Some (2,2); Some (2,2);
    Some (2,3); Some (2,3); Some (2,4); Some (2,4);
    Some (3,3); Some (3,4); Some (3,4); Some (3,4);
    Some (4,4); Some (4,4); Some (4,4); Some (4,4) ].

Definition panel_limit : Z := Z.of_nat (List.length conf_map) - 1.

(** A table entry read as a Python value: a 2-tuple, or [None]. *)
Definition entry_seq (e : option (Z * Z)) : option (list Z) :=
  match e with
  | Some (r, c) => Some [r; c]
  | None => None
  end.

Definition entry_oseq (e : option (Z * Z)) : option (list (option Z)) :=
  match e with
  | Some (r, c) => Some [Some r; Some c]
  | None => None
  end.

(** Lines 72-82: the resolved ensemble size and the number of member slots. *)
Definition resolve_ens_size (ens_size : option Z) (plot_ens_mean : bool) : Z :=
  match ens_size with
  | None => if plot_ens_mean then 0 else 1
  | Some n => n
  end.

Definition num_members (ens_size : option Z) (plot_ens_mean : bool) : Z :=
  resolve_ens_size ens_size plot_ens_mean + Z.b2z plot_ens_mean.

Definition var_len (num_models num_lead_times : Z) (ens_size : option Z)
    (plot_ens_mean : bool) : list Z :=
  [num_models; num_lead_times; num_members ens_size plot_ens_mean].

(** Lines 98-106: position of the ensemble mean, [only ens mean, x, y]. *)
Definition place_ens_mean (plot_ens_mean : bool) (xy : list nat) (nmem : Z)
    : list (option Z) :=
  let ens_mean := [None; None; None] in
  if plot_ens_mean then
    if Nat.eqb (nth 0 xy O) 2 then Py.set_nth ens_mean 1 (Some (nmem - 1))
    else if Nat.eqb (nth 1 xy O) 2 then Py.set_nth ens_mean 2 (Some (nmem - 1))
    else Py.set_nth ens_mean 0 (Some 0)
  else ens_mean.

(** Lines 113-116: the grid axis the reference is appended along. *)
Definition ref_dim_of (xy : list nat) : nat :=
  if negb (Nat.eqb (nth 0 xy O) 1) then 0%nat else 1%nat.

(** The state of the local variables after line 118.  [panel_shape] and
    [var_len_xy] are two names of one numpy vector ([panel_shape =
    var_len_xy], line 96), so the in-place [+= 1] of line 118 is seen through
    both; [st_shape] is that one vector. *)
Record stage : Type := mkStage {
  st_xy : list nat;
  st_shape : list Z;
  st_ens_mean : list (option Z);
  st_ref : list (option Z)
}.

(** Lines 89-118. *)
Definition assign_axes (vlen : list Z) (nmem : Z)
    (plot_ens_mean include_ref : bool) : stage :=
  let var_idx := Np.argsort vlen in
  let xy := Py.last2 var_idx in
  let shape := Np.take vlen xy in
  let ens_mean := place_ens_mean plot_ens_mean xy nmem in
  let ref := [None; None] in
  if include_ref then
    let ref_dim := ref_dim_of xy in
    let ref := Py.set_nth ref ref_dim (Some (nth ref_dim shape 0)) in
    let shape := Py.set_nth shape ref_dim (Np.wrap64 (nth ref_dim shape 0 + 1)) in
    mkStage xy shape ens_mean ref
  else mkStage xy shape ens_mean ref.

(** The local variables between line 139 and line 141; each of
    [panel_shape], [ens_mean] and [ref] may have become [None]. *)
Record packed : Type := mkPacked {
  pk_shape : option (list Z);
  pk_xy : list nat;
  pk_len : list Z;
  pk_ens_mean : option (list (option Z));
  pk_ref : option (list (option Z))
}.

(** Lines 120-139. *)
Definition collapse (plot_ens_mean include_ref : bool) (s : stage)
    : result packed :=
  if Py.min (st_shape s) <? 2 then
    if nth 1 (st_shape s) 0 >? panel_limit then
      Raise (ValueError "Panel limit reached!")
    else
      em <- (if plot_ens_mean then
               e <- Py.index_opt conf_map (nth 2 (st_ens_mean s) None) ;;
               Ok (entry_oseq e)
             else Ok (Some (st_ens_mean s))) ;;
      rf <- (if include_ref then
               e <- Py.index_opt conf_map (nth 1 (st_ref s) None) ;;
               Ok (entry_oseq e)
             else Ok (Some (st_ref s))) ;;
      sh <- Py.index conf_map (nth 1 (st_shape s) 0) ;;
      Ok (mkPacked (entry_seq sh) (Py.from1 (st_xy s)) (Py.from1 (st_shape s))
            em rf)
  else
    Ok (mkPacked (Some (st_shape s)) (st_xy s) (st_shape s)
          (Some (st_ens_mean s)) (Some (st_ref s))).

(** Lines 141-148. *)
Definition finish (swap_axes : bool) (p : packed) : result plan :=
  if swap_axes then
    xy <- Ok (rev (pk_xy p)) ;;
    ln <- Ok (rev (pk_len p)) ;;
    sh <- Py.reversed (pk_shape p) ;;
    rf <- Py.reversed (pk_ref p) ;;
    em <- Py.reversed (pk_ens_mean p) ;;
    Ok (mkPlan sh xy ln em rf)
  else
    sh <- Py.tuple (pk_shape p) ;;
    em <- Py.tuple (pk_ens_mean p) ;;
    rf <- Py.tuple (pk_ref p) ;;
    Ok (mkPlan sh (pk_xy p) (pk_len p) em rf).

Definition panel_daemon (num_models num_lead_times : Z) (ens_size : option Z)
    (plot_ens_mean include_ref swap_axes : bool) : result plan :=
  let nmem := num_members ens_size plot_ens_mean in
  let vlen := var_len num_models num_lead_times ens_size plot_ens_mean in
  if existsb (Z.eqb 0) vlen then
    Raise (AssertionError "Cannot deal with zero dimension")
  else if negb (existsb (Z.eqb 1) vlen) then
    Raise (AssertionError "At least one dimension needs length 1")
  else
    p <- collapse plot_ens_mean include_ref
           (assign_axes vlen nmem plot_ens_mean include_ref) ;;
    finish swap_axes p.

(** ** The panel loop of [FieldPlotter.plot] *)

(** What the loop reads from the plotter and from the arguments of [plot]. *)
Record figure : Type := mkFigure {
  n_paths : nat;                        (* len(self.paths) = len(self.path_features) *)
  model_labels : option (list string);  (* self.model_labels *)
  members : list (option Z);            (* self.members = np.atleast_1d(members) *)
  lead_times : list Z;                  (* np.atleast_1d(lead_times) *)
  ref_label : string
}.

(** The data handed to [_plot_panel]; the fetch itself belongs to the dataset
    interface and is recorded by its indices, not performed: in the source an
    index outside the dataset raises [IndexError] there.  A loop that
    returns [Ok] is a loop that raises nothing of its own; the fetches and
    the drawing calls are outside the model. *)
Inductive selection : Type :=
| SelMember (path ens_idx lt_idx : Z)       (* path_features[model_idx]['ds'][field][ens_idx, lt_idx] *)
| SelMean (ds_model : nat) (lt_idx : Z)     (* ds[field][:, lt_idx].mean(axis=0) *)
| SelRef (lt_idx : Z).                      (* data_ref[field][lt_idx] *)

(** One iteration of the loop: the axes are deleted, or a panel is drawn. *)
Inductive panel : Type :=
| Deleted (i j : Z)
| Drawn (i j : Z) (sel : selection) (titlex titley : option string).

Definition model_label (f : figure) (i : Z) : result string :=
  match model_labels f with
  | None => Ok ("model " ++ Py.str_of_Z i)%string
  | Some ls =>
      if Z.of_nat (List.length ls) <=? i then Ok ""%string
      else Py.index ls i
  end.

Definition lt_label (f : figure) (i : Z) : result string :=
  lt <- Py.index (lead_times f) i ;;
  let lead_time := Np.wrap64 (6 * lt) in
  Ok ("+" ++ Py.str_of_Z lead_time ++ "h")%string.

Definition member_label (f : figure) (i : Z) : result string :=
  member_id <- Py.index (members f) i ;;
  Ok ("member " ++ match member_id with
                   | Some m => Py.str_of_Z m
                   | None => "None"
                   end)%string.

Definition labels (f : figure) : list (Z -> result string) :=
  [model_label f; lt_label f; member_label f].

(** The locals of [plot] that survive from one iteration to the next. *)
Record locals : Type := mkLocals {
  idx : list Z;                     (* [model_idx, lt_idx, ens_idx] *)
  label_y : option (option string); (* unbound until first assigned *)
  ds_model : nat;                   (* the path whose dataset [ds] names *)
  features_bound : bool             (* resolution, lat, lon, lat_grid, lon_grid *)
}.

(** [label if cond else None]. *)
Definition label_if (cond : bool) (lbl : result string) : result (option string) :=
  if cond then l <- lbl ;; Ok (Some l) else Ok None.

(** Lines 479-524: the body of the inner loop at cell [(i, j)]. *)
Definition cell (f : figure) (pl : plan) (plot_ens_mean include_ref : bool)
    (i j : Z) (st : locals) : result (panel * locals) :=
  let k := nth 1 (panel_shape pl) 0 * i + j in
  let single := Nat.eqb (List.length (var_idx_xy pl)) 1 in
  let x0 := nth 0 (var_idx_xy pl) O in
  let x1 := nth 1 (var_idx_xy pl) O in
  idx1 <- (if single then Py.assign (idx st) x0 k
           else l <- Py.assign (idx st) x0 i ;; Py.assign l x1 j) ;;
  let st := mkLocals idx1 (label_y st) (ds_model st) (features_bound st) in
  if single && (nth 0 (var_len_xy pl) 0 <=? k) then Ok (Deleted i j, st)
  else
    let model_idx := nth 0 idx1 0 in
    let lt_idx := nth 1 idx1 0 in
    let ens_idx := nth 2 idx1 0 in
    em_here <- (if plot_ens_mean then
                  '(i_em, j_em) <- Py.unpack2 (ens_mean pl) ;;
                  Ok (Py.none_or_eq i_em i && Py.none_or_eq j_em j)
                else Ok false) ;;
    if em_here then
      let label_x := if i =? 0 then Some "ensemble mean"%string else None in
      if negb (features_bound st) then Raise (UnboundLocalError "lat_grid")
      else match label_y st with
           | None => Raise (UnboundLocalError "label_y")
           | Some ly =>
               Ok (Drawn i j (SelMean (ds_model st) lt_idx) label_x ly, st)
           end
    else
      ref_here <- (if include_ref then
                     '(i_ref, j_ref) <- Py.unpack2 (ref pl) ;;
                     Ok (Py.none_or_eq i_ref i && Py.none_or_eq j_ref j)
                   else Ok false) ;;
      if ref_here then
        let label_x := if i =? 0 then Some (ref_label f) else None in
        let ly := if j =? 0 then Some (ref_label f) else None in
        let st := mkLocals idx1 (Some ly) (ds_model st) (features_bound st) in
        if negb (features_bound st) then Raise (UnboundLocalError "resolution")
        else Ok (Drawn i j (SelRef lt_idx) label_x ly, st)
      else
        '(label_x, ly) <-
          (if single then
             lf <- Py.index (labels f) (Z.of_nat x0) ;;
             l <- lf k ;;
             Ok (Some l, None)
           else
             lx <- label_if (i =? 0)
                     (lf <- Py.index (labels f) (Z.of_nat x1) ;; lf j) ;;
             ly <- label_if (j =? 0)
                     (lf <- Py.index (labels f) (Z.of_nat x0) ;; lf i) ;;
             Ok (lx, ly)) ;;
        path <- Py.index (seq 0 (n_paths f)) model_idx ;;
        Ok (Drawn i j (SelMember (Z.of_nat path) ens_idx lt_idx) label_x ly,
            mkLocals idx1 (Some ly) path true).

(** The two nested loops, as one pass over the cells in row-major order. *)
Fixpoint walk (f : figure) (pl : plan) (plot_ens_mean include_ref : bool)
    (cells : list (Z * Z)) (st : locals) : result (list panel) :=
  match cells with
  | [] => Ok []
  | (i, j) :: rest =>
      '(p, st') <- cell f pl plot_ens_mean include_ref i j st ;;
      ps <- walk f pl plot_ens_mean include_ref rest st' ;;
      Ok (p :: ps)
  end.

Definition cells_of (shape : list Z) : list (Z * Z) :=
  flat_map (fun i => map (fun j => (i, j)) (Py.range (nth 1 shape 0)))
           (Py.range (nth 0 shape 0)).

(** The locals when the loop is entered: [ds] is left bound to the dataset of
    the last path by the loop of lines 429-435. *)
Definition init_locals (f : figure) : locals :=
  mkLocals [0; 0; 0] None (n_paths f - 1) false.

Definition bind_panels (f : figure) (pl : plan)
    (plot_ens_mean include_ref : bool) : result (list panel) :=
  walk f pl plot_ens_mean include_ref (cells_of (panel_shape pl))
       (init_locals f).

(** Lines 447-524 of [plot]: the features of the first path are read, the
    layout is resolved, then the grid is walked.  The figure and its axes
    (line 455) and the drawing itself belong to matplotlib; what is drawn is
    recorded as a [panel]. *)
Definition plot (f : figure) (plot_ens_mean include_ref swap_axes : bool)
    : result (list panel) :=
  _ <- Py.index (seq 0 (n_paths f)) 0 ;;
  pl <- panel_daemon (Z.of_nat (n_paths f))
          (Z.of_nat (List.length (lead_times f)))
          (Some (Z.of_nat (List.length (members f))))
          plot_ens_mean include_ref swap_axes ;;
  bind_panels f pl plot_ens_mean include_ref.

(** ** Loading the forecasts: [get_data]

    A dataset is modelled by its structure: the sizes of its dimensions, its
    index coordinates and, for each data variable, its dimensions in axis
    order.  The values are floating-point arrays and are left out; datasets
    are taken without scalar coordinates.  The three xarray operations used
    by [get_data] follow xarray's documented behaviour; [concat] aligns
    member files that differ by the outer join, as xarray does. *)

Module Xr.

Record Dataset : Type := mkDataset {
  sizes : list (string * nat);
  coords : list (string * list Z);
  data_vars : list (string * list string)
}.

Fixpoint lookup {A : Type} (k : string) (l : list (string * A)) : option A :=
  match l with
  | [] => None
  | (k', v) :: t => if String.eqb k' k then Some v else lookup k t
  end.

Fixpoint remove {A : Type} (k : string) (l : list (string * A))
    : list (string * A) :=
  match l with
  | [] => []
  | (k', v) :: t =>
      if String.eqb k' k then remove k t else (k', v) :: remove k t
  end.

(** Replaces the value bound to [k], in place. *)
Fixpoint update {A : Type} (k : string) (v : A) (l : list (string * A))
    : list (string * A) :=
  match l with
  | [] => []
  | (k', v') :: t =>
      if String.eqb k' k then (k', v) :: t else (k', v') :: update k v t
  end.

Definition has {A : Type} (k : string) (l : list (string * A)) : bool :=
  match lookup k l with
  | Some _ => true
  | None => false
  end.

(** [ds.expand_dims(d)]: a new axis of length 1, first in every data
    variable; an existing dimension or variable of that name is an error. *)
Definition expand_dims (d : string) (ds : Dataset) : result Dataset :=
  if has d (sizes ds) then Raise (ValueError "Dimension already exists")
  else if has d (data_vars ds) then
    Raise (ValueError "already exists as coordinate or variable name")
  else
    Ok (mkDataset ((d, 1%nat) :: sizes ds) (coords ds)
          (map (fun v => (fst v, d :: snd v)) (data_vars ds))).

(** [ds.assign_coords(d=vals)]. *)
Definition assign_coords (d : string) (vals : list Z) (ds : Dataset)
    : result Dataset :=
  match lookup d (sizes ds) with
  | Some n =>
      if Nat.eqb (List.length vals) n then
        Ok (mkDataset (sizes ds) ((d, vals) :: remove d (coords ds))
              (data_vars ds))
      else Raise (ValueError "conflicting sizes for dimension")
  | None =>
      Ok (mkDataset (sizes ds ++ [(d, List.length vals)])
            ((d, vals) :: remove d (coords ds)) (data_vars ds))
  end.

Fixpoint list_eqb {A : Type} (eqb : A -> A -> bool) (l l' : list A) : bool :=
  match l, l' with
  | [], [] => true
  | x :: t, y :: t' => eqb x y && list_eqb eqb t t'
  | _, _ => false
  end.

Definition all_equal {A : Type} (eqb : A -> A -> bool) (l : list A) : bool :=
  match l with
  | [] => true
  | x :: t => forallb (eqb x) t
  end.

(** What the datasets that have the key [k] bind to it. *)
Definition collect {A : Type} (get : Dataset -> list (string * A))
    (k : string) (dss : list Dataset) : list A :=
  flat_map (fun ds => match lookup k (get ds) with
                      | Some v => [v]
                      | None => []
                      end) dss.

(** The entries under keys not met before. *)
Fixpoint fresh {A : Type} (seen : list string) (l : list (string * A))
    : list (string * A) :=
  match l with
  | [] => []
  | (k, v) :: t =>
      if existsb (String.eqb k) seen then fresh seen t
      else (k, v) :: fresh (k :: seen) t
  end.

(** One entry for every key of the datasets, in the order of first
    appearance: the entries of the first dataset, then the new keys of the
    later ones. *)
Definition entries {A : Type} (get : Dataset -> list (string * A))
    (d0 : Dataset) (rest : list Dataset) : list (string * A) :=
  get d0 ++ fresh (map fst (get d0)) (flat_map get rest).

Fixpoint mapM {A B : Type} (f : A -> result B) (l : list A)
    : result (list B) :=
  match l with
  | [] => Ok []
  | x :: t => y <- f x ;; ys <- mapM f t ;; Ok (y :: ys)
  end.

(** [ds.sizes.get(d, 1)]: a dataset without the dimension counts as one
    entry along it. *)
Definition size_along (d : string) (ds : Dataset) : nat :=
  match lookup d (sizes ds) with
  | Some n => n
  | None => 1
  end.

Definition coord_along (d : string) (ds : Dataset) : list Z :=
  match lookup d (coords ds) with
  | Some vals => vals
  | None => []
  end.

Fixpoint insert_label (x : Z) (l : list Z) : list Z :=
  match l with
  | [] => [x]
  | y :: t =>
      if x <? y then x :: l
      else if x =? y then l
      else y :: insert_label x t
  end.

(** The union of index labels, sorted, as pandas joins indexes that
    differ. *)
Definition union_labels (ls : list (list Z)) : list Z :=
  fold_left (fun acc l => fold_left (fun a x => insert_label x a) l acc) ls [].

(** The outer join of an index: labels that agree are kept as they are. *)
Definition join_labels (own : list Z) (ls : list (list Z)) : list Z :=
  if all_equal (list_eqb Z.eqb) ls then own else union_labels ls.

(** The size of a dimension other than the one concatenated along, after
    the outer join: datasets that agree keep their size; where the index
    differs the size is that of the joined index, which a dataset without
    an index of its own has to match. *)
Definition join_size (e : string) (own : nat) (dss : list Dataset)
    : result nat :=
  let ls := collect coords e dss in
  if all_equal (list_eqb Z.eqb) ls then
    if all_equal Nat.eqb (collect sizes e dss) then Ok own
    else Raise (ValueError "conflicting dimension sizes")
  else
    let n := List.length (union_labels ls) in
    if forallb (fun ds => has e (coords ds) ||
                          match lookup e (sizes ds) with
                          | Some m => Nat.eqb m n
                          | None => true
                          end) dss
    then Ok n
    else Raise (ValueError "conflicting dimension sizes").

(** The first occurrences, in order. *)
Fixpoint uniq (l : list string) : list string :=
  match l with
  | [] => []
  | x :: t => x :: filter (fun y => negb (String.eqb y x)) (uniq t)
  end.

(** The dimensions of a variable of the result: those it has in the
    datasets when they agree, else all of them in the order of first
    appearance; the dimension concatenated along is put first when the
    variable has not got it. *)
Definition join_dims (d : string) (own : list string)
    (dl : list (list string)) : list string :=
  let dims := if all_equal (list_eqb String.eqb) dl then own
              else uniq (List.concat dl) in
  if existsb (String.eqb d) dims then dims else d :: dims.

(** A data variable of one dataset that is a coordinate of another one
    (within a dataset a name is one or the other). *)
Definition mixed_names (dss : list Dataset) : bool :=
  existsb (fun ds =>
             existsb (fun v =>
                        negb (has (fst v) (coords ds)) &&
                        existsb (fun ds' => has (fst v) (coords ds')) dss)
               (data_vars ds)) dss.

(** [xr.concat(dss, dim=d)] with xarray's defaults ([data_vars='all'],
    [join='outer']): the datasets are aligned along every other dimension
    by the outer join of their indexes, the sizes along [d] add up, the
    index along [d] is the concatenation of the indexes, and every data
    variable of any dataset is in the result, along [d].  No dataset at all
    is an error; so are sizes that cannot be aligned and a name that is a
    variable here and a coordinate there.  Each index is taken with
    distinct labels. *)
Definition concat (dss : list Dataset) (d : string) : result Dataset :=
  match dss with
  | [] => Raise (ValueError "must supply at least one object to concatenate")
  | d0 :: rest =>
      if mixed_names dss then
        Raise (ValueError "is a coordinate in some datasets but not others")
      else
        let total := list_sum (map (size_along d) dss) in
        sz <- mapM (fun e =>
                      if String.eqb (fst e) d then Ok (d, total)
                      else n <- join_size (fst e) (snd e) dss ;;
                           Ok (fst e, n))
                (entries sizes d0 rest) ;;
        Ok (mkDataset
              (if has d sz then sz else (d, total) :: sz)
              ((d, flat_map (coord_along d) dss) ::
               map (fun e => (fst e,
                              join_labels (snd e)
                                (collect coords (fst e) dss)))
                 (entries (fun ds => remove d (coords ds)) d0 rest))
              (map (fun v => (fst v,
                              join_dims d (snd v)
                                (collect data_vars (fst v) dss)))
                 (entries data_vars d0 rest)))
  end.

(** [ds[name] = f(ds[name])] for an elementwise [f]: the variable keeps its
    dimensions. *)
Definition map_var (name : string) (ds : Dataset) : Dataset :=
  match lookup name (data_vars ds) with
  | Some dims =>
      mkDataset (sizes ds) (coords ds) (update name dims (data_vars ds))
  | None => ds
  end.

(** [name in ds.variables]: a data variable or a coordinate. *)
Definition has_variable (name : string) (ds : Dataset) : bool :=
  has name (data_vars ds) || has name (coords ds).

End Xr.

Section GetData.

(** The file system: what [glob] matches and what [xr.open_dataset]
    reads. *)
Variable glob : string -> list string.
Variable open_dataset : string -> result Xr.Dataset.

(** [ds.expand_dims('members').assign_coords(members=[i])]. *)
Definition add_member_axis (i : Z) (ds : Xr.Dataset) : result Xr.Dataset :=
  e <- Xr.expand_dims "members" ds ;;
  Xr.assign_coords "members" [i] e.

(** Lines 57-63: the loop over the members; [time] is the formatted time
    stamp. *)
Fixpoint load_members (path time file_prefix : string) (members : list Z)
    : result (list Xr.Dataset) :=
  match members with
  | [] => Ok []
  | i :: rest =>
      filename <-
        match glob (path ++ Py.str_of_Z i ++ "/" ++ file_prefix ++ "*"
                      ++ time ++ ".nc")%string with
        | filename :: _ => Ok filename
        | [] => Raise (Exception
                         ("No inference file found for time stamp "
                            ++ time ++ ", member " ++ Py.str_of_Z i)%string)
        end ;;
      ds <- open_dataset filename ;;
      datasets <- load_members path time file_prefix rest ;;
      Ok (ds :: datasets)
  end.

(** Line 65: the comprehension over [enumerate(datasets)], from index [i]. *)
Fixpoint with_members (i : Z) (datasets : list Xr.Dataset)
    : result (list Xr.Dataset) :=
  match datasets with
  | [] => Ok []
  | ds :: rest =>
      d <- add_member_axis i ds ;;
      ds' <- with_members (i + 1) rest ;;
      Ok (d :: ds')
  end.

(** Lines 69-74: the unit conversions. *)
Definition convert_units (ds : Xr.Dataset) : Xr.Dataset :=
  let ds := if Xr.has_variable "air_temperature_2m" ds
            then Xr.map_var "air_temperature_2m" ds else ds in
  let ds := if Xr.has_variable "precipitation_amount_acc6h" ds
            then Xr.map_var "precipitation_amount_acc6h" ds else ds in
  if Xr.has_variable "air_pressure_at_sea_level" ds
  then Xr.map_var "air_pressure_at_sea_level" ds else ds.

(** [get_data(path, time, ens_size, file_prefix)], with [time] standing for
    [time.strftime('%Y-%m-%dT%H')]. *)
Definition get_data (path time : string) (ens_size : option Z)
    (file_prefix : string) : result Xr.Dataset :=
  ds <-
    (if Py.endswith path ".nc" then
       ds <- open_dataset path ;;
       add_member_axis 1 ds
     else
       match ens_size with
       | None =>
           filename <- Py.index (glob (path ++ "*" ++ time ++ ".nc")%string) 0 ;;
           ds <- open_dataset filename ;;
           add_member_axis 1 ds
       | Some n =>
           datasets <- load_members path time file_prefix (Py.range n) ;;
           datasets_with_members <- with_members 0 datasets ;;
           Xr.concat datasets_with_members "members"
       end) ;;
  Ok (convert_units ds).

End GetData.

(** The dataset has the members dimension with [n] entries labelled [ids],
    and every data variable has it as its first axis. *)
Definition members_axis (n : nat) (ids : list Z) (ds : Xr.Dataset) : Prop :=
  Xr.lookup "members" (Xr.sizes ds) = Some n /\
  Xr.lookup "members" (Xr.coords ds) = Some ids /\
  Forall (fun v => hd_error (snd v) = Some "members"%string) (Xr.data_vars ds).

(** What [with_members] makes of a file [d0]: the members axis of length 1,
    first in every data variable, with one label. *)
Definition member_of (d0 e : Xr.Dataset) : Prop :=
  Xr.sizes e = ("members"%string, 1%nat) :: Xr.sizes d0 /\
  Xr.data_vars e =
    map (fun v => (fst v, "members"%string :: snd v)) (Xr.data_vars d0) /\
  exists c, Xr.coords e =
              ("members"%string, [c]) :: Xr.remove "members" (Xr.coords d0).

(** ** Reading the plan the way the design document names it *)

(** The x and the y entry exchanged in a tuple that ends with them: a pair
    is reversed, and of the three entries [only ens mean, x, y] of
    [ens_mean] only the last two change places. *)
Definition swap_xy {A : Type} (l : list A) : list A :=
  firstn (List.length l - 2) l ++ rev (skipn (List.length l - 2) l).

(** The transposed plan, as step 8 of the design document has it (and the
    comments of lines 146 and 134 ask for): the roles of grid-x and grid-y
    are exchanged in the shape, in the axes, in their lengths, in the
    reference position and in the position of the ensemble mean. *)
Definition transpose (p : plan) : plan :=
  mkPlan (rev (panel_shape p)) (rev (var_idx_xy p)) (rev (var_len_xy p))
         (swap_xy (ens_mean p)) (rev (ref p)).

(** The plan without the position of the ensemble mean. *)
Definition axes_part (p : plan)
    : list Z * list nat * list Z * list (option Z) :=
  (panel_shape p, var_idx_xy p, var_len_xy p, ref p).

(** Dimension indices: 0 model, 1 lead time, 2 ensemble. *)
Definition Model : nat := 0.
Definition LeadTime : nat := 1.
Definition Ensemble : nat := 2.

Definition is_deleted (p : panel) : bool :=
  match p with
  | Deleted _ _ => true
  | Drawn _ _ _ _ _ => false
  end.

Definition is_reference (p : panel) : bool :=
  match p with
  | Drawn _ _ (SelRef _) _ _ => true
  | _ => false
  end.

Definition panel_cell (p : panel) : Z * Z :=
  match p with
  | Deleted i j => (i, j)
  | Drawn i j _ _ _ => (i, j)
  end.

(** Edge-only labelling: a top label exactly on row 0, a left label exactly
    on column 0. *)
Definition edge_labels_only (p : panel) : Prop :=
  match p with
  | Drawn i j _ titlex titley =>
      (titlex <> None <-> i = 0) /\ (titley <> None <-> j = 0)
  | Deleted _ _ => False
  end.

(** The precondition of the design document: at least one model and one
    lead time, an ensemble size that is undefined or at least 1, and at most
    one of the three cardinalities above 1 (the synthetic slots not
    counted). *)
Definition is_one (ens : option Z) : Prop :=
  match ens with
  | Some n => n = 1
  | None => True
  end.

Definition valid_input (nm nlt : Z) (ens : option Z) : Prop :=
  1 <= nm /\ 1 <= nlt /\
  match ens with Some n => 1 <= n | None => True end /\
  (nm = 1 /\ nlt = 1 \/ nm = 1 /\ is_one ens \/ nlt = 1 /\ is_one ens).

(** The largest int64. *)
Definition int64_max : Z := 2 ^ 63 - 1.

(** The inputs whose single varying dimension is collapsed and has more
    panels than the packing table holds: with one model and one lead time the
    member slots (and the reference, appended along them) are packed;
    otherwise the models or lead times are packed when no reference adds a
    second row and the member axis has one slot. *)
Definition packs_too_many (nm nlt : Z) (ens : option Z) (m r : bool) : bool :=
  let nmem := num_members ens m in
  if (nm =? 1) && (nlt =? 1) then panel_limit <? nmem + Z.b2z r
  else negb r && (nmem =? 1) && (panel_limit <? Z.max nm nlt).

(** ** Reading the figure *)

(** The data indices a drawn panel of a model selects, in the order model,
    lead time, ensemble member. *)
Definition selected (p : panel) : option (list Z) :=
  match p with
  | Drawn _ _ (SelMember path ens_idx lt_idx) _ _ => Some [path; lt_idx; ens_idx]
  | _ => None
  end.

(** The lengths of a figure fit int64 with room for the two synthetic
    slots. *)
Definition fits_int64 (f : figure) : Prop :=
  Z.of_nat (n_paths f) < int64_max - 2 /\
  Z.of_nat (List.length (lead_times f)) < int64_max - 2 /\
  Z.of_nat (List.length (members f)) < int64_max - 2.

(** The three lengths [plot] hands to [panel_daemon]. *)
Definition figure_lengths (f : figure) : list Z :=
  [Z.of_nat (n_paths f); Z.of_nat (List.length (lead_times f));
   Z.of_nat (List.length (members f))].

(** Every index a model panel is fetched at lies inside the length of its
    dimension. *)
Definition inside_lengths (f : figure) (p : panel) : Prop :=
  match selected p with
  | Some v =>
      forall d : nat, (d < 3)%nat ->
        0 <= nth d v 0 < nth d (figure_lengths f) 0
  | None => True
  end.

(** [(i_ref is None or i == i_ref) and (j_ref is None or j == j_ref)]. *)
Definition on_reference (rf : list (option Z)) (i j : Z) : bool :=
  Py.none_or_eq (nth 0 rf None) i && Py.none_or_eq (nth 1 rf None) j.

(** The panel mirrored in the diagonal of the grid: row and column are
    exchanged, and so are the top and the left label. *)
Definition transpose_panel (p : panel) : panel :=
  match p with
  | Deleted i j => Deleted j i
  | Drawn i j sel titlex titley => Drawn j i sel titley titlex
  end.

(** What a cell shows, whatever its place in the grid: nothing when its axes
    are deleted, else the data and the two labels. *)
Definition content (p : panel)
    : option (selection * option string * option string) :=
  match p with
  | Deleted _ _ => None
  | Drawn _ _ sel titlex titley => Some (sel, titlex, titley)
  end.

(** The labelling of a packed grid: every panel that is drawn has a top
    label and no left label. *)
Definition top_label_only (p : panel) : Prop :=
  match p with
  | Drawn _ _ _ titlex titley => titlex <> None /\ titley = None
  | Deleted _ _ => True
  end.

(** ** Basic facts *)

Lemma wrap64_small (z : Z) :
  - 2 ^ 63 <= z < 2 ^ 63 -> Np.wrap64 z = z.
Proof.
  intros H. unfold Np.wrap64.
  rewrite Z.mod_small by lia. lia.
Qed.

(** The six outcomes of the insertion sort on three keys; ties keep the
    earlier index first. *)
Lemma argsort3 (a b c : Z) :
  Np.argsort [a; b; c] =
  if b <? a then
    if c <? a then (if c <? b then [2; 1; 0]%nat else [1; 2; 0]%nat)
    else [1; 0; 2]%nat
  else
    if c <? b then (if c <? a then [2; 0; 1]%nat else [0; 2; 1]%nat)
    else [0; 1; 2]%nat.
Proof.
  unfold Np.argsort. cbn.
  destruct (b <? a) eqn:E1; cbn;
    destruct (c <? a) eqn:E2; cbn; rewrite ?E2;
    destruct (c <? b) eqn:E3; cbn; rewrite ?E2, ?E3; reflexivity.
Qed.

(** Every count from 1 to 16 has a table entry, with enough cells and not
    taller than wide. *)
Lemma conf_map_entry (C : Z) :
  1 <= C <= 16 ->
  exists rows cols,
    Py.index conf_map C = Ok (Some (rows, cols)) /\
    C <= rows * cols /\ rows <= cols /\ 1 <= rows.
Proof.
  intros H.
  assert (E : C = 1 \/ C = 2 \/ C = 3 \/ C = 4 \/ C = 5 \/ C = 6 \/ C = 7 \/
              C = 8 \/ C = 9 \/ C = 10 \/ C = 11 \/ C = 12 \/ C = 13 \/
              C = 14 \/ C = 15 \/ C = 16) by lia.
  repeat (destruct E as [E | E]; [subst C; do 2 eexists; vm_compute; intuition discriminate |]).
  subst C; do 2 eexists; vm_compute; intuition discriminate.
Qed.

(** ** The packing table *)

(** C9: for every count C from 1 to 16 the packing table has an entry
    (rows, cols) with rows * cols >= C and rows <= cols. *)
Theorem conf_map_covers_count (C : Z) :
  1 <= C <= 16 ->
  exists rows cols,
    Py.index conf_map C = Ok (Some (rows, cols)) /\
    rows * cols >= C /\ rows <= cols.
Proof.
  intros H. destruct (conf_map_entry C H) as (r & c & E & Hc & Hr & _).
  exists r, c. repeat split; [exact E | lia | exact Hr].
Qed.

Lemma conf_map_covers_count_witness :
  1 <= 7 <= 16 /\
  exists rows cols,
    Py.index conf_map 7 = Ok (Some (rows, cols)) /\
    rows * cols >= 7 /\ rows <= cols.
Proof.
  split; [lia | apply (conf_map_covers_count 7); lia].
Defined.

(** Runs the panel loop on a concrete grid, leaving the label texts as they
    are written. *)
Ltac run_loop := lazy -[Py.str_of_Z Np.wrap64 Z.mul String.append].

(** ** Boundary layouts *)

(** C2, as stated, fails: one model and three lead times do not give the
    shape (1, 3). *)
Lemma three_lead_times_not_one_row :
  rmap panel_shape (panel_daemon 1 3 None false false false) <> Ok [1; 3].
Proof. vm_compute. discriminate. Qed.

(** C2, amended: with one model, three lead times, no ensemble, no mean and
    no reference, the two longest dimensions are first assigned to the grid
    axes with lengths (1, 3); since one of them is 1 the layout is collapsed
    and the packing table maps the count 3 to the shape (2, 2), with the lead
    time as the only axis. *)
Theorem three_lead_times_packed_2x2 :
  let s := assign_axes (var_len 1 3 None false) (num_members None false)
             false false in
  st_xy s = [Ensemble; LeadTime] /\
  st_shape s = [1; 3] /\
  (Py.min (st_shape s) <? 2) = true /\
  Py.index conf_map 3 = Ok (Some (2, 2)) /\
  panel_daemon 1 3 None false false false =
    Ok (mkPlan [2; 2] [LeadTime] [3] [None; None; None] [None; None]).
Proof. vm_compute. repeat split; reflexivity. Qed.

(** C3: one model and seven lead times trigger the collapse; the table maps
    the count 7 to the shape (2, 4), and the panel loop deletes exactly one
    panel, the last cell (1, 3) of linear index 7; the other seven cells are
    drawn. *)
Theorem seven_lead_times_last_cell_empty (f : figure)
    (Hp : n_paths f = 1%nat) (Hl : List.length (lead_times f) = 7%nat) :
  let s := assign_axes (var_len 1 7 None false) (num_members None false)
             false false in
  (Py.min (st_shape s) <? 2) = true /\
  Py.index conf_map 7 = Ok (Some (2, 4)) /\
  exists pl,
    panel_daemon 1 7 None false false false = Ok pl /\
    panel_shape pl = [2; 4] /\
    exists ps,
      bind_panels f pl false false = Ok ps /\
      map panel_cell ps =
        [(0, 0); (0, 1); (0, 2); (0, 3); (1, 0); (1, 1); (1, 2); (1, 3)] /\
      map is_deleted ps =
        [false; false; false; false; false; false; false; true] /\
      nth_error ps 7 = Some (Deleted 1 3).
Proof.
  destruct f as [np ml mem lts rl]. simpl in Hp, Hl. subst np.
  do 8 (destruct lts as [| ? lts]; try discriminate).
  split; [reflexivity |]. split; [reflexivity |].
  exists (mkPlan [2; 4] [LeadTime] [7] [None; None; None] [None; None]).
  split; [vm_compute; reflexivity |]. split; [reflexivity |].
  eexists. split; [run_loop; reflexivity |]. repeat split.
Qed.

Lemma seven_lead_times_last_cell_empty_witness :
  let f := mkFigure 1 None [None] [0; 1; 2; 3; 4; 5; 6] "ref" in
  let s := assign_axes (var_len 1 7 None false) (num_members None false)
             false false in
  (Py.min (st_shape s) <? 2) = true /\
  Py.index conf_map 7 = Ok (Some (2, 4)) /\
  exists pl,
    panel_daemon 1 7 None false false false = Ok pl /\
    panel_shape pl = [2; 4] /\
    exists ps,
      bind_panels f pl false false = Ok ps /\
      map panel_cell ps =
        [(0, 0); (0, 1); (0, 2); (0, 3); (1, 0); (1, 1); (1, 2); (1, 3)] /\
      map is_deleted ps =
        [false; false; false; false; false; false; false; true] /\
      nth_error ps 7 = Some (Deleted 1 3).
Proof.
  exact (seven_lead_times_last_cell_empty
           (mkFigure 1 None [None] [0; 1; 2; 3; 4; 5; 6] "ref")
           eq_refl eq_refl).
Defined.

(** ** Validation of the dimensions *)

Lemma existsb_eqb_In (z : Z) (l : list Z) :
  existsb (Z.eqb z) l = true <-> In z l.
Proof.
  rewrite existsb_exists. split.
  - intros (x & Hx & E). apply Z.eqb_eq in E. now subst.
  - intros H. exists z. split; [exact H | apply Z.eqb_refl].
Qed.

(** Past the two assertions no [AssertionError] is raised. *)
Lemma layout_never_asserts (vlen : list Z) (nmem : Z) (m r sw : bool)
    (msg : string) :
  (p <- collapse m r (assign_axes vlen nmem m r) ;; finish sw p)
    <> Raise (AssertionError msg).
Proof.
  unfold collapse.
  destruct (Py.min _ <? 2); [| destruct sw; discriminate].
  destruct (_ >? panel_limit); [discriminate |].
  destruct m, r; cbn -[conf_map assign_axes];
    repeat match goal with
    | |- context [Py.index_opt conf_map ?x] =>
        let E := fresh in
        destruct (Py.index_opt conf_map x) as [[[? ?]|]|[]] eqn:E;
        try (unfold Py.index_opt, Py.index in E;
             repeat match type of E with
             | context [match ?y with _ => _ end] => destruct y
             end; discriminate);
        cbn -[conf_map assign_axes]
    | |- context [Py.index conf_map ?x] =>
        let E := fresh in
        destruct (Py.index conf_map x) as [[[? ?]|]|[]] eqn:E;
        try (unfold Py.index in E;
             repeat match type of E with
             | context [match ?y with _ => _ end] => destruct y
             end; discriminate);
        cbn -[conf_map assign_axes]
    end;
    destruct sw; cbn; discriminate.
Qed.

(** C6: [panel_daemon] raises its dimension error (an [AssertionError])
    exactly when one of the three resolved lengths is zero or none of them
    is exactly 1; in particular 3 models, 4 lead times and 2 members fail.
    The check comes first: it is decided by the three lengths alone, before
    the panel limit is looked at (twenty lead times with an empty ensemble
    fail on the zero length), and when it fails [plot] draws no panel. *)
Theorem invalid_dimension_iff (nm nlt : Z) (ens : option Z) (m r sw : bool) :
  ((exists msg, panel_daemon nm nlt ens m r sw = Raise (AssertionError msg))
   <-> (In 0 (var_len nm nlt ens m) \/ ~ In 1 (var_len nm nlt ens m))) /\
  panel_daemon 3 4 (Some 2) m r sw =
    Raise (AssertionError "At least one dimension needs length 1") /\
  panel_daemon 1 20 (Some 0) false r sw =
    Raise (AssertionError "Cannot deal with zero dimension") /\
  (forall f : figure,
     (exists msg, panel_daemon (Z.of_nat (n_paths f))
                    (Z.of_nat (List.length (lead_times f)))
                    (Some (Z.of_nat (List.length (members f)))) m r sw
                  = Raise (AssertionError msg)) ->
     is_ok (plot f m r sw) = false).
Proof.
  split; [| split; [| split]].
  - unfold panel_daemon.
    destruct (existsb (Z.eqb 0) (var_len nm nlt ens m)) eqn:E0.
    + split; [intros _ | intros _; eexists; reflexivity].
      left. now apply existsb_eqb_In.
    + destruct (existsb (Z.eqb 1) (var_len nm nlt ens m)) eqn:E1; cbn [negb].
      * split.
        -- intros [msg H]. exfalso. exact (layout_never_asserts _ _ _ _ _ _ H).
        -- intros [H | H].
           ++ apply existsb_eqb_In in H. congruence.
           ++ exfalso. apply H. now apply existsb_eqb_In.
      * split; [intros _ | intros _; eexists; reflexivity].
        right. intros H. apply existsb_eqb_In in H. congruence.
  - destruct m, r, sw; reflexivity.
  - destruct r, sw; reflexivity.
  - intros f [msg H]. unfold plot.
    destruct (Py.index _ 0); [cbn [bind]; rewrite H |]; reflexivity.
Qed.

(** ** Swapping the axes *)

(** Without the ensemble mean the position of the mean is empty in every
    plan. *)
Lemma collapse_no_mean (r : bool) (s : stage) (p : packed) :
  st_ens_mean s = [None; None; None] ->
  collapse false r s = Ok p -> pk_ens_mean p = Some [None; None; None].
Proof.
  intros Hs. unfold collapse. destruct (Py.min _ <? 2).
  - destruct (_ >? _); [discriminate |]. cbn [bind].
    destruct (if r then _ else _) as [rf |]; [| discriminate]. cbn [bind].
    destruct (Py.index conf_map _); [| discriminate]. cbn [bind].
    intros H. injection H as <-. cbn. now rewrite Hs.
  - intros H. injection H as <-. cbn. now rewrite Hs.
Qed.

(** C7: [swap_axes=True] does not exchange the roles of grid-x and grid-y in
    the position of the ensemble mean: line 146 reverses the three entries
    [only ens mean, x, y] as a whole, which its own comment calls not
    correct (swap only the last two).  With one model, 8 lead times, 5
    members and the ensemble mean, the swap moves the ensemble from grid-x
    to grid-y while the mean stays at index 5 of grid-x: the plan returned
    is not the transposed plan.  The shape, the axes, their lengths and the
    reference position are transposed for every input, and the whole plan is
    whenever no ensemble mean is requested; an error is the same error. *)
Theorem swap_axes_leaves_ens_mean_behind :
  panel_daemon 1 8 (Some 5) true false false =
    Ok (mkPlan [6; 8] [Ensemble; LeadTime] [6; 8] [None; Some 5; None]
          [None; None]) /\
  panel_daemon 1 8 (Some 5) true false true =
    Ok (mkPlan [8; 6] [LeadTime; Ensemble] [8; 6] [None; Some 5; None]
          [None; None]) /\
  rmap transpose (panel_daemon 1 8 (Some 5) true false false) =
    Ok (mkPlan [8; 6] [LeadTime; Ensemble] [8; 6] [None; None; Some 5]
          [None; None]) /\
  panel_daemon 1 8 (Some 5) true false true <>
    rmap transpose (panel_daemon 1 8 (Some 5) true false false) /\
  (forall (nm nlt : Z) (ens : option Z) (m r : bool),
     rmap axes_part (panel_daemon nm nlt ens m r true) =
     rmap (fun p => axes_part (transpose p))
       (panel_daemon nm nlt ens m r false)) /\
  (forall (nm nlt : Z) (ens : option Z) (r : bool),
     panel_daemon nm nlt ens false r true =
     rmap transpose (panel_daemon nm nlt ens false r false)).
Proof.
  split; [vm_compute; reflexivity |].
  split; [vm_compute; reflexivity |].
  split; [vm_compute; reflexivity |].
  split; [vm_compute; discriminate |].
  split.
  - intros nm nlt ens m r. unfold panel_daemon.
    destruct (existsb (Z.eqb 0) _); [reflexivity |].
    destruct (negb _); [reflexivity |].
    destruct (collapse m r _) as [p | e]; [| reflexivity].
    destruct p as [[sh |] xy ln [em |] [rf |]]; reflexivity.
  - intros nm nlt ens r. unfold panel_daemon.
    destruct (existsb (Z.eqb 0) _); [reflexivity |].
    destruct (negb _); [reflexivity |].
    destruct (collapse false r _) as [p | e] eqn:Ec; [| reflexivity].
    apply collapse_no_mean in Ec; [| unfold assign_axes; now destruct r].
    destruct p as [[sh |] xy ln em [rf |]]; cbn in Ec; subst em; reflexivity.
Qed.

(** ** Placement of the reference *)

(** The two assigned axes are two different dimensions. *)
Lemma assigned_axes_cases (a b c : Z) :
  let xy := Py.last2 (Np.argsort [a; b; c]) in
  xy = [1; 0]%nat \/ xy = [2; 0]%nat \/ xy = [0; 2]%nat \/
  xy = [0; 1]%nat \/ xy = [2; 1]%nat \/ xy = [1; 2]%nat.
Proof.
  rewrite argsort3.
  destruct (b <? a), (c <? a), (c <? b); cbn; tauto.
Qed.

Ltac axes_cases a b c :=
  let H := fresh "Hxy" in
  pose proof (assigned_axes_cases a b c) as H; cbv zeta in H;
  destruct H as [H | [H | [H | [H | [H | H]]]]].

(** C4: with 2 models, 4 lead times and a reference (no ensemble), the shape
    is (3, 4), the reference sits at row 2 of every column, and the panel
    loop draws the reference in exactly the four cells of row 2.  In general
    the axis extended for the reference is never the lead-time axis: along the
    lead-time axis the shape and the reference position are left as they
    were. *)
Theorem reference_not_along_lead_time (nm nlt : Z) (ens : option Z)
    (m : bool) (f : figure)
    (Hp : n_paths f = 2%nat) (Hl : List.length (lead_times f) = 4%nat)
    (Hm : match model_labels f with
          | Some ls => List.length ls = n_paths f
          | None => True
          end) :
  (exists pl,
     panel_daemon 2 4 None false true false = Ok pl /\
     panel_shape pl = [3; 4] /\
     var_idx_xy pl = [Model; LeadTime] /\
     ref pl = [Some 2; None] /\
     exists ps,
       bind_panels f pl false true = Ok ps /\
       map is_reference ps =
         [false; false; false; false; false; false; false; false;
          true; true; true; true] /\
       map panel_cell (filter is_reference ps) = [(2, 0); (2, 1); (2, 2); (2, 3)]) /\
  let s0 := assign_axes (var_len nm nlt ens m) (num_members ens m) m false in
  let s := assign_axes (var_len nm nlt ens m) (num_members ens m) m true in
  let d := ref_dim_of (st_xy s) in
  st_xy s = st_xy s0 /\
  (d < 2)%nat /\
  nth d (st_xy s) O <> LeadTime /\
  nth d (st_ref s) None = Some (nth d (st_shape s0) 0) /\
  nth d (st_shape s) 0 = Np.wrap64 (nth d (st_shape s0) 0 + 1) /\
  (forall d', (d' < 2)%nat -> nth d' (st_xy s) O = LeadTime ->
     nth d' (st_shape s) 0 = nth d' (st_shape s0) 0 /\
     nth d' (st_ref s) None = None).
Proof.
  split.
  - destruct f as [np ml mem lts rl]. simpl in Hp, Hl, Hm. subst np.
    do 5 (destruct lts as [| ? lts]; try discriminate).
    exists (mkPlan [3; 4] [Model; LeadTime] [3; 4] [None; None; None]
              [Some 2; None]).
    split; [vm_compute; reflexivity |]. do 3 (split; [reflexivity |]).
    destruct ml as [ls |].
    + do 3 (destruct ls as [| ? ls]; try discriminate).
      eexists. split; [run_loop; reflexivity |]. split; reflexivity.
    + eexists. split; [run_loop; reflexivity |]. split; reflexivity.
  - unfold assign_axes, var_len.
    axes_cases nm nlt (num_members ens m); rewrite Hxy; cbn;
      (split; [reflexivity |]; split; [lia |]; split; [discriminate |];
       split; [reflexivity |]; split; [reflexivity |];
       intros [| [| d']] Hd E; cbn in *;
       try discriminate; try lia; split; reflexivity).
Qed.

Lemma reference_not_along_lead_time_witness :
  let f := mkFigure 2 None [None] [0; 4; 8; 12] "MEPS" in
  exists pl,
    panel_daemon 2 4 None false true false = Ok pl /\
    panel_shape pl = [3; 4] /\
    var_idx_xy pl = [Model; LeadTime] /\
    ref pl = [Some 2; None] /\
    exists ps,
      bind_panels f pl false true = Ok ps /\
      map is_reference ps =
        [false; false; false; false; false; false; false; false;
         true; true; true; true] /\
      map panel_cell (filter is_reference ps) = [(2, 0); (2, 1); (2, 2); (2, 3)].
Proof.
  exact (proj1 (reference_not_along_lead_time 2 4 None false
                  (mkFigure 2 None [None] [0; 4; 8; 12] "MEPS")
                  eq_refl eq_refl I)).
Defined.

Lemma assign_axes_xy (a b c nmem : Z) (m r : bool) :
  st_xy (assign_axes [a; b; c] nmem m r) = Py.last2 (Np.argsort [a; b; c]).
Proof. unfold assign_axes. destruct r; reflexivity. Qed.



(** ** Labels *)

(** C8: two models and three lead times give a 2 x 3 grid with the model on
    the rows and the lead time on the columns; the panel loop draws all six
    cells, with a top label exactly on the cells of row 0 and a left label
    exactly on the cells of column 0, [None] everywhere else. *)
Theorem labels_on_edges_only (f : figure)
    (Hp : n_paths f = 2%nat) (Hl : List.length (lead_times f) = 3%nat)
    (He : List.length (members f) = 1%nat)
    (Hm : match model_labels f with
          | Some ls => List.length ls = n_paths f
          | None => True
          end) :
  exists pl ps,
    panel_daemon 2 3 (Some 1) false false false = Ok pl /\
    panel_shape pl = [2; 3] /\
    var_idx_xy pl = [Model; LeadTime] /\
    bind_panels f pl false false = Ok ps /\
    plot f false false false = Ok ps /\
    map panel_cell ps = [(0, 0); (0, 1); (0, 2); (1, 0); (1, 1); (1, 2)] /\
    Forall edge_labels_only ps.
Proof.
  destruct f as [np ml mem lts rl]. simpl in Hp, Hl, He, Hm. subst np.
  do 4 (destruct lts as [| ? lts]; try discriminate).
  do 2 (destruct mem as [| ? mem]; try discriminate).
  exists (mkPlan [2; 3] [Model; LeadTime] [2; 3] [None; None; None]
            [None; None]).
  assert (Hpd : panel_daemon 2 3 (Some 1) false false false =
                Ok (mkPlan [2; 3] [Model; LeadTime] [2; 3]
                      [None; None; None] [None; None]))
    by (vm_compute; reflexivity).
  unfold plot. cbn [n_paths lead_times members List.length Z.of_nat
                    Pos.of_succ_nat Pos.succ].
  change (Py.index (seq 0 2) 0) with (Ok 0%nat).
  cbn [bind]. rewrite Hpd. cbn [bind].
  destruct ml as [ls |].
  - do 3 (destruct ls as [| ? ls]; try discriminate).
    eexists. do 3 (split; [reflexivity |]).
    split; [run_loop; reflexivity |].
    split; [run_loop; reflexivity |].
    split; [reflexivity |].
    repeat constructor; intros; try discriminate; try lia; try congruence.
  - eexists. do 3 (split; [reflexivity |]).
    split; [run_loop; reflexivity |].
    split; [run_loop; reflexivity |].
    split; [reflexivity |].
    repeat constructor; intros; try discriminate; try lia; try congruence.
Qed.

Lemma labels_on_edges_only_witness :
  let f := mkFigure 2 (Some ["CRPS"; "CRPS+KL"]) [Some 0] [0; 4; 8] "ref" in
  exists pl ps,
    panel_daemon 2 3 (Some 1) false false false = Ok pl /\
    panel_shape pl = [2; 3] /\
    var_idx_xy pl = [Model; LeadTime] /\
    bind_panels f pl false false = Ok ps /\
    plot f false false false = Ok ps /\
    map panel_cell ps = [(0, 0); (0, 1); (0, 2); (1, 0); (1, 1); (1, 2)] /\
    Forall edge_labels_only ps.
Proof.
  exact (labels_on_edges_only
           (mkFigure 2 (Some ["CRPS"; "CRPS+KL"]) [Some 0] [0; 4; 8] "ref")
           eq_refl eq_refl eq_refl eq_refl).
Defined.

(** ** Totality within the panel limit *)

Lemma panel_daemon_checked (nm nlt : Z) (ens : option Z) (m r sw : bool) :
  ~ In 0 (var_len nm nlt ens m) -> In 1 (var_len nm nlt ens m) ->
  panel_daemon nm nlt ens m r sw =
  (p <- collapse m r
          (assign_axes (var_len nm nlt ens m) (num_members ens m) m r) ;;
   finish sw p).
Proof.
  intros H0 H1. unfold panel_daemon.
  destruct (existsb (Z.eqb 0) _) eqn:E0.
  - apply existsb_eqb_In in E0. contradiction.
  - destruct (existsb (Z.eqb 1) _) eqn:E1; [reflexivity |].
    apply existsb_eqb_In in H1. congruence.
Qed.

(** Settles the first comparison in the goal, by arithmetic when the context
    decides it. *)
Ltac decide_test :=
  try match goal with
      | |- context [?x <? ?y] => destruct (Z.ltb_spec x y); try lia
      | |- context [?x =? ?y] => destruct (Z.eqb_spec x y); try lia
      | |- context [?x >? ?y] =>
          rewrite (Z.gtb_ltb x y); destruct (Z.ltb_spec y x); try lia
      | |- context [Z.min ?x ?y] =>
          first [rewrite (Z.min_l x y) by lia | rewrite (Z.min_r x y) by lia]
      | |- context [Z.max ?x ?y] =>
          first [rewrite (Z.max_l x y) by lia | rewrite (Z.max_r x y) by lia]
      end.

Ltac table_entry d :=
  let rows := fresh "rows" in
  let cols := fresh "cols" in
  let E := fresh "E" in
  destruct (conf_map_entry d ltac:(lia)) as (rows & cols & E & ? & ? & ?);
  rewrite E.

(** Evaluates the axis assignment, then the collapse and the return. *)
Ltac step_axes :=
  change panel_limit with 16 in *;
  repeat (progress
    (cbn -[conf_map Z.min Z.max Py.index Z.add Z.sub Z.ltb Z.gtb Z.eqb
           collapse finish];
     repeat rewrite wrap64_small by (unfold int64_max in *; lia);
     decide_test)).

Ltac step :=
  change panel_limit with 16 in *;
  repeat (progress
    (cbn -[conf_map Z.min Z.max Py.index Z.add Z.sub Z.ltb Z.gtb Z.eqb];
     repeat rewrite wrap64_small by (unfold int64_max in *; lia);
     decide_test)).

(** C1, as stated, fails: one model and twenty lead times satisfy the
    preconditions, and the resolver raises. *)
Lemma twenty_lead_times_exceed_limit :
  valid_input 1 20 None /\
  panel_daemon 1 20 None false false false =
    Raise (ValueError "Panel limit reached!").
Proof.
  split; [| reflexivity].
  unfold valid_input, is_one. repeat split; lia.
Qed.

(** C1, amended: for every input that satisfies the preconditions (lengths
    below the largest int64), the mean-only mode (no ensemble size with the
    ensemble mean) left aside, the resolver either returns a shape whose two
    entries are at least 1, or raises the panel-limit error; it raises
    exactly when a single dimension is collapsed with more than 16 panels to
    pack. *)
Theorem layout_total_within_limit (nm nlt : Z) (ens : option Z)
    (m r sw : bool) :
  valid_input nm nlt ens ->
  ~ (ens = None /\ m = true) ->
  nm < int64_max -> nlt < int64_max -> num_members ens m < int64_max ->
  if packs_too_many nm nlt ens m r
  then panel_daemon nm nlt ens m r sw =
         Raise (ValueError "Panel limit reached!")
  else exists pl rows cols,
         panel_daemon nm nlt ens m r sw = Ok pl /\
         panel_shape pl = [rows; cols] /\ 1 <= rows /\ 1 <= cols.
Proof.
  intros (Hnm & Hnlt & Hens & Hone) Hmean Hi1 Hi2 Hi3.
  assert (Hn : 1 <= num_members ens m).
  { destruct ens as [n |], m; unfold num_members in *; cbn in *; lia. }
  rewrite panel_daemon_checked.
  2:{ cbn. lia. }
  2:{ cbn. destruct Hone as [[? ?] | [[? ?] | [? ?]]]; tauto. }
  unfold packs_too_many, assign_axes, var_len. rewrite argsort3.
  assert (Hm : m = true -> 2 <= num_members ens m).
  { intros ->. destruct ens; unfold num_members in *; cbn in *; try lia.
    exfalso; apply Hmean; split; reflexivity. }
  assert (Hslots : (nm = 1 /\ nlt = 1) \/
                   ((nm = 1 \/ nlt = 1) /\
                    (num_members ens m = 1 /\ m = false \/
                     num_members ens m = 2 /\ m = true))).
  { destruct Hone as [[? ?] | [[? ?] | [? ?]]]; [tauto | right | right];
      (split; [tauto |]);
      destruct ens as [n |], m; unfold num_members in *; cbn in *;
      first [ left; split; [lia | reflexivity]
            | right; split; [lia | reflexivity]
            | exfalso; apply Hmean; split; reflexivity ]. }
  clear Hone Hmean Hens.
  generalize dependent (num_members ens m). intros nmem. intros.
  destruct Hslots as [[-> ->] | [[-> | ->] [[-> Em] | [-> Em]]]].
  all: unfold place_ens_mean; destruct r, m, sw;
    try (specialize (Hm eq_refl)); try discriminate; step_axes;
    unfold collapse; step.
  all: repeat match goal with
       | |- context [Py.index conf_map ?d] => table_entry d; step
       end.
  all: try (exfalso; lia).
  all: try reflexivity.
  all: try (do 3 eexists; split; [reflexivity |]; split; [reflexivity |]; lia).
Qed.

Lemma layout_total_within_limit_witness :
  exists pl rows cols,
    panel_daemon 1 7 None false true false = Ok pl /\
    panel_shape pl = [rows; cols] /\ 1 <= rows /\ 1 <= cols.
Proof.
  apply (layout_total_within_limit 1 7 None false true false).
  - unfold valid_input, is_one. repeat split; lia.
  - intros [_ H]. discriminate H.
  - reflexivity.
  - reflexivity.
  - reflexivity.
Defined.

(** ** The position of the ensemble mean *)

(** C5: with 5 members and the ensemble mean there are 6 member slots.
    Without [swap_axes], on two axes (one model and several lead times, or one lead
    time and several models) the resolver returns the mean at index 5 of the
    ensemble axis, which is no index of a member (0..4); and when the
    ensemble is on neither axis (the mean alone, on models and lead times)
    it returns the flag for all panels.  With [swap_axes] the position is
    lost: line 146 reverses the three entries [only ens mean, x, y] as a
    whole, so that for 2 models, 1 lead time and 5 members the returned plan
    has the ensemble on grid-x, no index along it, and 5 in the entry that
    stands for all panels.  The collapse of line 134 likewise returns the
    table entry of 5, the shape (2, 3), for the position.  The source flags
    both lines as not correct. *)
Theorem ensemble_mean_slot_of_five_members :
  (forall (nm nlt : Z) (r : bool),
     1 <= nm < int64_max - 2 -> 1 <= nlt < int64_max - 2 ->
     (nm = 1 /\ 2 <= nlt) \/ (nlt = 1 /\ 2 <= nm) ->
     exists pl d,
       panel_daemon nm nlt (Some 5) true r false = Ok pl /\
       ((var_idx_xy pl = [Ensemble; d] /\
         ens_mean pl = [None; Some 5; None]) \/
        (var_idx_xy pl = [d; Ensemble] /\
         ens_mean pl = [None; None; Some 5])) /\
       d <> Ensemble) /\
  num_members (Some 5) true - 1 = 5 /\
  ~ In 5 (Py.range (resolve_ens_size (Some 5) true)) /\
  (forall (nm nlt : Z) (ens : option Z) (r : bool),
     ens = None \/ ens = Some 0 ->
     2 <= nm < int64_max - 2 -> 2 <= nlt < int64_max - 2 ->
     exists pl,
       panel_daemon nm nlt ens true r false = Ok pl /\
       List.length (var_idx_xy pl) = 2%nat /\
       ~ In Ensemble (var_idx_xy pl) /\
       ens_mean pl = [Some 0; None; None]) /\
  panel_daemon 2 1 (Some 5) true false false =
    Ok (mkPlan [2; 6] [Model; Ensemble] [2; 6] [None; None; Some 5]
          [None; None]) /\
  panel_daemon 2 1 (Some 5) true false true =
    Ok (mkPlan [6; 2] [Ensemble; Model] [6; 2] [Some 5; None; None]
          [None; None]) /\
  panel_daemon 1 1 (Some 5) true false false =
    Ok (mkPlan [2; 3] [Ensemble] [6] [Some 2; Some 3] [None; None]).
Proof.
  split; [| split; [reflexivity |]; split; [vm_compute; lia |];
            split; [| repeat split; vm_compute; reflexivity]].
  - intros nm nlt r Hnm Hnlt Hone.
    rewrite panel_daemon_checked.
    2:{ cbn. lia. }
    2:{ cbn. lia. }
    unfold assign_axes, var_len. rewrite argsort3.
    change (num_members (Some 5) true) with 6.
    destruct Hone as [[-> H] | [-> H]]; destruct r;
      unfold place_ens_mean; step_axes; unfold collapse; step.
    all: do 2 eexists; split; [reflexivity |]; split;
      [ first [ left; split; reflexivity | right; split; reflexivity ]
      | unfold Ensemble; discriminate ].
  - intros nm nlt ens r Hens Hnm Hnlt.
    rewrite panel_daemon_checked.
    2:{ destruct Hens as [-> | ->]; cbn; lia. }
    2:{ destruct Hens as [-> | ->]; cbn; lia. }
    unfold assign_axes, var_len. rewrite argsort3.
    replace (num_members ens true) with 1
      by (destruct Hens as [-> | ->]; reflexivity).
    destruct r; unfold place_ens_mean; step_axes; unfold collapse; step.
    all: eexists; split; [reflexivity |]; split; [reflexivity |];
      split; [| reflexivity];
      unfold Ensemble; cbn; intros [E | [E | []]]; discriminate.
Qed.


(** ** The members dimension of a loaded dataset *)

Lemma update_lookup {A : Type} (k : string) (v : A) (l : list (string * A)) :
  Xr.lookup k l = Some v -> Xr.update k v l = l.
Proof.
  induction l as [| [k' v'] t IH]; cbn; [reflexivity |].
  destruct (String.eqb k' k).
  - intros H. injection H as ->. reflexivity.
  - intros H. now rewrite IH.
Qed.

Lemma lookup_update {A : Type} (k : string) (v w : A) (l : list (string * A)) :
  Xr.lookup k l = Some w -> Xr.lookup k (Xr.update k v l) = Some v.
Proof.
  induction l as [| [k' v'] t IH]; cbn; [discriminate |].
  destruct (String.eqb k' k) eqn:E; cbn; rewrite E; [reflexivity | exact IH].
Qed.

(** An elementwise conversion leaves the structure as it is. *)
Lemma map_var_structure (name : string) (ds : Xr.Dataset) :
  Xr.map_var name ds = ds.
Proof.
  unfold Xr.map_var. destruct (Xr.lookup name (Xr.data_vars ds)) eqn:E;
    [| reflexivity].
  rewrite (update_lookup _ _ _ E). now destruct ds.
Qed.

Lemma convert_units_structure (ds : Xr.Dataset) : convert_units ds = ds.
Proof.
  unfold convert_units. rewrite !map_var_structure.
  repeat match goal with |- context [if ?b then _ else _] => destruct b end;
    reflexivity.
Qed.

Lemma add_member_axis_spec (i : Z) (ds d : Xr.Dataset) :
  add_member_axis i ds = Ok d ->
  members_axis 1 [i] d.
Proof.
  unfold add_member_axis, Xr.expand_dims.
  destruct (Xr.has "members" (Xr.sizes ds)); [discriminate |].
  destruct (Xr.has "members" (Xr.data_vars ds)); [discriminate |].
  cbn. intros H. injection H as <-. cbn.
  repeat split. apply Forall_forall. intros v Hv.
  apply in_map_iff in Hv. destruct Hv as (w & <- & _). reflexivity.
Qed.

Lemma with_members_spec (datasets : list Xr.Dataset) :
  forall (i : Z) (l : list Xr.Dataset),
    with_members i datasets = Ok l ->
    List.length l = List.length datasets /\
    Forall (fun d => Xr.has "members" (Xr.sizes d) = true /\
                     Forall (fun v => hd_error (snd v) = Some "members"%string)
                       (Xr.data_vars d)) l /\
    map (Xr.size_along "members") l = repeat 1%nat (List.length datasets) /\
    flat_map (Xr.coord_along "members") l =
      map (fun k => i + Z.of_nat k) (seq 0 (List.length datasets)).
Proof.
  induction datasets as [| ds rest IH]; intros i l H; cbn in H.
  - injection H as <-. repeat split; constructor.
  - destruct (add_member_axis i ds) as [d |] eqn:Ed; [| discriminate].
    cbn [bind] in H.
    destruct (with_members (i + 1) rest) as [ds' |] eqn:Er; [| discriminate].
    cbn [bind] in H. injection H as <-.
    destruct (IH _ _ Er) as (Hlen & Hall & Hsz & Hco).
    destruct (add_member_axis_spec _ _ _ Ed) as (Hs & Hc & Hv).
    cbn [List.length map flat_map repeat seq].
    unfold Xr.size_along at 1, Xr.coord_along at 1, Xr.has.
    rewrite Hs, Hc, Hsz, Hco. repeat split.
    + now rewrite Hlen.
    + constructor; [| exact Hall]. unfold Xr.has. rewrite Hs. now split.
    + cbn. f_equal; [lia |]. rewrite <- seq_shift, map_map.
      apply map_ext. intros k. lia.
Qed.

Lemma load_members_length (glob : string -> list string)
    (open_dataset : string -> result Xr.Dataset)
    (path time file_prefix : string) (members : list Z) :
  forall datasets,
    load_members glob open_dataset path time file_prefix members = Ok datasets ->
    List.length datasets = List.length members.
Proof.
  induction members as [| i rest IH]; intros datasets H; cbn in H.
  - now injection H as <-.
  - destruct (glob _) as [| filename ?]; [discriminate |]. cbn [bind] in H.
    destruct (open_dataset filename); [| discriminate]. cbn [bind] in H.
    destruct (load_members _ _ _ _ _ rest) as [dss |]; [| discriminate].
    cbn [bind] in H. injection H as <-. cbn. now rewrite (IH dss).
Qed.

Lemma list_sum_repeat_1 (n : nat) : list_sum (repeat 1%nat n) = n.
Proof.
  unfold list_sum. induction n as [| n IH]; [reflexivity |].
  cbn [repeat fold_right]. now rewrite IH.
Qed.

Lemma lookup_In {A : Type} (k : string) (l : list (string * A)) (v : A) :
  Xr.lookup k l = Some v -> In (k, v) l.
Proof.
  induction l as [| [k' v'] t IH]; cbn; [discriminate |].
  destruct (String.eqb_spec k' k) as [-> | _].
  - intros H. injection H as ->. now left.
  - intros H. right. exact (IH H).
Qed.

Lemma fresh_In {A : Type} (l : list (string * A)) :
  forall seen e, In e (Xr.fresh seen l) -> In e l.
Proof.
  induction l as [| [k v] t IH]; intros seen e; cbn; [tauto |].
  destruct (existsb _ seen).
  - intros H. right. exact (IH _ _ H).
  - intros [H | H]; [now left | right; exact (IH _ _ H)].
Qed.

Lemma entries_In {A : Type} (get : Xr.Dataset -> list (string * A))
    (d0 : Xr.Dataset) (rest : list Xr.Dataset) (e : string * A) :
  In e (Xr.entries get d0 rest) ->
  exists ds, In ds (d0 :: rest) /\ In e (get ds).
Proof.
  unfold Xr.entries. intros H. apply in_app_or in H. destruct H as [H | H].
  - exists d0. split; [now left | exact H].
  - apply fresh_In in H. apply in_flat_map in H.
    destruct H as (ds & Hds & He). exists ds. split; [now right | exact He].
Qed.

Lemma collect_In {A : Type} (get : Xr.Dataset -> list (string * A))
    (k : string) (dss : list Xr.Dataset) (v : A) :
  In v (Xr.collect get k dss) ->
  exists ds, In ds dss /\ In (k, v) (get ds).
Proof.
  unfold Xr.collect. intros H. apply in_flat_map in H.
  destruct H as (ds & Hds & Hv). exists ds. split; [exact Hds |].
  destruct (Xr.lookup k (get ds)) as [w |] eqn:E; [| destruct Hv].
  destruct Hv as [<- | []]. exact (lookup_In _ _ _ E).
Qed.

(** Along the dimension of the concatenation the sizes add up. *)
Lemma concat_size_along (d : string) (total : nat)
    (g : string -> nat -> result nat) (l : list (string * nat)) :
  forall sz,
    Xr.mapM (fun e => if String.eqb (fst e) d then Ok (d, total)
                      else n <- g (fst e) (snd e) ;; Ok (fst e, n)) l
      = Ok sz ->
    Xr.lookup d (if Xr.has d sz then sz else (d, total) :: sz) = Some total.
Proof.
  intros sz H.
  assert (Hl : Xr.lookup d sz = None \/ Xr.lookup d sz = Some total).
  { revert sz H. induction l as [| [k n] t IH]; intros sz H; cbn in H.
    - injection H as <-. now left.
    - destruct (String.eqb k d) eqn:E; cbn [bind] in H.
      + destruct (Xr.mapM _ t) as [ys |]; [| discriminate].
        cbn [bind] in H. injection H as <-. right. cbn.
        now rewrite String.eqb_refl.
      + destruct (g k n) as [m |]; [| discriminate]. cbn [bind] in H.
        destruct (Xr.mapM _ t) as [ys |]; [| discriminate].
        cbn [bind] in H. injection H as <-. cbn. rewrite E.
        exact (IH ys eq_refl). }
  unfold Xr.has. destruct Hl as [-> | Hl].
  - cbn. now rewrite String.eqb_refl.
  - now rewrite Hl.
Qed.

Lemma uniq_head (x : string) (l : list string) :
  hd_error (Xr.uniq (x :: l)) = Some x.
Proof. reflexivity. Qed.

(** A variable that has the dimension first in every dataset has it first
    in the result. *)
Lemma join_dims_head (d : string) (own : list string)
    (dl : list (list string)) :
  hd_error own = Some d ->
  Forall (fun dims => hd_error dims = Some d) dl ->
  hd_error (Xr.join_dims d own dl) = Some d.
Proof.
  intros Ho Hdl. unfold Xr.join_dims.
  destruct (Xr.all_equal _ dl) eqn:E.
  - destruct own as [| x t]; [discriminate |]. injection Ho as ->.
    cbn. now rewrite String.eqb_refl.
  - destruct dl as [| l1 rest]; [discriminate |].
    inversion Hdl as [| ? ? H1 _]; subst.
    destruct l1 as [| x t]; [discriminate |]. injection H1 as ->.
    cbn [List.concat app Xr.uniq existsb]. now rewrite String.eqb_refl.
Qed.

Lemma concat_members_spec (l : list Xr.Dataset) (ds : Xr.Dataset) :
  Xr.concat l "members" = Ok ds ->
  Forall (fun d => Xr.has "members" (Xr.sizes d) = true /\
                   Forall (fun v => hd_error (snd v) = Some "members"%string)
                     (Xr.data_vars d)) l ->
  l <> [] /\
  members_axis (list_sum (map (Xr.size_along "members") l))
    (flat_map (Xr.coord_along "members") l) ds.
Proof.
  unfold Xr.concat. destruct l as [| d0 rest]; [discriminate |].
  destruct (Xr.mixed_names _); [discriminate |].
  destruct (Xr.mapM _ _) as [sz |] eqn:Es; [| discriminate]. cbn [bind].
  intros H Hall. injection H as <-. split; [discriminate |].
  unfold members_axis. cbn [Xr.sizes Xr.coords Xr.data_vars].
  split; [| split].
  - exact (concat_size_along _ _ (fun e own => Xr.join_size e own (d0 :: rest))
             _ _ Es).
  - reflexivity.
  - apply Forall_forall. intros v Hv. apply in_map_iff in Hv.
    destruct Hv as (e & <- & He). cbn [snd].
    rewrite Forall_forall in Hall.
    apply join_dims_head.
    + apply entries_In in He. destruct He as (x & Hx & He).
      destruct (Hall x Hx) as [_ Hv]. rewrite Forall_forall in Hv.
      exact (Hv e He).
    + apply Forall_forall. intros dims Hd.
      apply (collect_In Xr.data_vars (fst e) (d0 :: rest)) in Hd.
      destruct Hd as (x & Hx & Hd).
      destruct (Hall x Hx) as [_ Hv]. rewrite Forall_forall in Hv.
      exact (Hv _ Hd).
Qed.

(** C10: whenever [get_data] returns a dataset, the dataset has the members
    dimension, every data variable has it as its first axis, and the unit
    conversions keep it: for a path ending in .nc, and for no ensemble size,
    one entry with coordinate [1]; in ensemble mode [ens_size] entries (at
    least one) with coordinates 0 .. ens_size - 1, also when the member
    files differ in their variables or in their indexes. *)
Theorem get_data_members_axis (glob : string -> list string)
    (open_dataset : string -> result Xr.Dataset)
    (path time : string) (ens_size : option Z) (file_prefix : string)
    (ds : Xr.Dataset) :
  get_data glob open_dataset path time ens_size file_prefix = Ok ds ->
  match (if Py.endswith path ".nc" then None else ens_size) with
  | None => members_axis 1 [1] ds
  | Some n => 1 <= n /\ members_axis (Z.to_nat n) (Py.range n) ds
  end.
Proof.
  unfold get_data. intros H.
  destruct (Py.endswith path ".nc").
  - destruct (open_dataset path) as [d0 |]; [| discriminate]. cbn [bind] in H.
    destruct (add_member_axis 1 d0) as [d |] eqn:Ed; [| discriminate].
    cbn [bind] in H. injection H as <-. rewrite convert_units_structure.
    exact (add_member_axis_spec _ _ _ Ed).
  - destruct ens_size as [n |].
    + destruct (load_members _ _ _ _ _ _) as [datasets |] eqn:El;
        [| discriminate]. cbn [bind] in H.
      destruct (with_members 0 datasets) as [l |] eqn:Ew; [| discriminate].
      cbn [bind] in H.
      destruct (Xr.concat l "members") as [d |] eqn:Ec; [| discriminate].
      cbn [bind] in H. injection H as <-. rewrite convert_units_structure.
      destruct (with_members_spec _ _ _ Ew) as (Hlen & Hall & Hsz & Hco).
      destruct (concat_members_spec _ _ Ec Hall) as (Hne & Hax).
      apply load_members_length in El.
      unfold Py.range in El. rewrite length_map, length_seq in El.
      rewrite Hsz, Hco, list_sum_repeat_1, El in Hax.
      split.
      * destruct l as [| ? ?]; [contradiction |]. cbn in Hlen. lia.
      * exact Hax.
    + destruct (Py.index _ 0) as [filename |]; [| discriminate].
      cbn [bind] in H.
      destruct (open_dataset filename) as [d0 |]; [| discriminate].
      cbn [bind] in H.
      destruct (add_member_axis 1 d0) as [d |] eqn:Ed; [| discriminate].
      cbn [bind] in H. injection H as <-. rewrite convert_units_structure.
      exact (add_member_axis_spec _ _ _ Ed).
Qed.

Lemma get_data_members_axis_witness :
  let glob := fun pattern : string =>
    if String.eqb pattern "run/0/*2023-08-15T00.nc" then ["run/0/fc.nc"]
    else if String.eqb pattern "run/1/*2023-08-15T00.nc" then ["run/1/fc.nc"]
    else [] in
  let open_dataset := fun filename : string =>
    if String.eqb filename "run/0/fc.nc" then
      Ok (Xr.mkDataset [("lead_times", 3%nat); ("points", 4%nat)]
            [("lead_times", [0; 1; 2])]
            [("air_temperature_2m", ["lead_times"; "points"])])
    else
      Ok (Xr.mkDataset [("lead_times", 3%nat); ("points", 4%nat)]
            [("lead_times", [1; 2; 3])]
            [("air_temperature_2m", ["lead_times"; "points"]);
             ("wind_speed_10m", ["lead_times"; "points"])]) in
  let ds :=
    Xr.mkDataset [("members", 2%nat); ("lead_times", 4%nat); ("points", 4%nat)]
      [("members", [0; 1]); ("lead_times", [0; 1; 2; 3])]
      [("air_temperature_2m", ["members"; "lead_times"; "points"]);
       ("wind_speed_10m", ["members"; "lead_times"; "points"])] in
  get_data glob open_dataset "run/" "2023-08-15T00" (Some 2) "" = Ok ds /\
  1 <= 2 /\ members_axis 2 [0; 1] ds.
Proof.
  intros glob open_dataset ds.
  assert (H : get_data glob open_dataset "run/" "2023-08-15T00" (Some 2) ""
              = Ok ds) by (vm_compute; reflexivity).
  split; [exact H |].
  exact (get_data_members_axis glob open_dataset "run/" "2023-08-15T00"
           (Some 2) "" ds H).
Defined.

(** A single file that opens, with no members dimension of its own, is
    always returned. *)
Lemma get_data_single_file_returns (glob : string -> list string)
    (open_dataset : string -> result Xr.Dataset)
    (path time : string) (ens_size : option Z) (file_prefix : string)
    (d0 : Xr.Dataset) :
  Py.endswith path ".nc" = true ->
  open_dataset path = Ok d0 ->
  Xr.has "members" (Xr.sizes d0) = false ->
  Xr.has "members" (Xr.data_vars d0) = false ->
  exists ds, get_data glob open_dataset path time ens_size file_prefix = Ok ds.
Proof.
  intros Hp Ho Hs Hv. unfold get_data, add_member_axis, Xr.expand_dims.
  rewrite Hp, Ho. cbn [bind]. rewrite Hs, Hv. cbn.
  eexists. reflexivity.
Qed.

Lemma list_eqb_refl {A : Type} (eqb : A -> A -> bool) (l : list A) :
  (forall x, eqb x x = true) -> Xr.list_eqb eqb l l = true.
Proof.
  intros Hr. induction l as [| x t IH]; cbn; [reflexivity |].
  now rewrite Hr, IH.
Qed.

Lemma collect_lookup {A : Type} (get : Xr.Dataset -> list (string * A))
    (k : string) (dss : list Xr.Dataset) (v : A) :
  In v (Xr.collect get k dss) ->
  exists ds, In ds dss /\ Xr.lookup k (get ds) = Some v.
Proof.
  unfold Xr.collect. intros H. apply in_flat_map in H.
  destruct H as (ds & Hds & Hv). exists ds. split; [exact Hds |].
  destruct (Xr.lookup k (get ds)) as [w |]; [| destruct Hv].
  destruct Hv as [<- | []]. reflexivity.
Qed.

(** Datasets that bind a key alike agree on it. *)
Lemma all_equal_collect {A : Type} (eqb : A -> A -> bool)
    (get : Xr.Dataset -> list (string * A)) (k : string)
    (dss : list Xr.Dataset) (o : option A) :
  (forall x, eqb x x = true) ->
  (forall ds, In ds dss -> Xr.lookup k (get ds) = o) ->
  Xr.all_equal eqb (Xr.collect get k dss) = true.
Proof.
  intros Hr Hsame.
  assert (Hall : forall y, In y (Xr.collect get k dss) -> o = Some y).
  { intros y Hy. apply collect_lookup in Hy. destruct Hy as (ds & Hds & E).
    now rewrite <- (Hsame ds Hds). }
  destruct (Xr.collect get k dss) as [| x t]; [reflexivity |].
  cbn. apply forallb_forall. intros y Hy.
  pose proof (Hall x (or_introl eq_refl)) as Hx.
  pose proof (Hall y (or_intror Hy)) as Hy'.
  rewrite Hx in Hy'. injection Hy' as <-. apply Hr.
Qed.

Lemma fresh_seen {A : Type} (l : list (string * A)) (seen : list string) :
  (forall e, In e l -> In (fst e) seen) -> Xr.fresh seen l = [].
Proof.
  induction l as [| [k v] t IH]; intros H; cbn; [reflexivity |].
  assert (E : existsb (String.eqb k) seen = true).
  { apply existsb_exists. exists k. split; [| apply String.eqb_refl].
    exact (H (k, v) (or_introl eq_refl)). }
  rewrite E. apply IH. intros e He. apply H. now right.
Qed.

Lemma entries_same {A : Type} (get : Xr.Dataset -> list (string * A))
    (d0 : Xr.Dataset) (rest : list Xr.Dataset) :
  (forall ds, In ds rest -> get ds = get d0) ->
  Xr.entries get d0 rest = get d0.
Proof.
  intros H. unfold Xr.entries. rewrite fresh_seen; [apply app_nil_r |].
  intros e He. apply in_flat_map in He. destruct He as (ds & Hds & He).
  rewrite (H ds Hds) in He. now apply in_map.
Qed.

Lemma lookup_None_neq {A : Type} (k : string) (l : list (string * A)) :
  Xr.lookup k l = None -> forall e, In e l -> String.eqb (fst e) k = false.
Proof.
  induction l as [| [k' v] t IH]; cbn; [tauto |].
  destruct (String.eqb k' k) eqn:E; [discriminate |].
  intros H e [<- | He]; [exact E | exact (IH H e He)].
Qed.

Lemma lookup_remove {A : Type} (k : string) (l : list (string * A)) :
  Xr.lookup k (Xr.remove k l) = None.
Proof.
  induction l as [| [k' v] t IH]; cbn; [reflexivity |].
  destruct (String.eqb k' k) eqn:E; [exact IH |]. cbn. now rewrite E.
Qed.

Lemma remove_absent {A : Type} (k : string) (l : list (string * A)) :
  Xr.lookup k l = None -> Xr.remove k l = l.
Proof.
  induction l as [| [k' v] t IH]; cbn; [reflexivity |].
  destruct (String.eqb k' k); [discriminate |].
  intros H. now rewrite IH.
Qed.

Lemma map_pair_id {A : Type} (f : string -> A -> A) (l : list (string * A)) :
  (forall e, In e l -> f (fst e) (snd e) = snd e) ->
  map (fun e => (fst e, f (fst e) (snd e))) l = l.
Proof.
  induction l as [| [k v] t IH]; intros H; cbn [map fst snd]; [reflexivity |].
  pose proof (H (k, v) (or_introl eq_refl)) as E. cbn [fst snd] in E.
  rewrite E, IH; [reflexivity |]. intros e He. apply H. now right.
Qed.

Lemma mapM_sizes_same (d0 : Xr.Dataset) (dss : list Xr.Dataset) (total : nat)
    (l : list (string * nat)) :
  Forall (member_of d0) dss ->
  (forall e, In e l -> String.eqb (fst e) "members" = false) ->
  Xr.mapM (fun e => if String.eqb (fst e) "members"
                    then Ok ("members"%string, total)
                    else n <- Xr.join_size (fst e) (snd e) dss ;;
                         Ok (fst e, n)) l = Ok l.
Proof.
  intros Hall. rewrite Forall_forall in Hall.
  induction l as [| [k n] t IH]; intros Hk; cbn [Xr.mapM]; [reflexivity |].
  pose proof (Hk (k, n) (or_introl eq_refl)) as E. cbn [fst snd] in *.
  rewrite E, IH by (intros e He; apply Hk; now right).
  unfold Xr.join_size.
  rewrite (all_equal_collect _ Xr.coords k dss
             (Xr.lookup k (Xr.remove "members" (Xr.coords d0)))).
  2:{ intros l'. apply list_eqb_refl, Z.eqb_refl. }
  2:{ intros ds Hds. destruct (Hall ds Hds) as (_ & _ & c & ->).
      cbn [Xr.lookup]. rewrite String.eqb_sym, E. reflexivity. }
  rewrite (all_equal_collect _ Xr.sizes k dss (Xr.lookup k (Xr.sizes d0))).
  2:{ apply Nat.eqb_refl. }
  2:{ intros ds Hds. destruct (Hall ds Hds) as (-> & _).
      cbn [Xr.lookup]. rewrite String.eqb_sym, E. reflexivity. }
  reflexivity.
Qed.

Lemma sizes_along_same (d0 : Xr.Dataset) (dss : list Xr.Dataset) :
  Forall (member_of d0) dss ->
  list_sum (map (Xr.size_along "members") dss) = List.length dss.
Proof.
  induction 1 as [| e t (Hs & _) _ IH]; [reflexivity |].
  cbn [map List.length]. unfold Xr.size_along at 1. rewrite Hs. cbn.
  unfold list_sum in *. now rewrite IH.
Qed.

(** The concatenation of member datasets made of one file [d0]. *)
Lemma concat_same (d0 e0 : Xr.Dataset) (rest : list Xr.Dataset) :
  Xr.has "members" (Xr.sizes d0) = false ->
  Xr.has "members" (Xr.data_vars d0) = false ->
  Forall (member_of d0) (e0 :: rest) ->
  Xr.concat (e0 :: rest) "members" =
    Ok (Xr.mkDataset
          (("members"%string, S (List.length rest)) :: Xr.sizes d0)
          (("members"%string,
            flat_map (Xr.coord_along "members") (e0 :: rest))
             :: Xr.remove "members" (Xr.coords d0))
          (map (fun v => (fst v, "members"%string :: snd v))
             (Xr.data_vars d0))).
Proof.
  intros Hs Hv Hall. pose proof Hall as Hall'.
  rewrite Forall_forall in Hall'.
  destruct (Hall' e0 (or_introl eq_refl)) as (Hs0 & Hv0 & c0 & Hc0).
  unfold Xr.has in Hs, Hv.
  destruct (Xr.lookup "members" (Xr.sizes d0)) eqn:Es; [discriminate |].
  destruct (Xr.lookup "members" (Xr.data_vars d0)) eqn:Ev; [discriminate |].
  assert (Hmix : Xr.mixed_names (e0 :: rest) = false).
  { destruct (Xr.mixed_names (e0 :: rest)) eqn:E; [exfalso | reflexivity].
    unfold Xr.mixed_names in E. apply existsb_exists in E.
    destruct E as (ds & Hds & E). apply existsb_exists in E.
    destruct E as (v & _ & E). apply andb_true_iff in E.
    destruct E as [E1 E2]. apply existsb_exists in E2.
    destruct E2 as (ds' & Hds' & E2).
    destruct (Hall' ds Hds) as (_ & _ & c & Hc).
    destruct (Hall' ds' Hds') as (_ & _ & c' & Hc').
    unfold Xr.has in E1, E2. rewrite Hc in E1. rewrite Hc' in E2.
    cbn [Xr.lookup] in E1, E2. destruct (String.eqb "members" (fst v)); [discriminate |].
    destruct (Xr.lookup (fst v) _); discriminate. }
  unfold Xr.concat. rewrite Hmix.
  rewrite (entries_same Xr.sizes e0 rest).
  2:{ intros ds Hds. destruct (Hall' ds (or_intror Hds)) as (-> & _).
      now rewrite Hs0. }
  rewrite Hs0. cbn [Xr.mapM fst]. rewrite String.eqb_refl. cbn [bind].
  rewrite (mapM_sizes_same d0 (e0 :: rest) _ _ Hall (lookup_None_neq _ _ Es)).
  cbn [bind]. unfold Xr.has at 1. cbn [Xr.lookup].
  rewrite String.eqb_refl. f_equal.
  rewrite (sizes_along_same d0 (e0 :: rest) Hall).
  rewrite (entries_same (fun ds => Xr.remove "members" (Xr.coords ds)) e0 rest).
  2:{ intros ds Hds. destruct (Hall' ds (or_intror Hds)) as (_ & _ & c & ->).
      now rewrite Hc0. }
  rewrite (entries_same Xr.data_vars e0 rest).
  2:{ intros ds Hds. destruct (Hall' ds (or_intror Hds)) as (_ & -> & _).
      now rewrite Hv0. }
  rewrite Hc0, Hv0. cbn [Xr.remove]. rewrite String.eqb_refl.
  rewrite (remove_absent "members" (Xr.remove "members" (Xr.coords d0)))
    by apply lookup_remove.
  f_equal.
  - f_equal.
    apply (map_pair_id
             (fun k own => Xr.join_labels own (Xr.collect Xr.coords k (e0 :: rest)))).
    intros e He. unfold Xr.join_labels.
    rewrite (all_equal_collect _ Xr.coords (fst e) (e0 :: rest)
               (Xr.lookup (fst e) (Xr.remove "members" (Xr.coords d0))));
      [reflexivity | intros l'; apply list_eqb_refl, Z.eqb_refl |].
    intros ds Hds. destruct (Hall' ds Hds) as (_ & _ & c & ->).
    cbn [Xr.lookup]. rewrite String.eqb_sym.
    now rewrite (lookup_None_neq _ _ (lookup_remove "members" _) e He).
  - apply (map_pair_id
             (fun k own =>
                Xr.join_dims "members" own (Xr.collect Xr.data_vars k (e0 :: rest)))).
    intros e He. unfold Xr.join_dims.
    rewrite (all_equal_collect _ Xr.data_vars (fst e) (e0 :: rest)
               (Xr.lookup (fst e)
                  (map (fun v => (fst v, "members"%string :: snd v))
                     (Xr.data_vars d0))));
      [| intros l'; apply list_eqb_refl, String.eqb_refl |].
    + apply in_map_iff in He. destruct He as (w & <- & _). cbn.
      reflexivity.
    + intros ds Hds. destruct (Hall' ds Hds) as (_ & -> & _). reflexivity.
Qed.

Lemma load_members_same (glob : string -> list string)
    (open_dataset : string -> result Xr.Dataset)
    (path time file_prefix : string) (d0 : Xr.Dataset) (members : list Z) :
  (forall i, In i members ->
     exists filename others,
       glob (path ++ Py.str_of_Z i ++ "/" ++ file_prefix ++ "*" ++ time
               ++ ".nc")%string = filename :: others /\
       open_dataset filename = Ok d0) ->
  load_members glob open_dataset path time file_prefix members =
    Ok (repeat d0 (List.length members)).
Proof.
  induction members as [| i rest IH]; intros H; cbn [load_members];
    [reflexivity |].
  destruct (H i (or_introl eq_refl)) as (filename & others & -> & Ho).
  cbn [bind]. rewrite Ho. cbn [bind].
  rewrite IH by (intros k Hk; apply H; now right). reflexivity.
Qed.


Lemma with_members_same (d0 : Xr.Dataset) (k : nat) :
  Xr.has "members" (Xr.sizes d0) = false ->
  Xr.has "members" (Xr.data_vars d0) = false ->
  forall i, exists l,
    with_members i (repeat d0 k) = Ok l /\ List.length l = k /\
    Forall (member_of d0) l.
Proof.
  intros Hs Hv. induction k as [| k IH]; intros i; cbn [repeat with_members].
  - exists []. repeat split. constructor.
  - destruct (IH (i + 1)) as (l & -> & Hlen & Hall).
    unfold add_member_axis, Xr.expand_dims. rewrite Hs, Hv. cbn.
    eexists. split; [reflexivity |]. split; [cbn; now rewrite Hlen |].
    constructor; [| exact Hall].
    repeat split. exists i. reflexivity.
Qed.

(** An ensemble whose member files all open, to datasets of one structure
    with no members dimension of their own, is always returned. *)
Lemma get_data_ensemble_returns (glob : string -> list string)
    (open_dataset : string -> result Xr.Dataset)
    (path time file_prefix : string) (n : Z) (d0 : Xr.Dataset) :
  Py.endswith path ".nc" = false ->
  1 <= n ->
  (forall i, 0 <= i < n ->
     exists filename others,
       glob (path ++ Py.str_of_Z i ++ "/" ++ file_prefix ++ "*" ++ time
               ++ ".nc")%string = filename :: others /\
       open_dataset filename = Ok d0) ->
  Xr.has "members" (Xr.sizes d0) = false ->
  Xr.has "members" (Xr.data_vars d0) = false ->
  exists ds,
    get_data glob open_dataset path time (Some n) file_prefix = Ok ds.
Proof.
  intros Hp Hn Hfiles Hs Hv. unfold get_data. rewrite Hp.
  rewrite (load_members_same glob open_dataset path time file_prefix d0).
  2:{ intros i Hi. apply Hfiles. unfold Py.range in Hi.
      apply in_map_iff in Hi. destruct Hi as (k & <- & Hk).
      apply in_seq in Hk. lia. }
  cbn [bind].
  destruct (with_members_same d0 (List.length (Py.range n)) Hs Hv 0)
    as (l & -> & Hlen & Hall).
  cbn [bind].
  assert (Hpos : (0 < List.length l)%nat).
  { rewrite Hlen. unfold Py.range. rewrite length_map, length_seq. lia. }
  destruct l as [| e0 rest]; [cbn in Hpos; lia |].
  rewrite (concat_same d0 e0 rest Hs Hv Hall). cbn [bind].
  eexists. reflexivity.
Qed.

(** ** Further facts on the layout *)

Lemma collapse_xy (m r : bool) (s : stage) (p : packed) :
  collapse m r s = Ok p ->
  (pk_xy p = st_xy s /\ pk_len p = st_shape s /\
   pk_shape p = Some (st_shape s) /\ (Py.min (st_shape s) <? 2) = false /\
   pk_ens_mean p = Some (st_ens_mean s) /\ pk_ref p = Some (st_ref s)) \/
  (pk_xy p = Py.from1 (st_xy s) /\ pk_len p = Py.from1 (st_shape s) /\
   (Py.min (st_shape s) <? 2) = true /\
   nth 1 (st_shape s) 0 <= panel_limit /\
   exists e, Py.index conf_map (nth 1 (st_shape s) 0) = Ok e /\
             pk_shape p = entry_seq e).
Proof.
  unfold collapse. intros H.
  destruct (Py.min _ <? 2).
  - right. destruct (Z.gtb_spec (nth 1 (st_shape s) 0) panel_limit) as [| Hl];
      [discriminate |].
    repeat match type of H with
           | context [bind ?x _] =>
               destruct x eqn:?; cbn [bind] in H; try discriminate
           end.
    injection H as <-. cbn [pk_xy pk_len pk_shape pk_ens_mean pk_ref].
    do 3 (split; [reflexivity |]). split; [exact Hl |].
    eexists. split; reflexivity.
  - left. injection H as <-. cbn [pk_xy pk_len pk_shape pk_ens_mean pk_ref].
    repeat split.
Qed.

Lemma finish_fields (sw : bool) (p : packed) (pl : plan) :
  finish sw p = Ok pl ->
  exists sh em rf,
    pk_shape p = Some sh /\ pk_ens_mean p = Some em /\ pk_ref p = Some rf /\
    pl = if sw
         then mkPlan (rev sh) (rev (pk_xy p)) (rev (pk_len p)) (rev em) (rev rf)
         else mkPlan sh (pk_xy p) (pk_len p) em rf.
Proof.
  unfold finish. destruct p as [[sh |] xy ln [em |] [rf |]], sw; cbn;
    intros H; try discriminate; injection H as <-;
    exists sh, em, rf; repeat split.
Qed.

Lemma panel_daemon_stages (nm nlt : Z) (ens : option Z) (m r sw : bool)
    (pl : plan) :
  panel_daemon nm nlt ens m r sw = Ok pl ->
  ~ In 0 (var_len nm nlt ens m) /\ In 1 (var_len nm nlt ens m) /\
  exists p,
    collapse m r (assign_axes (var_len nm nlt ens m) (num_members ens m) m r)
      = Ok p /\
    finish sw p = Ok pl.
Proof.
  unfold panel_daemon. intros H.
  destruct (existsb (Z.eqb 0) _) eqn:E0; [discriminate |].
  destruct (existsb (Z.eqb 1) _) eqn:E1; [| discriminate].
  cbn [negb] in H.
  destruct (collapse _ _ _) as [p |] eqn:Ec; [| discriminate].
  cbn [bind] in H. repeat split.
  - intros Hin. apply existsb_eqb_In in Hin. congruence.
  - now apply existsb_eqb_In.
  - exists p. split; [reflexivity | exact H].
Qed.

(** X1: the two assigned axes are the two longest dimensions, the shorter one
    first; the dimension left out is a shortest one; among equal lengths the
    earlier dimension (model, lead time, ensemble) comes first.  A returned
    plan has these two axes, exchanged by [swap_axes], or the longest alone. *)
Theorem axes_are_the_two_longest (nm nlt : Z) (ens : option Z) (m r : bool) :
  let v := var_len nm nlt ens m in
  exists z x y : nat,
    st_xy (assign_axes v (num_members ens m) m r) = [x; y] /\
    (z < 3 /\ x < 3 /\ y < 3)%nat /\ z <> x /\ z <> y /\ x <> y /\
    nth z v 0 <= nth x v 0 <= nth y v 0 /\
    (nth z v 0 = nth x v 0 -> (z < x)%nat) /\
    (nth x v 0 = nth y v 0 -> (x < y)%nat) /\
    (forall sw pl, panel_daemon nm nlt ens m r sw = Ok pl ->
       var_idx_xy pl = (if sw then [y; x] else [x; y]) \/
       var_idx_xy pl = [y]).
Proof.
  intros v. subst v. unfold var_len.
  set (c := num_members ens m).
  assert (Hcases :
    exists z x y : nat,
      Py.last2 (Np.argsort [nm; nlt; c]) = [x; y] /\
      (z < 3 /\ x < 3 /\ y < 3)%nat /\ z <> x /\ z <> y /\ x <> y /\
      nth z [nm; nlt; c] 0 <= nth x [nm; nlt; c] 0 <= nth y [nm; nlt; c] 0 /\
      (nth z [nm; nlt; c] 0 = nth x [nm; nlt; c] 0 -> (z < x)%nat) /\
      (nth x [nm; nlt; c] 0 = nth y [nm; nlt; c] 0 -> (x < y)%nat)).
  { rewrite argsort3.
    destruct (Z.ltb_spec nlt nm), (Z.ltb_spec c nm), (Z.ltb_spec c nlt);
      try lia;
      [ exists 2%nat, 1%nat, 0%nat | exists 1%nat, 2%nat, 0%nat
      | exists 1%nat, 0%nat, 2%nat | exists 2%nat, 0%nat, 1%nat
      | exists 0%nat, 2%nat, 1%nat | exists 0%nat, 1%nat, 2%nat ];
      cbn; repeat split; try lia; try discriminate. }
  destruct Hcases as (z & x & y & Hxy & Hrest).
  exists z, x, y. rewrite assign_axes_xy. split; [exact Hxy |].
  repeat (split; [tauto |]).
  intros sw pl H.
  apply panel_daemon_stages in H. destruct H as (_ & _ & p & Hc & Hf).
  apply finish_fields in Hf. destruct Hf as (sh & em & rf & _ & _ & _ & ->).
  apply collapse_xy in Hc. unfold var_len in Hc. fold c in Hc.
  rewrite assign_axes_xy, Hxy in Hc.
  destruct Hc as [(-> & _) | (-> & _)]; destruct sw; cbn; tauto.
Qed.

Lemma index_conf_map_range (z : Z) (e : option (Z * Z)) :
  Py.index conf_map z = Ok e -> -17 <= z <= 16.
Proof.
  unfold Py.index. change (Z.of_nat (List.length conf_map)) with 17.
  cbv zeta. intros H.
  destruct (Z.ltb_spec z 0).
  - destruct ((z + 17 <? 0) || (17 <=? z + 17)) eqn:E; [discriminate |].
    apply orb_false_iff in E. destruct E as [E1 E2].
    apply Z.ltb_ge in E1. apply Z.leb_gt in E2. lia.
  - destruct ((z <? 0) || (17 <=? z)) eqn:E; [discriminate |].
    apply orb_false_iff in E. destruct E as [E1 E2].
    apply Z.leb_gt in E2. lia.
Qed.

(** What a successful collapse looked up in the table. *)
Lemma collapse_packed (m r : bool) (s : stage) (p : packed) :
  collapse m r s = Ok p ->
  (Py.min (st_shape s) <? 2) = true ->
  nth 1 (st_shape s) 0 <= panel_limit /\
  pk_xy p = Py.from1 (st_xy s) /\ pk_len p = Py.from1 (st_shape s) /\
  (exists e, Py.index conf_map (nth 1 (st_shape s) 0) = Ok e /\
             pk_shape p = entry_seq e) /\
  (if m then exists e, Py.index_opt conf_map (nth 2 (st_ens_mean s) None) = Ok e /\
                       pk_ens_mean p = entry_oseq e
   else pk_ens_mean p = Some (st_ens_mean s)) /\
  (if r then exists e, Py.index_opt conf_map (nth 1 (st_ref s) None) = Ok e /\
                       pk_ref p = entry_oseq e
   else pk_ref p = Some (st_ref s)).
Proof.
  unfold collapse. intros H Hmin. rewrite Hmin in H.
  destruct (Z.gtb_spec (nth 1 (st_shape s) 0) panel_limit) as [| Hl];
    [discriminate |].
  split; [exact Hl |].
  destruct m, r; cbn [bind] in H;
    repeat match type of H with
           | context [bind (bind ?x _) _] =>
               destruct x eqn:?; cbn [bind] in H; try discriminate
           | context [bind ?x _] =>
               destruct x eqn:?; cbn [bind] in H; try discriminate
           end;
    injection H as <-; cbn [pk_xy pk_len pk_shape pk_ens_mean pk_ref];
    (split; [reflexivity |]); (split; [reflexivity |]);
    (split; [eexists; split; reflexivity |]);
    split; first [reflexivity | eexists; split; reflexivity].
Qed.

(** The shape before the collapse: without reference the two lengths in
    ascending order; with it, one of them one longer (int64). *)
Lemma stage_shape (a b c nmem : Z) (m r : bool) :
  exists p q,
    st_shape (assign_axes [a; b; c] nmem m r) =
      (if r then
         if Nat.eqb (ref_dim_of (st_xy (assign_axes [a; b; c] nmem m r))) 0
         then [Np.wrap64 (p + 1); q] else [p; Np.wrap64 (q + 1)]
       else [p; q]) /\
    st_ref (assign_axes [a; b; c] nmem m r) =
      (if r then
         if Nat.eqb (ref_dim_of (st_xy (assign_axes [a; b; c] nmem m r))) 0
         then [Some p; None] else [None; Some q]
       else [None; None]) /\
    p <= q /\ a <= q /\ b <= q /\ c <= q /\
    (p = a \/ p = b \/ p = c).
Proof.
  unfold assign_axes. rewrite argsort3.
  destruct (Z.ltb_spec b a), (Z.ltb_spec c a), (Z.ltb_spec c b); try lia;
    destruct r; cbn; do 2 eexists;
    (split; [reflexivity |]); (split; [reflexivity |]);
    repeat split; try lia; tauto.
Qed.

Lemma In_var_len_le (a b c q : Z) :
  In 1 [a; b; c] -> a <= q -> b <= q -> c <= q -> 1 <= q.
Proof. cbn. intros [H | [H | [H | []]]]; lia. Qed.

(** X2: without reference and without [swap_axes] a returned shape is never
    taller than wide. *)
Theorem layout_is_horizontal (nm nlt : Z) (ens : option Z) (m : bool)
    (pl : plan) :
  panel_daemon nm nlt ens m false false = Ok pl ->
  exists rows cols, panel_shape pl = [rows; cols] /\ rows <= cols.
Proof.
  intros H. apply panel_daemon_stages in H.
  destruct H as (_ & H1 & p & Hc & Hf).
  apply finish_fields in Hf. destruct Hf as (sh & em & rf & Hsh & _ & _ & ->).
  unfold var_len in *.
  destruct (stage_shape nm nlt (num_members ens m) (num_members ens m) m false)
    as (x & y & Hs & _ & Hxy & Ha & Hb & Hc' & _).
  pose proof (In_var_len_le _ _ _ _ H1 Ha Hb Hc') as Hy.
  destruct (Py.min (st_shape (assign_axes [nm; nlt; num_members ens m]
                                (num_members ens m) m false)) <? 2) eqn:Emin.
  - destruct (collapse_packed _ _ _ _ Hc Emin) as (Hl & _ & _ & (e & He & Hp) & _).
    rewrite Hs in He, Hl. cbn [nth] in He, Hl. change panel_limit with 16 in Hl.
    destruct (conf_map_entry y (conj Hy Hl)) as (rows & cols & E & _ & Hrc & _).
    rewrite E in He. injection He as <-. rewrite Hp in Hsh. cbn in Hsh.
    injection Hsh as <-. exists rows, cols. cbn. split; [reflexivity | exact Hrc].
  - apply collapse_xy in Hc. destruct Hc as [(_ & _ & Hp & _) | (_ & _ & E & _)];
      [| congruence].
    rewrite Hp, Hs in Hsh. injection Hsh as <-.
    exists x, y. cbn. split; [reflexivity | exact Hxy].
Qed.

Lemma layout_is_horizontal_witness :
  exists rows cols,
    panel_shape (mkPlan [2; 5] [Model; Ensemble] [2; 5] [None; None; None]
                   [None; None]) = [rows; cols] /\ rows <= cols.
Proof.
  exact (layout_is_horizontal 2 1 (Some 5) false _ eq_refl).
Defined.

Lemma assign_axes_two_of (a b c nmem : Z) (m r : bool) :
  exists x y, st_xy (assign_axes [a; b; c] nmem m r) = [x; y].
Proof.
  rewrite assign_axes_xy. axes_cases a b c; rewrite Hxy; do 2 eexists;
    reflexivity.
Qed.

(** X3: a returned plan (without [swap_axes]) is of one of two kinds.  Either it
    has two axes: the shape is the vector of the two lengths itself, reference
    slot included, with at least two rows and two columns.  Or it has one
    axis: its count, between 1 and 16, is packed by the table into a grid of
    at least that many cells. *)
Theorem plan_is_rectangle_or_packed (nm nlt : Z) (ens : option Z)
    (m r : bool) (pl : plan) :
  panel_daemon nm nlt ens m r false = Ok pl ->
  exists rows cols,
    panel_shape pl = [rows; cols] /\
    ((List.length (var_idx_xy pl) = 2%nat /\ var_len_xy pl = [rows; cols] /\
      2 <= rows /\ 2 <= cols) \/
     (exists count,
        List.length (var_idx_xy pl) = 1%nat /\ var_len_xy pl = [count] /\
        1 <= count <= 16 /\
        Py.index conf_map count = Ok (Some (rows, cols)) /\
        count <= rows * cols)).
Proof.
  intros H. apply panel_daemon_stages in H.
  destruct H as (_ & H1 & p & Hc & Hf).
  apply finish_fields in Hf. destruct Hf as (sh & em & rf & Hsh & _ & _ & ->).
  unfold var_len in *.
  set (s := assign_axes [nm; nlt; num_members ens m] (num_members ens m) m r)
    in *.
  destruct (stage_shape nm nlt (num_members ens m) (num_members ens m) m r)
    as (x & y & Hs & Hr & Hxy & Ha & Hb & Hc' & _).
  fold s in Hs, Hr.
  pose proof (In_var_len_le _ _ _ _ H1 Ha Hb Hc') as Hy.
  destruct (assign_axes_two_of nm nlt (num_members ens m) (num_members ens m)
              m r) as (ax & ay & Hax).
  fold s in Hax.
  assert (Huv : exists u v, st_shape s = [u; v] /\
                  (v = y \/ (r = true /\ v = Np.wrap64 (y + 1) /\
                             st_ref s = [None; Some y]))).
  { rewrite Hs, Hr. destruct r; [destruct (Nat.eqb _ 0) |];
      do 2 eexists; (split; [reflexivity |]); tauto. }
  destruct Huv as (u & v & Huv & Hv).
  destruct (Py.min (st_shape s) <? 2) eqn:Emin.
  - destruct (collapse_packed _ _ _ _ Hc Emin)
      as (Hl & Hpxy & Hplen & (e & He & Hp) & _ & Hpr).
    rewrite Huv in He, Hl, Hplen. cbn [nth] in He, Hl.
    change panel_limit with 16 in Hl.
    assert (Hv1 : 1 <= v).
    { destruct Hv as [-> | (-> & -> & Hrf)]; [exact Hy |].
      destruct Hpr as (e' & He' & _). rewrite Hrf in He'. cbn in He'.
      apply index_conf_map_range in He'.
      rewrite wrap64_small by lia. lia. }
    destruct (conf_map_entry v (conj Hv1 Hl)) as (rows & cols & E & Hcells & _).
    rewrite E in He. injection He as <-. rewrite Hp in Hsh. cbn in Hsh.
    injection Hsh as <-. exists rows, cols. cbn.
    split; [reflexivity |]. right. exists v.
    rewrite Hpxy, Hplen, Hax. cbn. repeat split; try lia. exact E.
  - apply collapse_xy in Hc.
    destruct Hc as [(Hpxy & Hplen & Hp & _) | (_ & _ & E & _)]; [| congruence].
    rewrite Hp in Hsh. injection Hsh as <-.
    exists u, v. cbn. rewrite Hpxy, Hplen, Hax, Huv.
    split; [reflexivity |]. left.
    rewrite Huv in Emin. cbn in Emin. apply Z.ltb_ge in Emin.
    repeat split; lia.
Qed.

Lemma plan_is_rectangle_or_packed_witness :
  exists pl rows cols,
    panel_daemon 1 1 (Some 5) false true false = Ok pl /\
    panel_shape pl = [rows; cols] /\
    ((List.length (var_idx_xy pl) = 2%nat /\ var_len_xy pl = [rows; cols] /\
      2 <= rows /\ 2 <= cols) \/
     (exists count,
        List.length (var_idx_xy pl) = 1%nat /\ var_len_xy pl = [count] /\
        1 <= count <= 16 /\
        Py.index conf_map count = Ok (Some (rows, cols)) /\
        count <= rows * cols)).
Proof.
  eexists.
  assert (H : panel_daemon 1 1 (Some 5) false true false =
              Ok (mkPlan [2; 3] [Ensemble] [6] [None; None; None]
                    [Some 2; Some 3])) by reflexivity.
  destruct (plan_is_rectangle_or_packed 1 1 (Some 5) false true _ H)
    as (rows & cols & Hs & Hk).
  exists rows, cols. split; [exact H |]. split; [exact Hs | exact Hk].
Defined.

(** X4: the mean-only mode (no members, the ensemble mean requested, no
    reference) always fails with a [TypeError] when only models or only lead
    times vary within the panel limit. *)
Theorem mean_only_mode_raises (nm nlt : Z) (ens : option Z) (sw : bool) :
  ens = None \/ ens = Some 0 ->
  1 <= nm <= 16 -> 1 <= nlt <= 16 -> nm = 1 \/ nlt = 1 ->
  panel_daemon nm nlt ens true false sw = Raise TypeError.
Proof.
  intros He Hnm Hnlt Hone.
  assert (Hn : num_members ens true = 1) by (destruct He; subst; reflexivity).
  rewrite panel_daemon_checked; [| unfold var_len; rewrite Hn; cbn; lia
                                 | unfold var_len; rewrite Hn; cbn; tauto].
  unfold assign_axes, var_len. rewrite Hn. rewrite argsort3.
  unfold place_ens_mean.
  destruct Hone as [-> | ->]; destruct sw; step_axes; unfold collapse; step;
    try reflexivity; try lia.
Qed.

Lemma mean_only_mode_raises_witness :
  panel_daemon 1 4 None true false false = Raise TypeError.
Proof.
  apply (mean_only_mode_raises 1 4 None false); [left; reflexivity | lia ..].
Defined.

(** ** Further facts on the panel loop *)

(** Takes a successful monadic computation apart. *)
Ltac unbind H :=
  repeat match type of H with
         | context [bind ?x _] =>
             destruct x eqn:?; cbn [bind] in H; try discriminate
         | context [if ?b then _ else _] =>
             destruct b eqn:?; try discriminate
         | context [match ?x with _ => _ end] =>
             destruct x eqn:?; try discriminate
         end.

Lemma cell_at (f : figure) (pl : plan) (m r : bool) (i j : Z)
    (st st' : locals) (p : panel) :
  cell f pl m r i j st = Ok (p, st') -> panel_cell p = (i, j).
Proof.
  unfold cell. intros H. unbind H; injection H as <- <-; reflexivity.
Qed.

Lemma walk_cells (f : figure) (pl : plan) (m r : bool)
    (cells : list (Z * Z)) :
  forall st ps, walk f pl m r cells st = Ok ps -> map panel_cell ps = cells.
Proof.
  induction cells as [| [i j] rest IH]; intros st ps H; cbn [walk] in H.
  - now injection H as <-.
  - destruct (cell f pl m r i j st) as [[p st'] |] eqn:Ec; [| discriminate].
    cbn [bind] in H.
    destruct (walk f pl m r rest st') as [ps' |] eqn:Ew; [| discriminate].
    cbn [bind] in H. injection H as <-. cbn [map].
    now rewrite (cell_at _ _ _ _ _ _ _ _ _ Ec), (IH _ _ Ew).
Qed.

(** Row-major enumeration: [cols] cells per row. *)
Lemma rows_nth (c : nat) (n : nat) :
  forall (start k : nat),
    (k < n * c)%nat ->
    nth_error
      (flat_map (fun i => map (fun j => (i, j)) (map Z.of_nat (seq 0 c)))
         (map Z.of_nat (seq start n))) k =
    Some (Z.of_nat (start + k / c), Z.of_nat (k mod c)).
Proof.
  induction n as [| n IH]; intros start k Hk; [lia |].
  assert (Hc : (0 < c)%nat) by (destruct c; lia).
  cbn [seq map flat_map].
  destruct (Nat.lt_ge_cases k c) as [Hlt | Hge].
  - rewrite nth_error_app1 by (rewrite !length_map, length_seq; exact Hlt).
    rewrite Nat.div_small, Nat.mod_small, Nat.add_0_r by exact Hlt.
    rewrite nth_error_map, nth_error_map.
    rewrite (nth_error_nth' _ 0%nat) by (rewrite length_seq; exact Hlt).
    rewrite seq_nth by exact Hlt. reflexivity.
  - rewrite nth_error_app2 by (rewrite !length_map, length_seq; exact Hge).
    rewrite !length_map, length_seq.
    rewrite IH by (cbn in Hk; lia).
    replace k with ((k - c) + 1 * c)%nat at 3 4 by lia.
    rewrite Nat.div_add, Nat.Div0.mod_add by lia.
    do 2 f_equal. lia.
Qed.

Lemma flat_rows_length (c : nat) (l : list Z) :
  List.length
    (flat_map (fun i => map (fun j => (i, j)) (map Z.of_nat (seq 0 c))) l) =
  (List.length l * c)%nat.
Proof.
  induction l as [| x t IH]; [reflexivity |].
  cbn [flat_map List.length]. rewrite length_app, IH.
  rewrite !length_map, length_seq. lia.
Qed.

Lemma cells_of_length (rows cols : Z) :
  List.length (cells_of [rows; cols]) = (Z.to_nat rows * Z.to_nat cols)%nat.
Proof.
  unfold cells_of, Py.range. cbn [nth].
  now rewrite flat_rows_length, length_map, length_seq.
Qed.

(** X5: the loop yields one panel for each cell of the grid, row by row: the
    panel at position [k] of the sequence belongs to the cell
    [(k / cols, k mod cols)], so that [k = cols * i + j]. *)
Theorem one_panel_per_cell (f : figure) (pl : plan) (m r : bool)
    (rows cols : Z) (ps : list panel) :
  panel_shape pl = [rows; cols] ->
  bind_panels f pl m r = Ok ps ->
  List.length ps = (Z.to_nat rows * Z.to_nat cols)%nat /\
  forall k p, nth_error ps k = Some p ->
    panel_cell p = (Z.of_nat k / cols, Z.of_nat k mod cols) /\
    Z.of_nat k = cols * fst (panel_cell p) + snd (panel_cell p).
Proof.
  unfold bind_panels. intros Hs H. apply walk_cells in H. rewrite Hs in H.
  assert (Hlen : List.length ps = (Z.to_nat rows * Z.to_nat cols)%nat).
  { rewrite <- (length_map panel_cell), H. apply cells_of_length. }
  split; [exact Hlen |].
  intros k p Hk.
  assert (Hlt : (k < Z.to_nat rows * Z.to_nat cols)%nat).
  { rewrite <- Hlen. apply nth_error_Some. congruence. }
  assert (Hc : 0 < cols) by (destruct cols; cbn in Hlt; lia).
  assert (E : panel_cell p = (Z.of_nat k / cols, Z.of_nat k mod cols)).
  { apply (map_nth_error panel_cell) in Hk. rewrite H in Hk.
    unfold cells_of, Py.range in Hk. cbn [nth] in Hk.
    rewrite rows_nth in Hk by exact Hlt. injection Hk as <-.
    cbn [Nat.add].
    rewrite Nat2Z.inj_div, Nat2Z.inj_mod, Z2Nat.id by lia.
    reflexivity. }
  split; [exact E |]. rewrite E. cbn [fst snd].
  apply Z.div_mod. lia.
Qed.

Lemma one_panel_per_cell_witness :
  let f := mkFigure 1 None [None] [0; 1; 2] "ref" in
  let pl := mkPlan [2; 2] [LeadTime] [3] [None; None; None] [None; None] in
  exists ps,
    bind_panels f pl false false = Ok ps /\
    List.length ps = 4%nat /\
    forall k p, nth_error ps k = Some p ->
      panel_cell p = (Z.of_nat k / 2, Z.of_nat k mod 2) /\
      Z.of_nat k = 2 * fst (panel_cell p) + snd (panel_cell p).
Proof.
  intros f pl. eexists.
  assert (H : bind_panels f pl false false =
              Ok [Drawn 0 0 (SelMember 0 0 0) (Some "+0h") None;
                  Drawn 0 1 (SelMember 0 0 1) (Some "+6h") None;
                  Drawn 1 0 (SelMember 0 0 2) (Some "+12h") None;
                  Deleted 1 1]) by reflexivity.
  split; [exact H |].
  exact (one_panel_per_cell f pl false false 2 2 _ eq_refl H).
Defined.

Lemma index_seq (n : nat) (z : Z) (path : nat) :
  0 <= z -> Py.index (seq 0 n) z = Ok path -> Z.of_nat path = z.
Proof.
  unfold Py.index. intros Hz. cbv zeta.
  destruct (Z.ltb_spec z 0) as [Hneg | _]; [lia |].
  destruct (_ || _); [discriminate |].
  destruct (nth_error (seq 0 n) (Z.to_nat z)) as [x |] eqn:E; [| discriminate].
  intros Hx. injection Hx as <-.
  assert (Hlt : (Z.to_nat z < List.length (seq 0 n))%nat)
    by (apply nth_error_Some; congruence).
  rewrite length_seq in Hlt.
  apply (nth_error_nth _ _ 0%nat) in E. rewrite seq_nth in E by exact Hlt.
  lia.
Qed.

Lemma cells_of_nonneg (shape : list Z) (i j : Z) :
  In (i, j) (cells_of shape) -> 0 <= i /\ 0 <= j.
Proof.
  unfold cells_of, Py.range. intros H.
  apply in_flat_map in H. destruct H as (i' & Hi & H).
  apply in_map_iff in H. destruct H as (j' & E & Hj).
  injection E as -> ->.
  apply in_map_iff in Hi. destruct Hi as (? & <- & _).
  apply in_map_iff in Hj. destruct Hj as (? & <- & _). lia.
Qed.

(** One cell of a two-axis grid with neither mean nor reference. *)
Lemma cell_two_axes (f : figure) (pl : plan) (a b c : nat) (i j : Z)
    (st st' : locals) (p : panel) :
  var_idx_xy pl = [a; b] ->
  (a < 3)%nat -> (b < 3)%nat -> (c < 3)%nat -> a <> b -> c <> a -> c <> b ->
  List.length (idx st) = 3%nat -> nth c (idx st) 0 = 0 ->
  0 <= i -> 0 <= j ->
  cell f pl false false i j st = Ok (p, st') ->
  (exists v, selected p = Some v /\
             nth a v 0 = i /\ nth b v 0 = j /\ nth c v 0 = 0) /\
  List.length (idx st') = 3%nat /\ nth c (idx st') 0 = 0.
Proof.
  intros Hxy Ha Hb Hc Hab Hca Hcb Hlen H0 Hi Hj H.
  destruct st as [ix ly dm fb]. cbn [idx] in Hlen, H0.
  destruct ix as [| i0 [| i1 [| i2 [| ? ?]]]]; try discriminate.
  unfold cell in H. rewrite Hxy in H.
  destruct a as [| [| [| ?]]]; try lia;
    destruct b as [| [| [| ?]]]; try lia;
    destruct c as [| [| [| ?]]]; try lia;
    cbn [nth] in H0; subst;
    cbn -[labels Py.index Z.mul Z.add] in H;
    unbind H; injection H as <- <-; cbn [idx selected];
    match goal with
    | Hp : Py.index (seq 0 _) ?z = Ok ?path |- _ =>
        apply index_seq in Hp; [| assumption || lia]
    end;
    (split; [eexists; split; [reflexivity |]; cbn [nth]; repeat split; lia
            | split; reflexivity]).
Qed.

Lemma walk_two_axes (f : figure) (pl : plan) (a b c : nat)
    (cells : list (Z * Z)) :
  var_idx_xy pl = [a; b] ->
  (a < 3)%nat -> (b < 3)%nat -> (c < 3)%nat -> a <> b -> c <> a -> c <> b ->
  Forall (fun ij => 0 <= fst ij /\ 0 <= snd ij) cells ->
  forall st ps,
    List.length (idx st) = 3%nat -> nth c (idx st) 0 = 0 ->
    walk f pl false false cells st = Ok ps ->
    Forall (fun p => exists v,
                selected p = Some v /\
                nth a v 0 = fst (panel_cell p) /\
                nth b v 0 = snd (panel_cell p) /\
                nth c v 0 = 0) ps.
Proof.
  intros Hxy Ha Hb Hc Hab Hca Hcb Hcells.
  induction Hcells as [| [i j] rest [Hi Hj] _ IH]; intros st ps Hlen H0 H;
    cbn [walk] in H.
  - injection H as <-. constructor.
  - cbn [fst snd] in Hi, Hj.
    destruct (cell f pl false false i j st) as [[p st'] |] eqn:Ec;
      [| discriminate].
    cbn [bind] in H.
    destruct (walk f pl false false rest st') as [ps' |] eqn:Ew;
      [| discriminate].
    cbn [bind] in H. injection H as <-.
    pose proof (cell_at _ _ _ _ _ _ _ _ _ Ec) as Hat.
    destruct (cell_two_axes f pl a b c i j st st' p Hxy Ha Hb Hc Hab Hca Hcb
                Hlen H0 Hi Hj Ec) as ((v & Hv & Hva & Hvb & Hvc) & Hlen' & H0').
    constructor.
    + exists v. rewrite Hat. cbn [fst snd]. repeat split; assumption.
    + exact (IH st' ps' Hlen' H0' Ew).
Qed.

(** X6: in a two-axis grid with neither ensemble mean nor reference every cell
    is drawn from a model dataset, at the indices of its own position: the
    row number along the dimension of the rows, the column number along the
    dimension of the columns (the positions themselves, not the lead times or
    member numbers they stand for), and 0 along the third dimension. *)
Theorem grid_cell_selects_its_position (f : figure) (pl : plan)
    (a b c : nat) (ps : list panel) :
  var_idx_xy pl = [a; b] ->
  (a < 3)%nat -> (b < 3)%nat -> (c < 3)%nat -> a <> b -> c <> a -> c <> b ->
  bind_panels f pl false false = Ok ps ->
  Forall (fun p => exists v,
              selected p = Some v /\
              nth a v 0 = fst (panel_cell p) /\
              nth b v 0 = snd (panel_cell p) /\
              nth c v 0 = 0) ps.
Proof.
  intros Hxy Ha Hb Hc Hab Hca Hcb H. unfold bind_panels in H.
  apply (walk_two_axes f pl a b c (cells_of (panel_shape pl)) Hxy Ha Hb Hc
           Hab Hca Hcb) with (st := init_locals f); try reflexivity.
  - apply Forall_forall. intros [i j] Hin. exact (cells_of_nonneg _ _ _ Hin).
  - destruct c as [| [| [| ?]]]; try lia; reflexivity.
  - exact H.
Qed.

Lemma grid_cell_selects_its_position_witness :
  let f := mkFigure 2 None [None] [0; 4; 8] "ref" in
  let pl := mkPlan [2; 3] [Model; LeadTime] [2; 3] [None; None; None]
              [None; None] in
  exists ps,
    bind_panels f pl false false = Ok ps /\
    Forall (fun p => exists v,
                selected p = Some v /\
                nth Model v 0 = fst (panel_cell p) /\
                nth LeadTime v 0 = snd (panel_cell p) /\
                nth Ensemble v 0 = 0) ps.
Proof.
  intros f pl. eexists.
  assert (H : bind_panels f pl false false =
              Ok [Drawn 0 0 (SelMember 0 0 0) (Some "+0h") (Some "model 0");
                  Drawn 0 1 (SelMember 0 0 1) (Some "+24h") None;
                  Drawn 0 2 (SelMember 0 0 2) (Some "+48h") None;
                  Drawn 1 0 (SelMember 1 0 0) None (Some "model 1");
                  Drawn 1 1 (SelMember 1 0 1) None None;
                  Drawn 1 2 (SelMember 1 0 2) None None]) by reflexivity.
  split; [exact H |].
  apply (grid_cell_selects_its_position f pl Model LeadTime Ensemble _
           eq_refl); unfold Model, LeadTime, Ensemble;
    try lia; try discriminate; exact H.
Defined.

(** One cell of a single-axis grid with neither mean nor reference. *)
Lemma cell_one_axis (f : figure) (pl : plan) (a c d : nat) (i j count cols : Z)
    (rows : Z) (st st' : locals) (p : panel) :
  var_idx_xy pl = [a] -> var_len_xy pl = [count] ->
  panel_shape pl = [rows; cols] ->
  (a < 3)%nat -> (c < 3)%nat -> (d < 3)%nat -> a <> c -> a <> d -> c <> d ->
  List.length (idx st) = 3%nat ->
  nth c (idx st) 0 = 0 -> nth d (idx st) 0 = 0 ->
  0 <= cols * i + j ->
  cell f pl false false i j st = Ok (p, st') ->
  (if cols * i + j <? count
   then exists v, selected p = Some v /\ nth a v 0 = cols * i + j /\
                  nth c v 0 = 0 /\ nth d v 0 = 0
   else p = Deleted i j) /\
  List.length (idx st') = 3%nat /\
  nth c (idx st') 0 = 0 /\ nth d (idx st') 0 = 0.
Proof.
  intros Hxy Hln Hsh Ha Hc Hd Hac Had Hcd Hlen H0 H0' Hk H.
  destruct st as [ix ly dm fb]. cbn [idx] in Hlen, H0, H0'.
  destruct ix as [| i0 [| i1 [| i2 [| ? ?]]]]; try discriminate.
  unfold cell in H. rewrite Hxy, Hln, Hsh in H.
  cbn [nth List.length Nat.eqb] in H.
  destruct (Z.ltb_spec (cols * i + j) count) as [Hlt | Hge].
  - destruct a as [| [| [| ?]]]; try lia;
      destruct c as [| [| [| ?]]]; try lia;
      destruct d as [| [| [| ?]]]; try lia;
      cbn [nth] in H0, H0'; subst;
      cbn -[labels Py.index Z.mul Z.add Z.leb] in H;
      (destruct (Z.leb_spec count (cols * i + j)); [lia |]);
      cbn -[labels Py.index Z.mul Z.add] in H;
      unbind H; injection H as <- <-; cbn [idx selected];
      match goal with
      | Hp : Py.index (seq 0 _) ?z = Ok ?path |- _ =>
          apply index_seq in Hp; [| assumption || lia]
      end;
      (split; [eexists; split; [reflexivity |]; cbn [nth]; repeat split; lia
              | repeat split]).
  - destruct a as [| [| [| ?]]]; try lia;
      destruct c as [| [| [| ?]]]; try lia;
      destruct d as [| [| [| ?]]]; try lia;
      cbn [nth] in H0, H0'; subst;
      cbn -[labels Py.index Z.mul Z.add Z.leb] in H;
      (destruct (Z.leb_spec count (cols * i + j)); [| lia]);
      cbn in H; injection H as <- <-; cbn [idx]; repeat split.
Qed.

Lemma walk_one_axis (f : figure) (pl : plan) (a c d : nat)
    (count rows cols : Z) (cells : list (Z * Z)) :
  var_idx_xy pl = [a] -> var_len_xy pl = [count] ->
  panel_shape pl = [rows; cols] ->
  (a < 3)%nat -> (c < 3)%nat -> (d < 3)%nat -> a <> c -> a <> d -> c <> d ->
  Forall (fun ij => 0 <= cols * fst ij + snd ij) cells ->
  forall st ps,
    List.length (idx st) = 3%nat ->
    nth c (idx st) 0 = 0 -> nth d (idx st) 0 = 0 ->
    walk f pl false false cells st = Ok ps ->
    Forall (fun p =>
              let k := cols * fst (panel_cell p) + snd (panel_cell p) in
              if k <? count
              then exists v, selected p = Some v /\ nth a v 0 = k /\
                             nth c v 0 = 0 /\ nth d v 0 = 0
              else is_deleted p = true) ps.
Proof.
  intros Hxy Hln Hsh Ha Hc Hd Hac Had Hcd Hcells.
  induction Hcells as [| [i j] rest Hk _ IH]; intros st ps Hlen H0 H0' H;
    cbn [walk] in H.
  - injection H as <-. constructor.
  - cbn [fst snd] in Hk.
    destruct (cell f pl false false i j st) as [[p st'] |] eqn:Ec;
      [| discriminate].
    cbn [bind] in H.
    destruct (walk f pl false false rest st') as [ps' |] eqn:Ew;
      [| discriminate].
    cbn [bind] in H. injection H as <-.
    pose proof (cell_at _ _ _ _ _ _ _ _ _ Ec) as Hat.
    destruct (cell_one_axis f pl a c d i j count cols rows st st' p Hxy Hln
                Hsh Ha Hc Hd Hac Had Hcd Hlen H0 H0' Hk Ec)
      as (Hp & Hlen' & H1 & H1').
    constructor.
    + cbv zeta. rewrite Hat. cbn [fst snd].
      destruct (cols * i + j <? count); [exact Hp | now subst p].
    + exact (IH st' ps' Hlen' H1 H1' Ew).
Qed.

(** X7: in a single-axis (collapsed) grid with neither ensemble mean nor
    reference, the cell of linear index [k = cols * i + j] is drawn from
    index [k] along the axis and index 0 along the two other dimensions when
    [k] is below the count, and is deleted otherwise. *)
Theorem packed_cell_selects_its_number (f : figure) (pl : plan)
    (a c d : nat) (count rows cols : Z) (ps : list panel) :
  var_idx_xy pl = [a] -> var_len_xy pl = [count] ->
  panel_shape pl = [rows; cols] ->
  (a < 3)%nat -> (c < 3)%nat -> (d < 3)%nat -> a <> c -> a <> d -> c <> d ->
  bind_panels f pl false false = Ok ps ->
  Forall (fun p =>
            let k := cols * fst (panel_cell p) + snd (panel_cell p) in
            if k <? count
            then exists v, selected p = Some v /\ nth a v 0 = k /\
                           nth c v 0 = 0 /\ nth d v 0 = 0
            else is_deleted p = true) ps.
Proof.
  intros Hxy Hln Hsh Ha Hc Hd Hac Had Hcd H. unfold bind_panels in H.
  apply (walk_one_axis f pl a c d count rows cols (cells_of (panel_shape pl))
           Hxy Hln Hsh Ha Hc Hd Hac Had Hcd) with (st := init_locals f);
    try reflexivity.
  - apply Forall_forall. intros [i j] Hin. cbn [fst snd].
    pose proof (cells_of_nonneg _ _ _ Hin) as [Hi Hj].
    rewrite Hsh in Hin. unfold cells_of in Hin. cbn [nth] in Hin.
    apply in_flat_map in Hin. destruct Hin as (i' & _ & Hin).
    apply in_map_iff in Hin. destruct Hin as (j' & _ & Hj').
    unfold Py.range in Hj'. apply in_map_iff in Hj'.
    destruct Hj' as (n & _ & Hn). apply in_seq in Hn.
    assert (0 < cols) by (destruct cols; cbn in Hn; lia). nia.
  - destruct c as [| [| [| ?]]]; try lia; reflexivity.
  - destruct d as [| [| [| ?]]]; try lia; reflexivity.
  - exact H.
Qed.

Lemma packed_cell_selects_its_number_witness :
  let f := mkFigure 1 None [None] [0; 1; 2] "ref" in
  let pl := mkPlan [2; 2] [LeadTime] [3] [None; None; None] [None; None] in
  exists ps,
    bind_panels f pl false false = Ok ps /\
    Forall (fun p =>
              let k := 2 * fst (panel_cell p) + snd (panel_cell p) in
              if k <? 3
              then exists v, selected p = Some v /\ nth LeadTime v 0 = k /\
                             nth Model v 0 = 0 /\ nth Ensemble v 0 = 0
              else is_deleted p = true) ps.
Proof.
  intros f pl. eexists.
  assert (H : bind_panels f pl false false =
              Ok [Drawn 0 0 (SelMember 0 0 0) (Some "+0h") None;
                  Drawn 0 1 (SelMember 0 0 1) (Some "+6h") None;
                  Drawn 1 0 (SelMember 0 0 2) (Some "+12h") None;
                  Deleted 1 1]) by reflexivity.
  split; [exact H |].
  apply (packed_cell_selects_its_number f pl LeadTime Model Ensemble 3 2 2 _
           eq_refl eq_refl eq_refl); unfold Model, LeadTime, Ensemble;
    try lia; try discriminate; exact H.
Defined.

Lemma cells_of_head (rows cols : Z) :
  1 <= rows -> 1 <= cols ->
  exists rest, cells_of [rows; cols] = (0, 0) :: rest.
Proof.
  intros Hr Hc. unfold cells_of, Py.range. cbn [nth].
  destruct (Z.to_nat rows) as [| n] eqn:En; [lia |].
  destruct (Z.to_nat cols) as [| k] eqn:Ek; [lia |].
  cbn. eexists. reflexivity.
Qed.

(** With the ensemble mean requested, a cell of a two-axis grid fails on
    unpacking the three-entry [ens_mean]. *)
Lemma cell_mean_unpack (f : figure) (pl : plan) (x y : nat) (r : bool)
    (i j : Z) (st : locals) :
  var_idx_xy pl = [x; y] -> (x < 3)%nat -> (y < 3)%nat ->
  List.length (idx st) = 3%nat -> List.length (ens_mean pl) = 3%nat ->
  cell f pl true r i j st =
    Raise (ValueError "too many values to unpack (expected 2)").
Proof.
  intros Hxy Hx Hy Hlen Hem. unfold cell. rewrite Hxy.
  destruct st as [ix ly dm fb]. cbn [idx] in *.
  destruct ix as [| i0 [| i1 [| i2 [| ? ?]]]]; try discriminate.
  destruct (ens_mean pl) as [| e0 [| e1 [| e2 [| ? ?]]]]; try discriminate.
  destruct x as [| [| [| ?]]]; try lia;
    destruct y as [| [| [| ?]]]; try lia; reflexivity.
Qed.

Lemma place_ens_mean_length (m : bool) (xy : list nat) (nmem : Z) :
  List.length (place_ens_mean m xy nmem) = 3%nat.
Proof.
  unfold place_ens_mean.
  destruct m; [| reflexivity].
  destruct (Nat.eqb _ 2); [reflexivity |].
  destruct (Nat.eqb _ 2); reflexivity.
Qed.

Lemma assign_axes_ens_mean (vlen : list Z) (nmem : Z) (m r : bool) :
  st_ens_mean (assign_axes vlen nmem m r) =
  place_ens_mean m (Py.last2 (Np.argsort vlen)) nmem.
Proof. unfold assign_axes. destruct r; reflexivity. Qed.

Lemma two_axes_mean_unpack (f : figure) (r sw : bool) (pl : plan) :
  panel_daemon (Z.of_nat (n_paths f)) (Z.of_nat (List.length (lead_times f)))
    (Some (Z.of_nat (List.length (members f)))) true r sw = Ok pl ->
  List.length (var_idx_xy pl) = 2%nat ->
  plot f true r sw =
    Raise (ValueError "too many values to unpack (expected 2)").
Proof.
  intros H Hlen. unfold plot. rewrite H.
  pose proof (panel_daemon_stages _ _ _ _ _ _ _ H) as (H0 & _ & p & Hc & Hf).
  assert (Hn : n_paths f <> 0%nat).
  { intros E. apply H0. unfold var_len. rewrite E. now left. }
  replace (Py.index (seq 0 (n_paths f)) 0) with (Ok 0%nat)
    by (destruct (n_paths f); [contradiction | reflexivity]).
  cbn [bind]. unfold bind_panels.
  apply finish_fields in Hf. destruct Hf as (sh & em & rf & Hsh & Hem & _ & Hpl).
  unfold var_len in Hc.
  set (nm := Z.of_nat (n_paths f)) in *.
  set (nlt := Z.of_nat (List.length (lead_times f))) in *.
  set (nmem := num_members (Some (Z.of_nat (List.length (members f)))) true)
    in *.
  set (s := assign_axes [nm; nlt; nmem] nmem true r) in *.
  destruct (assign_axes_two_of nm nlt nmem nmem true r) as (x & y & Hxy).
  fold s in Hxy.
  assert (Hx : (x < 3)%nat /\ (y < 3)%nat).
  { unfold s in Hxy. rewrite assign_axes_xy in Hxy.
    axes_cases nm nlt nmem; rewrite Hxy0 in Hxy; injection Hxy as <- <-; lia. }
  assert (Hpx : pk_xy p = [x; y]).
  { apply collapse_xy in Hc. destruct Hc as [(E & _) | (E & _)];
      [now rewrite E |].
    exfalso. rewrite Hxy in E. subst pl.
    destruct sw; cbn in Hlen; rewrite E in Hlen; discriminate. }
  apply collapse_xy in Hc.
  destruct Hc as [(_ & _ & Hp & Emin & Hpe & _) | (E & _)];
    [| rewrite Hxy in E; rewrite E in Hpx; discriminate].
  rewrite Hp in Hsh. injection Hsh as <-.
  rewrite Hpe in Hem. injection Hem as <-.
  destruct (stage_shape nm nlt nmem nmem true r) as (u & v & Hs & _).
  fold s in Hs.
  assert (Huv : exists a b, st_shape s = [a; b] /\ 2 <= a /\ 2 <= b).
  { rewrite Hs in Emin |- *.
    destruct r; [destruct (Nat.eqb _ 0) |]; do 2 eexists;
      (split; [reflexivity |]); cbn in Emin; apply Z.ltb_ge in Emin; lia. }
  destruct Huv as (a & b & Hab & Ha & Hb).
  assert (Hem3 : List.length (st_ens_mean s) = 3%nat).
  { unfold s. rewrite assign_axes_ens_mean. apply place_ens_mean_length. }
  assert (Hcells : exists rest, cells_of (panel_shape pl) = (0, 0) :: rest).
  { subst pl. destruct sw; cbn [panel_shape]; rewrite Hab; cbn [rev app];
      apply cells_of_head; lia. }
  destruct Hcells as (rest & ->). cbn [walk].
  rewrite (cell_mean_unpack f pl (if sw then y else x) (if sw then x else y));
    [reflexivity | | | | reflexivity |].
  - subst pl. destruct sw; cbn [var_idx_xy]; rewrite Hpx; reflexivity.
  - destruct sw; tauto.
  - destruct sw; tauto.
  - subst pl. destruct sw; cbn [ens_mean]; rewrite ?length_rev; exact Hem3.
Qed.

(** X8: whenever the layout has two axes and the ensemble mean is requested,
    [plot] fails at its first cell: the three-entry [ens_mean] of such a plan
    cannot be unpacked into the two positions the loop expects. *)
Theorem ensemble_mean_on_two_axes_raises (f : figure) (r sw : bool)
    (pl : plan) :
  panel_daemon (Z.of_nat (n_paths f)) (Z.of_nat (List.length (lead_times f)))
    (Some (Z.of_nat (List.length (members f)))) true r sw = Ok pl ->
  List.length (var_idx_xy pl) = 2%nat ->
  plot f true r sw =
    Raise (ValueError "too many values to unpack (expected 2)").
Proof. exact (two_axes_mean_unpack f r sw pl). Qed.

Lemma ensemble_mean_on_two_axes_raises_witness :
  plot (mkFigure 2 None [Some 0; Some 1; Some 2] [0] "ref") true false false =
    Raise (ValueError "too many values to unpack (expected 2)").
Proof.
  apply (ensemble_mean_on_two_axes_raises
           (mkFigure 2 None [Some 0; Some 1; Some 2] [0] "ref") false false
           (mkPlan [2; 4] [Model; Ensemble] [2; 4] [None; None; Some 3]
              [None; None]));
    reflexivity.
Defined.

(** X9: one forecast at one lead time with 1 to 15 members and a reference: the
    reference slot is appended along the members and the layout is collapsed;
    the reference position handed back is a table entry that matches no cell,
    so the loop takes the reference cell for one more member and fails on its
    label. *)
Theorem members_with_reference_raise (f : figure) (sw : bool) :
  n_paths f = 1%nat -> List.length (lead_times f) = 1%nat ->
  (1 <= List.length (members f) <= 15)%nat ->
  plot f false true sw = Raise IndexError.
Proof.
  destruct f as [np ml mem lts rl]. cbn [n_paths lead_times members].
  intros -> Hl Hm.
  do 2 (destruct lts as [| ? lts]; try discriminate).
  destruct mem as [| ? mem]; [cbn in Hm; lia |].
  do 15 (destruct mem as [| ? mem];
         [destruct sw; vm_compute; reflexivity |]).
  exfalso. cbn in Hm. lia.
Qed.

Lemma members_with_reference_raise_witness :
  plot (mkFigure 1 None [None] [0] "MEPS") false true false = Raise IndexError.
Proof.
  apply (members_with_reference_raise (mkFigure 1 None [None] [0] "MEPS") false);
    [reflexivity | reflexivity | cbn; lia].
Defined.

Lemma axes_sorted (a b c : Z) :
  exists z x y : nat,
    Py.last2 (Np.argsort [a; b; c]) = [x; y] /\
    (z < 3 /\ x < 3 /\ y < 3)%nat /\ z <> x /\ z <> y /\ x <> y /\
    nth z [a; b; c] 0 <= nth x [a; b; c] 0 <= nth y [a; b; c] 0 /\
    (nth z [a; b; c] 0 = nth x [a; b; c] 0 -> (z < x)%nat) /\
    (nth x [a; b; c] 0 = nth y [a; b; c] 0 -> (x < y)%nat).
Proof.
  rewrite argsort3.
  destruct (Z.ltb_spec b a), (Z.ltb_spec c a), (Z.ltb_spec c b);
    try lia;
    [ exists 2%nat, 1%nat, 0%nat | exists 1%nat, 2%nat, 0%nat
    | exists 1%nat, 0%nat, 2%nat | exists 2%nat, 0%nat, 1%nat
    | exists 0%nat, 2%nat, 1%nat | exists 0%nat, 1%nat, 2%nat ];
    cbn; repeat split; try lia; try discriminate.
Qed.

(** With the ensemble mean, a plan of a single axis is returned only for one
    model at one lead time with 1 to 15 members. *)
Lemma mean_collapsed_is_members_only (nm nlt n : Z) (r sw : bool) (pl : plan) :
  1 <= nm < int64_max - 2 -> 1 <= nlt < int64_max - 2 ->
  0 <= n < int64_max - 2 ->
  panel_daemon nm nlt (Some n) true r sw = Ok pl ->
  List.length (var_idx_xy pl) = 1%nat ->
  nm = 1 /\ nlt = 1 /\ 1 <= n <= 15.
Proof.
  intros Hnm Hnlt Hn H Hlen. unfold int64_max in *.
  apply panel_daemon_stages in H. destruct H as (_ & _ & p & Hc & Hf).
  apply finish_fields in Hf.
  destruct Hf as (sh & em & rf & Hsh & Hem & _ & Hpl).
  unfold var_len in Hc. change (num_members (Some n) true) with (n + 1) in Hc.
  set (s := assign_axes [nm; nlt; n + 1] (n + 1) true r) in *.
  assert (Hmin : (Py.min (st_shape s) <? 2) = true).
  { destruct (Py.min (st_shape s) <? 2) eqn:E; [reflexivity |].
    exfalso. apply collapse_xy in Hc.
    destruct Hc as [(Hx & _) | (_ & _ & E' & _)]; [| congruence].
    destruct (assign_axes_two_of nm nlt (n + 1) (n + 1) true r) as (x & y & Hxy).
    fold s in Hxy. subst pl.
    destruct sw; cbn in Hlen; rewrite Hx, Hxy in Hlen; discriminate. }
  destruct (collapse_packed _ _ _ _ Hc Hmin)
    as (Hl & _ & _ & _ & (e & He & Hpe) & _).
  change panel_limit with 16 in Hl.
  unfold s in He, Hmin, Hl. rewrite assign_axes_ens_mean in He.
  destruct (axes_sorted nm nlt (n + 1))
    as (z & x & y & Hxy & Hlt & Hzx & Hzy & Hxy' & Hord & Htz & Htx).
  unfold assign_axes in Hmin, Hl.
  rewrite Hxy in He, Hmin, Hl. unfold place_ens_mean, ref_dim_of in *.
  cbn [nth] in He, Hmin, Hl.
  destruct (Nat.eqb x 2) eqn:Ex; [discriminate |].
  destruct (Nat.eqb y 2) eqn:Ey; [| discriminate].
  apply Nat.eqb_eq in Ey. subst y. apply Nat.eqb_neq in Ex.
  cbn -[conf_map] in He.
  assert (Hn1 : 1 <= n).
  { rewrite Hpe in Hem.
    destruct (Z.eq_dec n 0) as [-> |]; [| lia].
    cbn in He. injection He as <-. discriminate. }
  destruct x as [| [| ?]]; [| | lia].
  - (* the model on the rows *)
    assert (z = 1%nat) by lia. subst z. cbn [nth] in Hord, Htz, Htx.
    exfalso.
    destruct r; cbn -[Np.wrap64] in Hmin, Hl.
    + rewrite wrap64_small in Hmin by lia.
      apply Z.ltb_lt in Hmin. lia.
    + apply Z.ltb_lt in Hmin. lia.
  - (* the lead time on the rows *)
    assert (z = 0%nat) by lia. subst z. cbn [nth] in Hord, Htz, Htx.
    destruct r; cbn -[Np.wrap64] in Hmin, Hl.
    + rewrite wrap64_small in Hmin, Hl by lia.
      apply Z.ltb_lt in Hmin. lia.
    + apply Z.ltb_lt in Hmin. lia.
Qed.

Lemma plan_axes_length (nm nlt : Z) (ens : option Z) (m r sw : bool)
    (pl : plan) :
  panel_daemon nm nlt ens m r sw = Ok pl ->
  List.length (var_idx_xy pl) = 2%nat \/ List.length (var_idx_xy pl) = 1%nat.
Proof.
  intros H. apply panel_daemon_stages in H.
  destruct H as (_ & _ & p & Hc & Hf).
  apply finish_fields in Hf. destruct Hf as (sh & em & rf & _ & _ & _ & ->).
  unfold var_len in Hc.
  destruct (assign_axes_two_of nm nlt (num_members ens m) (num_members ens m)
              m r) as (x & y & Hxy).
  apply collapse_xy in Hc.
  destruct Hc as [(E & _) | (E & _)]; rewrite Hxy in E;
    destruct sw; cbn [var_idx_xy]; rewrite ?length_rev, E; cbn; tauto.
Qed.

(** X10: with [plot_ens_mean=True], [plot] never returns a figure: whatever the
    numbers of models, lead times and members, the reference and the
    orientation, it raises. *)
Theorem ensemble_mean_is_never_drawn (f : figure) (r sw : bool) :
  fits_int64 f -> is_ok (plot f true r sw) = false.
Proof.
  intros (Hi1 & Hi2 & Hi3).
  destruct (panel_daemon (Z.of_nat (n_paths f))
              (Z.of_nat (List.length (lead_times f)))
              (Some (Z.of_nat (List.length (members f)))) true r sw)
    as [pl | e] eqn:H.
  - destruct (plan_axes_length _ _ _ _ _ _ _ H) as [Hlen | Hlen].
    + now rewrite (two_axes_mean_unpack f r sw pl H Hlen).
    + pose proof (panel_daemon_stages _ _ _ _ _ _ _ H) as (H0 & _).
      unfold var_len in H0.
      assert (Hp1 : 1 <= Z.of_nat (n_paths f)).
      { destruct (n_paths f); [exfalso; apply H0; now left | lia]. }
      assert (Hl1 : 1 <= Z.of_nat (List.length (lead_times f))).
      { destruct (List.length (lead_times f));
          [exfalso; apply H0; right; now left | lia]. }
      destruct (mean_collapsed_is_members_only _ _ _ r sw pl
                  (conj Hp1 Hi1) (conj Hl1 Hi2)
                  (conj (Nat2Z.is_nonneg _) Hi3) H Hlen) as (Hp & Hl & Hm).
      clear H H0 Hlen Hi1 Hi2 Hi3 Hp1 Hl1 pl.
      destruct f as [np ml mem lts rl]. cbn [n_paths lead_times members] in *.
      assert (np = 1%nat) as -> by lia.
      do 2 (destruct lts as [| ? lts]; try (cbn in Hl; lia)).
      destruct mem as [| ? mem]; [cbn in Hm; lia |].
      do 15 (destruct mem as [| ? mem];
             [destruct r, sw; vm_compute; reflexivity |]).
      exfalso. cbn [List.length] in Hm. lia.
  - unfold plot. rewrite H. destruct (Py.index _ 0); reflexivity.
Qed.

Lemma ensemble_mean_is_never_drawn_witness :
  is_ok (plot (mkFigure 1 None [Some 0; Some 1] [0] "ref") true false false)
    = false.
Proof.
  apply (ensemble_mean_is_never_drawn
           (mkFigure 1 None [Some 0; Some 1] [0] "ref") false false).
  unfold fits_int64, int64_max. cbn. lia.
Defined.

Lemma index_ok {A : Type} (l : list A) (k : Z) :
  0 <= k < Z.of_nat (List.length l) -> exists a, Py.index l k = Ok a.
Proof.
  intros Hk. unfold Py.index. cbv zeta.
  destruct (Z.ltb_spec k 0); [lia |].
  destruct (Z.ltb_spec k 0); [lia |].
  destruct (Z.leb_spec (Z.of_nat (List.length l)) k); [lia |]. cbn [orb].
  destruct (nth_error l (Z.to_nat k)) as [a |] eqn:E; [now exists a |].
  apply nth_error_None in E. lia.
Qed.

(** Within the length of its dimension every label is defined. *)
Lemma label_ok (f : figure) (d : nat) (k : Z) :
  (d < 3)%nat -> 0 <= k < nth d (figure_lengths f) 0 ->
  exists lf s, Py.index (labels f) (Z.of_nat d) = Ok lf /\ lf k = Ok s.
Proof.
  intros Hd Hk. unfold figure_lengths in Hk.
  destruct d as [| [| [| ?]]]; [| | | lia]; cbn [nth] in Hk.
  - assert (exists s, model_label f k = Ok s) as [s Hs].
    { unfold model_label. destruct (model_labels f) as [ls |].
      - destruct (Z.leb_spec (Z.of_nat (List.length ls)) k).
        + eexists. reflexivity.
        + destruct (index_ok ls k ltac:(lia)) as (s & ->). now exists s.
      - eexists. reflexivity. }
    exists (model_label f), s. split; [reflexivity | exact Hs].
  - assert (exists s, lt_label f k = Ok s) as [s Hs].
    { unfold lt_label. destruct (index_ok (lead_times f) k Hk) as (t & ->).
      eexists. reflexivity. }
    exists (lt_label f), s. split; [reflexivity | exact Hs].
  - assert (exists s, member_label f k = Ok s) as [s Hs].
    { unfold member_label. destruct (index_ok (members f) k Hk) as (t & ->).
      eexists. reflexivity. }
    exists (member_label f), s. split; [reflexivity | exact Hs].
Qed.

Lemma path_ok (f : figure) (k : Z) :
  0 <= k < Z.of_nat (n_paths f) ->
  exists path, Py.index (seq 0 (n_paths f)) k = Ok path.
Proof. intros Hk. apply index_ok. now rewrite length_seq. Qed.

Lemma cells_of_bounds (rows cols i j : Z) :
  In (i, j) (cells_of [rows; cols]) -> 0 <= i < rows /\ 0 <= j < cols.
Proof.
  unfold cells_of, Py.range. cbn [nth]. intros H.
  apply in_flat_map in H. destruct H as (i' & Hi & H).
  apply in_map_iff in H. destruct H as (j' & E & Hj).
  injection E as -> ->.
  apply in_map_iff in Hi. destruct Hi as (x & <- & Hx).
  apply in_map_iff in Hj. destruct Hj as (y & <- & Hy).
  apply in_seq in Hx, Hy. lia.
Qed.

(** The plan of a layout with neither mean nor reference: two axes with the
    lengths of their dimensions as the shape, or the longest dimension
    packed. *)
Lemma plain_plan (nm nlt n : Z) (sw : bool) (pl : plan) :
  panel_daemon nm nlt (Some n) false false sw = Ok pl ->
  exists a b c : nat,
    (a < 3)%nat /\ (b < 3)%nat /\ (c < 3)%nat /\ a <> b /\ c <> a /\ c <> b /\
    ((var_idx_xy pl = [a; b] /\
      panel_shape pl = [nth a [nm; nlt; n] 0; nth b [nm; nlt; n] 0]) \/
     (exists rows cols,
        var_idx_xy pl = [a] /\ var_len_xy pl = [nth a [nm; nlt; n] 0] /\
        panel_shape pl = [rows; cols])).
Proof.
  intros H. apply panel_daemon_stages in H.
  destruct H as (_ & _ & p & Hc & Hf).
  apply finish_fields in Hf. destruct Hf as (sh & em & rf & Hsh & _ & _ & ->).
  unfold var_len, num_members, resolve_ens_size in Hc.
  cbn [Z.b2z] in Hc. rewrite Z.add_0_r in Hc.
  destruct (axes_sorted nm nlt n)
    as (z & x & y & Hxy & (Hz & Hx & Hy) & Hzx & Hzy & Hxy' & _).
  assert (Hs : st_shape (assign_axes [nm; nlt; n] n false false) =
               [nth x [nm; nlt; n] 0; nth y [nm; nlt; n] 0]).
  { unfold assign_axes. rewrite Hxy. reflexivity. }
  apply collapse_xy in Hc. rewrite assign_axes_xy, Hxy, Hs in Hc.
  destruct Hc as [(E1 & E2 & E3 & _) | (E1 & E2 & _ & _ & e & _ & E3)].
  - rewrite E3 in Hsh. injection Hsh as <-.
    destruct sw; [exists y, x, z | exists x, y, z];
      (repeat (split; [lia |])); left; cbn; rewrite E1; split; reflexivity.
  - rewrite E3 in Hsh. destruct e as [[rows cols] |]; [| discriminate].
    cbn in Hsh. injection Hsh as <-.
    exists y, x, z. repeat (split; [lia |]). right.
    destruct sw; [exists cols, rows | exists rows, cols];
      cbn; rewrite E1, E2; cbn; repeat split.
Qed.

Lemma panel_in_cells (f : figure) (pl : plan) (m r : bool)
    (cells : list (Z * Z)) (st : locals) (ps : list panel) (p : panel) :
  walk f pl m r cells st = Ok ps -> In p ps -> In (panel_cell p) cells.
Proof.
  intros H Hin. rewrite <- (walk_cells _ _ _ _ _ _ _ H). now apply in_map.
Qed.

(** X11: whenever [plot] returns a figure with neither ensemble mean nor
    reference, every panel it has drawn was fetched inside the lengths the
    plotter was built with: the model index below the number of paths, the
    lead-time index below the number of lead times, the member index below
    the number of members.  A fetch can only fail on a dataset that holds
    less than those lengths. *)
Theorem drawn_panels_fetch_inside_the_lengths (f : figure) (sw : bool)
    (ps : list panel) :
  plot f false false sw = Ok ps -> Forall (inside_lengths f) ps.
Proof.
  intros Hp. unfold plot in Hp.
  destruct (Py.index (seq 0 (n_paths f)) 0) as [p0 |]; [| discriminate].
  cbn [bind] in Hp.
  destruct (panel_daemon _ _ _ false false sw) as [pl |] eqn:H;
    [| discriminate].
  cbn [bind] in Hp. unfold bind_panels in Hp.
  pose proof (panel_daemon_stages _ _ _ _ _ _ _ H) as (H0 & _).
  unfold var_len, num_members, resolve_ens_size in H0.
  cbn [Z.b2z] in H0. rewrite Z.add_0_r in H0. fold (figure_lengths f) in H0.
  assert (Hpos : forall d : nat, (d < 3)%nat -> 1 <= nth d (figure_lengths f) 0).
  { intros d Hd. unfold figure_lengths in *.
    destruct d as [| [| [| ?]]]; try lia; cbn [nth];
      match goal with
      | |- 1 <= ?x => destruct (Z.eq_dec x 0) as [E | E];
                      [exfalso; apply H0; rewrite E; cbn; tauto | lia]
      end. }
  destruct (plain_plan _ _ _ _ _ H)
    as (a & b & c & Ha & Hb & Hc & Hab & Hca & Hcb &
        [(Hxy & Hsh) | (rows & cols & Hxy & Hln & Hsh)]);
    fold (figure_lengths f) in *.
  - assert (Hcells : Forall (fun ij => 0 <= fst ij /\ 0 <= snd ij)
                       (cells_of (panel_shape pl))).
    { apply Forall_forall. intros [i j] Hin.
      exact (cells_of_nonneg _ _ _ Hin). }
    pose proof (walk_two_axes f pl a b c _ Hxy Ha Hb Hc Hab Hca Hcb Hcells
                  (init_locals f) ps eq_refl
                  ltac:(destruct c as [| [| [| ?]]]; try lia; reflexivity) Hp)
      as Hsel.
    rewrite Forall_forall in Hsel |- *. intros p Hin.
    destruct (Hsel p Hin) as (v & Hv & Hva & Hvb & Hvc).
    pose proof (panel_in_cells _ _ _ _ _ _ _ _ Hp Hin) as Hc'.
    rewrite Hsh in Hc'. destruct (panel_cell p) as [i j].
    apply cells_of_bounds in Hc'. cbn [fst snd] in *.
    unfold inside_lengths. rewrite Hv. intros d Hd.
    pose proof (Hpos c Hc).
    assert (d = a \/ d = b \/ d = c) as [-> | [-> | ->]] by lia; lia.
  - assert (Hcells : Forall (fun ij => 0 <= cols * fst ij + snd ij)
                       (cells_of (panel_shape pl))).
    { rewrite Hsh. apply Forall_forall. intros [i j] Hin.
      apply cells_of_bounds in Hin. cbn [fst snd]. nia. }
    pose proof (walk_one_axis f pl a b c _ rows cols _ Hxy Hln Hsh Ha Hb Hc
                  ltac:(lia) ltac:(lia) ltac:(lia) Hcells
                  (init_locals f) ps eq_refl
                  ltac:(destruct b as [| [| [| ?]]]; try lia; reflexivity)
                  ltac:(destruct c as [| [| [| ?]]]; try lia; reflexivity) Hp)
      as Hsel.
    rewrite Forall_forall in Hsel |- *. intros p Hin.
    specialize (Hsel p Hin). cbv zeta in Hsel.
    pose proof (panel_in_cells _ _ _ _ _ _ _ _ Hp Hin) as Hc'.
    rewrite Hsh in Hc'. destruct (panel_cell p) as [i j] eqn:Ep.
    apply cells_of_bounds in Hc'. cbn [fst snd] in *.
    unfold inside_lengths.
    destruct (Z.ltb_spec (cols * i + j) (nth a (figure_lengths f) 0))
      as [Hlt | Hge].
    + destruct Hsel as (v & Hv & Hva & Hvb & Hvc). rewrite Hv.
      intros d Hd. pose proof (Hpos b Hb). pose proof (Hpos c Hc).
      assert (d = a \/ d = b \/ d = c) as [-> | [-> | ->]] by lia; nia.
    + destruct p; [exact I | discriminate].
Qed.

Lemma drawn_panels_fetch_inside_the_lengths_witness :
  let f := mkFigure 2 None [None] [0; 4; 8] "ref" in
  Forall (inside_lengths f)
    [Drawn 0 0 (SelMember 0 0 0) (Some "+0h") (Some "model 0");
     Drawn 0 1 (SelMember 0 0 1) (Some "+24h") None;
     Drawn 0 2 (SelMember 0 0 2) (Some "+48h") None;
     Drawn 1 0 (SelMember 1 0 0) None (Some "model 1");
     Drawn 1 1 (SelMember 1 0 1) None None;
     Drawn 1 2 (SelMember 1 0 2) None None].
Proof.
  intros f.
  apply (drawn_panels_fetch_inside_the_lengths f false). reflexivity.
Defined.

(** One cell of a two-axis grid with a reference: on the reference line the
    reference is drawn, which needs the features of an earlier model panel;
    elsewhere a model panel inside the lengths of its axes. *)
Lemma cell_two_axes_ref (f : figure) (pl : plan) (a b c : nat) (i j : Z)
    (ri rj : option Z) (st : locals) :
  var_idx_xy pl = [a; b] -> ref pl = [ri; rj] ->
  (a < 3)%nat -> (b < 3)%nat -> (c < 3)%nat -> a <> b -> c <> a -> c <> b ->
  List.length (idx st) = 3%nat -> nth c (idx st) 0 = 0 ->
  (1 <= n_paths f)%nat ->
  0 <= i -> 0 <= j ->
  (on_reference (ref pl) i j = false ->
     i < nth a (figure_lengths f) 0 /\ j < nth b (figure_lengths f) 0) ->
  (on_reference (ref pl) i j = true -> features_bound st = true) ->
  exists p st',
    cell f pl false true i j st = Ok (p, st') /\
    is_reference p = on_reference (ref pl) i j /\
    is_deleted p = false /\
    (on_reference (ref pl) i j = false ->
       exists v, selected p = Some v /\
                 nth a v 0 = i /\ nth b v 0 = j /\ nth c v 0 = 0) /\
    List.length (idx st') = 3%nat /\ nth c (idx st') 0 = 0 /\
    features_bound st' = true.
Proof.
  intros Hxy Hrf Ha Hb Hc Hab Hca Hcb Hlen H0 Hnp Hi Hj Hin Hfb.
  destruct st as [ix ly dm fb]. cbn [idx] in Hlen, H0.
  cbn [features_bound] in Hfb.
  destruct ix as [| i0 [| i1 [| i2 [| ? ?]]]]; try discriminate.
  unfold cell. rewrite Hxy, Hrf in *. unfold on_reference in *.
  cbn [nth List.length Nat.eqb] in *.
  destruct (Py.none_or_eq ri i && Py.none_or_eq rj j) eqn:E.
  - rewrite (Hfb eq_refl).
    destruct a as [| [| [| ?]]]; try lia;
      destruct b as [| [| [| ?]]]; try lia;
      destruct c as [| [| [| ?]]]; try lia;
      cbn [nth] in H0; subst;
      cbn -[Z.mul Z.add]; rewrite E; cbn -[Z.mul Z.add];
      do 2 eexists; (split; [reflexivity |]); cbn;
      repeat split; discriminate.
  - destruct (Hin eq_refl) as [Hi' Hj'].
    destruct (label_ok f a i Ha ltac:(lia)) as (lfa & sa & Ela & Esa).
    destruct (label_ok f b j Hb ltac:(lia)) as (lfb & sb & Elb & Esb).
    rewrite Ela, Elb. unfold figure_lengths in *.
    destruct a as [| [| [| ?]]]; try lia;
      destruct b as [| [| [| ?]]]; try lia;
      destruct c as [| [| [| ?]]]; try lia;
      cbn [nth] in H0, Hi', Hj'; subst;
      cbn -[Py.index Z.mul Z.add]; rewrite E;
      cbn -[Py.index Z.mul Z.add];
      rewrite ?Esa, ?Esb;
      match goal with
      | |- context [Py.index (seq 0 (n_paths f)) ?k] =>
          let Hp := fresh "Hp" in
          destruct (path_ok f k ltac:(lia)) as (path & Hp); rewrite Hp;
          apply index_seq in Hp; [| lia]
      end;
      destruct (i =? 0), (j =? 0); cbn -[Z.mul Z.add];
      do 2 eexists; (split; [reflexivity |]); cbn;
      (split; [reflexivity |]); (split; [reflexivity |]);
      (split; [intros _; eexists; split; [reflexivity |]; cbn; repeat split; lia
              | repeat split]).
Qed.

Lemma walk_two_axes_ref (f : figure) (pl : plan) (a b c : nat)
    (ri rj : option Z) (cells : list (Z * Z)) :
  var_idx_xy pl = [a; b] -> ref pl = [ri; rj] ->
  (a < 3)%nat -> (b < 3)%nat -> (c < 3)%nat -> a <> b -> c <> a -> c <> b ->
  (1 <= n_paths f)%nat ->
  Forall (fun ij =>
            0 <= fst ij /\ 0 <= snd ij /\
            (on_reference (ref pl) (fst ij) (snd ij) = false ->
               fst ij < nth a (figure_lengths f) 0 /\
               snd ij < nth b (figure_lengths f) 0)) cells ->
  forall st,
    List.length (idx st) = 3%nat -> nth c (idx st) 0 = 0 ->
    (features_bound st = true \/
     exists rest, cells = (0, 0) :: rest /\
                  on_reference (ref pl) 0 0 = false) ->
    exists ps,
      walk f pl false true cells st = Ok ps /\
      Forall (fun p =>
                is_deleted p = false /\
                is_reference p =
                  on_reference (ref pl) (fst (panel_cell p))
                    (snd (panel_cell p))) ps.
Proof.
  intros Hxy Hrf Ha Hb Hc Hab Hca Hcb Hnp Hcells.
  induction Hcells as [| [i j] rest (Hi & Hj & Hin) _ IH];
    intros st Hlen H0 Hfb; cbn [walk].
  - eexists. split; [reflexivity | constructor].
  - cbn [fst snd] in Hi, Hj, Hin.
    destruct (cell_two_axes_ref f pl a b c i j ri rj st Hxy Hrf Ha Hb Hc Hab
                Hca Hcb Hlen H0 Hnp Hi Hj Hin)
      as (p & st' & Ec & Hr & Hd & _ & Hlen' & H0' & Hfb').
    { intros Hon. destruct Hfb as [Hfb | (rest' & E & Hoff)]; [exact Hfb |].
      injection E as -> -> _. congruence. }
    rewrite Ec. cbn [bind].
    destruct (IH st' Hlen' H0' (or_introl Hfb')) as (ps & -> & Hps).
    cbn [bind]. eexists. split; [reflexivity |].
    constructor; [| exact Hps].
    rewrite (cell_at _ _ _ _ _ _ _ _ _ Ec). cbn [fst snd]. now split.
Qed.

(** The two-axis plans with a reference: the reference is appended as one
    more row or one more column, along a grid axis that does not carry the
    lead times. *)
Lemma ref_plan (nm nlt n : Z) (sw : bool) (pl : plan) :
  0 <= nm < int64_max - 2 -> 0 <= nlt < int64_max - 2 ->
  0 <= n < int64_max - 2 ->
  panel_daemon nm nlt (Some n) false true sw = Ok pl ->
  List.length (var_idx_xy pl) = 2%nat ->
  exists a b c : nat,
    (a < 3)%nat /\ (b < 3)%nat /\ (c < 3)%nat /\ a <> b /\ c <> a /\ c <> b /\
    var_idx_xy pl = [a; b] /\
    1 <= nth a [nm; nlt; n] 0 /\ 1 <= nth b [nm; nlt; n] 0 /\
    ((a <> LeadTime /\
      ref pl = [Some (nth a [nm; nlt; n] 0); None] /\
      panel_shape pl = [nth a [nm; nlt; n] 0 + 1; nth b [nm; nlt; n] 0]) \/
     (b <> LeadTime /\
      ref pl = [None; Some (nth b [nm; nlt; n] 0)] /\
      panel_shape pl = [nth a [nm; nlt; n] 0; nth b [nm; nlt; n] 0 + 1])).
Proof.
  intros Bm Bl Bn H Hlen. unfold int64_max, LeadTime in *.
  apply panel_daemon_stages in H.
  destruct H as (H0 & _ & p & Hc & Hf).
  apply finish_fields in Hf. destruct Hf as (sh & em & rf & Hsh & _ & Hrf & ->).
  unfold var_len, num_members, resolve_ens_size in Hc, H0.
  cbn [Z.b2z] in Hc, H0. rewrite Z.add_0_r in Hc, H0.
  assert (Hpos : 1 <= nm /\ 1 <= nlt /\ 1 <= n).
  { cbn [In] in H0.
    destruct (Z.eq_dec nm 0), (Z.eq_dec nlt 0), (Z.eq_dec n 0);
      try (exfalso; apply H0; auto; fail). lia. }
  destruct (axes_sorted nm nlt n)
    as (z & x & y & Hxy & (Hz & Hx & Hy) & Hzx & Hzy & Hxy' & _).
  apply collapse_xy in Hc. rewrite assign_axes_xy, Hxy in Hc.
  destruct Hc as [(E1 & _ & E2 & _ & _ & E3) | (E1 & _)].
  2:{ exfalso. destruct sw; cbn [var_idx_xy] in Hlen;
        rewrite ?length_rev, E1 in Hlen; discriminate. }
  rewrite E2 in Hsh. rewrite E3 in Hrf.
  injection Hsh as <-. injection Hrf as <-.
  assert (Hnth : forall k : nat, (k < 3)%nat -> 1 <= nth k [nm; nlt; n] 0).
  { intros [| [| [| ?]]] Hk; cbn; lia. }
  destruct sw; [exists y, x, z | exists x, y, z];
    (do 6 (split; [lia |])); cbn [var_idx_xy ref panel_shape];
    rewrite E1; (split; [reflexivity |]);
    (split; [now apply Hnth |]); (split; [now apply Hnth |]);
    unfold assign_axes; rewrite Hxy;
    destruct x as [| [| [| ?]]]; try lia;
    destruct y as [| [| [| ?]]]; try lia;
    cbn -[Np.wrap64 Z.add Z.pow]; rewrite wrap64_small by lia;
    ((left; repeat split; (discriminate || reflexivity)) ||
     (right; repeat split; (discriminate || reflexivity))).
Qed.

(** X12: with a reference and no ensemble mean, whenever [plot] returns a figure
    laid out on two axes, it has drawn one panel for every cell, none is
    deleted, and the reference fills exactly one line of the grid: the last
    row, or the last column; the grid axis of that line never carries the
    lead times. *)
Theorem reference_fills_last_line (f : figure) (sw : bool) (pl : plan)
    (ps : list panel) :
  fits_int64 f ->
  panel_daemon (Z.of_nat (n_paths f)) (Z.of_nat (List.length (lead_times f)))
    (Some (Z.of_nat (List.length (members f)))) false true sw = Ok pl ->
  List.length (var_idx_xy pl) = 2%nat ->
  plot f false true sw = Ok ps ->
  exists rows cols,
    panel_shape pl = [rows; cols] /\
    map panel_cell ps = cells_of [rows; cols] /\
    Forall (fun p => is_deleted p = false) ps /\
    ((nth 0 (var_idx_xy pl) O <> LeadTime /\
      Forall (fun p => is_reference p = (fst (panel_cell p) =? rows - 1)) ps) \/
     (nth 1 (var_idx_xy pl) O <> LeadTime /\
      Forall (fun p => is_reference p = (snd (panel_cell p) =? cols - 1)) ps)).
Proof.
  intros (B1 & B2 & B3) H Hlen Hplot.
  destruct (ref_plan (Z.of_nat (n_paths f))
              (Z.of_nat (List.length (lead_times f)))
              (Z.of_nat (List.length (members f))) sw pl
              ltac:(lia) ltac:(lia) ltac:(lia) H Hlen)
    as (a & b & c & Ha & Hb & Hc & Hab & Hca & Hcb & Hxy & Hla & Hlb & Hcase).
  fold (figure_lengths f) in Hla, Hlb, Hcase.
  assert (Hnp : (1 <= n_paths f)%nat).
  { apply panel_daemon_stages in H. destruct H as (H0 & _).
    destruct (n_paths f); [exfalso; apply H0; now left | lia]. }
  assert (Hc0 : nth c (idx (init_locals f)) 0 = 0)
    by (destruct c as [| [| [| ?]]]; try lia; reflexivity).
  unfold plot in Hplot. rewrite H in Hplot.
  destruct (Py.index (seq 0 (n_paths f)) 0) as [p0 |]; [| discriminate].
  cbn [bind] in Hplot. unfold bind_panels in Hplot.
  destruct Hcase as [(Hnl & Hrf & Hsh) | (Hnl & Hrf & Hsh)].
  - destruct (cells_of_head (nth a (figure_lengths f) 0 + 1)
                (nth b (figure_lengths f) 0) ltac:(lia) Hlb) as (rest & Hhd).
    destruct (walk_two_axes_ref f pl a b c _ _ (cells_of (panel_shape pl))
                Hxy Hrf Ha Hb Hc Hab Hca Hcb Hnp) with (st := init_locals f)
      as (ps' & Hw & Hps); try reflexivity; try exact Hc0.
    + rewrite Hsh, Hrf. apply Forall_forall. intros [i j] Hin.
      apply cells_of_bounds in Hin. unfold on_reference.
      cbn [nth fst snd Py.none_or_eq].
      rewrite andb_true_r. intros.
      destruct (Z.eqb_spec i (nth a (figure_lengths f) 0)); intuition lia.
    + right. exists rest. rewrite Hsh, Hrf. split; [exact Hhd |].
      unfold on_reference. cbn [nth fst snd Py.none_or_eq].
      rewrite andb_true_r. apply Z.eqb_neq. lia.
    + rewrite Hplot in Hw. injection Hw as <-.
      exists (nth a (figure_lengths f) 0 + 1), (nth b (figure_lengths f) 0).
      split; [exact Hsh |].
      split; [rewrite <- Hsh; exact (walk_cells _ _ _ _ _ _ _ Hplot) |].
      split.
      * eapply Forall_impl; [| exact Hps]. cbn. tauto.
      * left. rewrite Hxy. split; [exact Hnl |].
        eapply Forall_impl; [| exact Hps]. cbn beta. intros p [_ ->].
        rewrite Hrf. unfold on_reference. cbn [nth fst snd Py.none_or_eq].
        rewrite andb_true_r. f_equal. lia.
  - destruct (cells_of_head (nth a (figure_lengths f) 0)
                (nth b (figure_lengths f) 0 + 1) Hla ltac:(lia))
      as (rest & Hhd).
    destruct (walk_two_axes_ref f pl a b c _ _ (cells_of (panel_shape pl))
                Hxy Hrf Ha Hb Hc Hab Hca Hcb Hnp) with (st := init_locals f)
      as (ps' & Hw & Hps); try reflexivity; try exact Hc0.
    + rewrite Hsh, Hrf. apply Forall_forall. intros [i j] Hin.
      apply cells_of_bounds in Hin. unfold on_reference.
      cbn [nth fst snd Py.none_or_eq].
      intros.
      destruct (Z.eqb_spec j (nth b (figure_lengths f) 0)); intuition lia.
    + right. exists rest. rewrite Hsh, Hrf. split; [exact Hhd |].
      unfold on_reference. cbn [nth fst snd Py.none_or_eq].
      apply Z.eqb_neq. lia.
    + rewrite Hplot in Hw. injection Hw as <-.
      exists (nth a (figure_lengths f) 0), (nth b (figure_lengths f) 0 + 1).
      split; [exact Hsh |].
      split; [rewrite <- Hsh; exact (walk_cells _ _ _ _ _ _ _ Hplot) |].
      split.
      * eapply Forall_impl; [| exact Hps]. cbn. tauto.
      * right. rewrite Hxy. split; [exact Hnl |].
        eapply Forall_impl; [| exact Hps]. cbn beta. intros p [_ ->].
        rewrite Hrf. unfold on_reference. cbn [nth fst snd Py.none_or_eq].
        f_equal. lia.
Qed.

Lemma reference_fills_last_line_witness :
  let f := mkFigure 1 None [None] [0; 4; 8; 12] "ERA5" in
  let pl := mkPlan [2; 4] [Ensemble; LeadTime] [2; 4] [None; None; None]
              [Some 1; None] in
  let ps := [Drawn 0 0 (SelMember 0 0 0) (Some "+0h") (Some "member None");
             Drawn 0 1 (SelMember 0 0 1) (Some "+24h") None;
             Drawn 0 2 (SelMember 0 0 2) (Some "+48h") None;
             Drawn 0 3 (SelMember 0 0 3) (Some "+72h") None;
             Drawn 1 0 (SelRef 0) None (Some "ERA5");
             Drawn 1 1 (SelRef 1) None None;
             Drawn 1 2 (SelRef 2) None None;
             Drawn 1 3 (SelRef 3) None None] in
  exists rows cols,
    panel_shape pl = [rows; cols] /\
    map panel_cell ps = cells_of [rows; cols] /\
    Forall (fun p => is_deleted p = false) ps /\
    ((nth 0 (var_idx_xy pl) O <> LeadTime /\
      Forall (fun p => is_reference p = (fst (panel_cell p) =? rows - 1)) ps) \/
     (nth 1 (var_idx_xy pl) O <> LeadTime /\
      Forall (fun p => is_reference p = (snd (panel_cell p) =? cols - 1)) ps)).
Proof.
  intros f pl ps.
  apply (reference_fills_last_line f false pl ps).
  - unfold fits_int64, int64_max. cbn. lia.
  - vm_compute. reflexivity.
  - reflexivity.
  - vm_compute. reflexivity.
Defined.

Lemma transpose_panel_involutive (p : panel) :
  transpose_panel (transpose_panel p) = p.
Proof. destruct p; reflexivity. Qed.

Lemma labels_at (f : figure) :
  Py.index (labels f) 0 = Ok (model_label f) /\
  Py.index (labels f) 1 = Ok (lt_label f) /\
  Py.index (labels f) 2 = Ok (member_label f).
Proof. repeat split. Qed.

(** A cell of a plain two-axis grid and the mirrored cell of the grid with
    the axes exchanged draw the same data, with the labels exchanged. *)
Lemma cell_swap (f : figure) (pl pl' : plan) (a b c : nat) (i j : Z)
    (st1 st1' st2 : locals) (p : panel) :
  var_idx_xy pl = [a; b] -> var_idx_xy pl' = [b; a] ->
  (a < 3)%nat -> (b < 3)%nat -> (c < 3)%nat -> a <> b -> c <> a -> c <> b ->
  List.length (idx st1) = 3%nat -> nth c (idx st1) 0 = 0 ->
  List.length (idx st2) = 3%nat -> nth c (idx st2) 0 = 0 ->
  cell f pl false false i j st1 = Ok (p, st1') ->
  exists st2',
    cell f pl' false false j i st2 = Ok (transpose_panel p, st2') /\
    List.length (idx st2') = 3%nat /\ nth c (idx st2') 0 = 0.
Proof.
  intros Hxy Hxy' Ha Hb Hc Hab Hca Hcb Hlen1 H1 Hlen2 H2 H.
  destruct st1 as [ix ly dm fb]. cbn [idx] in Hlen1, H1.
  destruct ix as [| i0 [| i1 [| i2 [| ? ?]]]]; try discriminate.
  destruct st2 as [ix' ly' dm' fb']. cbn [idx] in Hlen2, H2.
  destruct ix' as [| i0' [| i1' [| i2' [| ? ?]]]]; try discriminate.
  destruct (labels_at f) as (L0 & L1 & L2).
  unfold cell in *. rewrite Hxy in H. rewrite Hxy'.
  destruct a as [| [| [| ?]]]; try lia;
    destruct b as [| [| [| ?]]]; try lia;
    destruct c as [| [| [| ?]]]; try lia;
    cbn [nth] in H1, H2; subst;
    cbn -[labels Py.index Z.mul Z.add model_label lt_label member_label]
      in H |- *;
    rewrite ?L0, ?L1, ?L2 in H |- *; cbn [bind] in H |- *;
    destruct (i =? 0), (j =? 0); cbn [label_if bind] in H |- *;
    repeat match type of H with
           | context [model_label f ?k] =>
               destruct (model_label f k); cbn [bind] in H |- *;
               try discriminate
           | context [lt_label f ?k] =>
               destruct (lt_label f k); cbn [bind] in H |- *;
               try discriminate
           | context [member_label f ?k] =>
               destruct (member_label f k); cbn [bind] in H |- *;
               try discriminate
           end;
    match type of H with
    | context [Py.index (seq 0 (n_paths f)) ?k] =>
        destruct (Py.index (seq 0 (n_paths f)) k); cbn [bind] in H |- *;
        try discriminate
    end;
    injection H as <- <-; eexists; repeat split.
Qed.

Lemma walk_member (f : figure) (pl : plan) (a b c : nat)
    (cells : list (Z * Z)) :
  var_idx_xy pl = [a; b] ->
  (a < 3)%nat -> (b < 3)%nat -> (c < 3)%nat -> a <> b -> c <> a -> c <> b ->
  Forall (fun ij => 0 <= fst ij /\ 0 <= snd ij) cells ->
  forall st ps,
    List.length (idx st) = 3%nat -> nth c (idx st) 0 = 0 ->
    walk f pl false false cells st = Ok ps ->
    forall i j, In (i, j) cells ->
      exists st1 st1' p,
        List.length (idx st1) = 3%nat /\ nth c (idx st1) 0 = 0 /\
        cell f pl false false i j st1 = Ok (p, st1') /\ In p ps.
Proof.
  intros Hxy Ha Hb Hc Hab Hca Hcb Hcells.
  induction Hcells as [| [i0 j0] rest [Hi Hj] _ IH];
    intros st ps Hlen H0 H i j Hin; [destruct Hin |].
  cbn [walk] in H. cbn [fst snd] in Hi, Hj.
  destruct (cell f pl false false i0 j0 st) as [[p st'] |] eqn:Ec;
    [| discriminate].
  cbn [bind] in H.
  destruct (walk f pl false false rest st') as [ps' |] eqn:Ew;
    [| discriminate].
  cbn [bind] in H. injection H as <-.
  destruct Hin as [E | Hin].
  - injection E as -> ->. exists st, st', p.
    repeat split; try assumption. now left.
  - destruct (cell_two_axes f pl a b c i0 j0 st st' p Hxy Ha Hb Hc Hab Hca Hcb
                Hlen H0 Hi Hj Ec) as (_ & Hlen' & H0').
    destruct (IH st' ps' Hlen' H0' Ew i j Hin)
      as (st1 & st1' & q & ? & ? & ? & ?).
    exists st1, st1', q. repeat split; try assumption. now right.
Qed.

Lemma walk_swap (f : figure) (pl pl' : plan) (a b c : nat)
    (cells : list (Z * Z)) (st : locals) (ps : list panel) :
  var_idx_xy pl = [a; b] -> var_idx_xy pl' = [b; a] ->
  (a < 3)%nat -> (b < 3)%nat -> (c < 3)%nat -> a <> b -> c <> a -> c <> b ->
  Forall (fun ij => 0 <= fst ij /\ 0 <= snd ij) cells ->
  List.length (idx st) = 3%nat -> nth c (idx st) 0 = 0 ->
  walk f pl false false cells st = Ok ps ->
  forall cells' st2,
    (forall i j, In (j, i) cells' -> In (i, j) cells) ->
    List.length (idx st2) = 3%nat -> nth c (idx st2) 0 = 0 ->
    exists ps',
      walk f pl' false false cells' st2 = Ok ps' /\
      Forall (fun p' => In (transpose_panel p') ps) ps'.
Proof.
  intros Hxy Hxy' Ha Hb Hc Hab Hca Hcb Hcells Hlen H0 H.
  induction cells' as [| [j i] rest IH]; intros st2 Hsub Hlen2 H2;
    cbn [walk].
  - eexists. split; [reflexivity | constructor].
  - destruct (walk_member f pl a b c cells Hxy Ha Hb Hc Hab Hca Hcb Hcells
                st ps Hlen H0 H i j (Hsub i j (or_introl eq_refl)))
      as (st1 & st1' & p & Hl1 & H01 & Ec & Hin).
    destruct (cell_swap f pl pl' a b c i j st1 st1' st2 p Hxy Hxy' Ha Hb Hc
                Hab Hca Hcb Hl1 H01 Hlen2 H2 Ec) as (st2' & -> & Hl2' & H02').
    cbn [bind].
    destruct (IH st2' (fun i' j' Hi' => Hsub i' j' (or_intror Hi')) Hl2' H02')
      as (ps' & -> & Hps').
    cbn [bind]. eexists. split; [reflexivity |].
    constructor; [| exact Hps'].
    now rewrite transpose_panel_involutive.
Qed.

Lemma cells_of_In (rows cols i j : Z) :
  0 <= i < rows -> 0 <= j < cols -> In (i, j) (cells_of [rows; cols]).
Proof.
  intros Hi Hj. unfold cells_of, Py.range. cbn [nth].
  apply in_flat_map. exists i. split.
  - apply in_map_iff. exists (Z.to_nat i). split; [lia |].
    apply in_seq. lia.
  - apply in_map_iff. exists j. split; [reflexivity |].
    apply in_map_iff. exists (Z.to_nat j). split; [lia |].
    apply in_seq. lia.
Qed.

(** The plain two-axis plans, with and without [swap_axes]. *)
Lemma plain_two_axes_swap (nm nlt n : Z) (pl : plan) :
  panel_daemon nm nlt (Some n) false false false = Ok pl ->
  List.length (var_idx_xy pl) = 2%nat ->
  exists (a b c : nat) (rows cols : Z) (pl' : plan),
    (a < 3)%nat /\ (b < 3)%nat /\ (c < 3)%nat /\ a <> b /\ c <> a /\ c <> b /\
    var_idx_xy pl = [a; b] /\ panel_shape pl = [rows; cols] /\
    panel_daemon nm nlt (Some n) false false true = Ok pl' /\
    var_idx_xy pl' = [b; a] /\ panel_shape pl' = [cols; rows].
Proof.
  intros H Hlen. unfold panel_daemon in *.
  destruct (existsb (Z.eqb 0) _); [discriminate |].
  destruct (negb (existsb (Z.eqb 1) _)); [discriminate |].
  destruct (collapse _ _ _) as [p |] eqn:Ec; [| discriminate].
  cbn [bind] in H |- *.
  apply finish_fields in H. destruct H as (sh & em & rf & Hsh & Hem & Hrf & ->).
  cbn [var_idx_xy panel_shape] in *.
  unfold var_len, num_members, resolve_ens_size in Ec.
  cbn [Z.b2z] in Ec. rewrite Z.add_0_r in Ec.
  destruct (axes_sorted nm nlt n)
    as (z & x & y & Hxy & (Hz & Hx & Hy) & Hzx & Hzy & Hxy' & _).
  assert (Hs : st_shape (assign_axes [nm; nlt; n] n false false) =
               [nth x [nm; nlt; n] 0; nth y [nm; nlt; n] 0]).
  { unfold assign_axes. rewrite Hxy. reflexivity. }
  apply collapse_xy in Ec. rewrite assign_axes_xy, Hxy, Hs in Ec.
  destruct Ec as [(E1 & E2 & E3 & _) | (E1 & _)].
  2:{ rewrite E1 in Hlen. discriminate. }
  rewrite E3 in Hsh. injection Hsh as <-.
  exists x, y, z, (nth x [nm; nlt; n] 0), (nth y [nm; nlt; n] 0).
  unfold finish. destruct p as [psh pxy pln pem prf].
  cbn [pk_xy pk_len pk_shape pk_ens_mean pk_ref] in *. subst.
  eexists. do 6 (split; [lia |]). cbn.
  repeat split.
Qed.

(** Two models and two lead times: the lengths tie, the axes are sorted once
    with the model first, and line 142 reverses them. *)
Lemma swap_exchanges_tied_axes :
  panel_daemon 2 2 (Some 1) false false false =
    Ok (mkPlan [2; 2] [Model; LeadTime] [2; 2] [None; None; None]
          [None; None]) /\
  panel_daemon 2 2 (Some 1) false false true =
    Ok (mkPlan [2; 2] [LeadTime; Model] [2; 2] [None; None; None]
          [None; None]).
Proof. split; vm_compute; reflexivity. Qed.

(** X13: with neither ensemble mean nor reference, [swap_axes] transposes a
    figure laid out on two axes, also when the two lengths are equal (the
    axes are sorted before the swap and reversed by it): the swapped figure
    is drawn as well, has as many panels, and its cell (j, i) shows the data
    of cell (i, j) of the plain figure, with the top and the left label
    exchanged. *)
Theorem swapped_figure_is_transposed (f : figure) (pl : plan)
    (ps : list panel) :
  panel_daemon (Z.of_nat (n_paths f)) (Z.of_nat (List.length (lead_times f)))
    (Some (Z.of_nat (List.length (members f)))) false false false = Ok pl ->
  List.length (var_idx_xy pl) = 2%nat ->
  plot f false false false = Ok ps ->
  exists ps',
    plot f false false true = Ok ps' /\
    List.length ps' = List.length ps /\
    forall p, In p ps <-> In (transpose_panel p) ps'.
Proof.
  intros H Hlen Hp.
  destruct (plain_two_axes_swap _ _ _ pl H Hlen)
    as (a & b & c & rows & cols & pl' & Ha & Hb & Hc & Hab & Hca & Hcb & Hxy &
        Hsh & H' & Hxy' & Hsh').
  unfold plot in *. rewrite H in Hp. rewrite H'.
  destruct (Py.index (seq 0 (n_paths f)) 0) as [? |]; [| discriminate].
  cbn [bind] in *. unfold bind_panels in *. rewrite Hsh in Hp. rewrite Hsh'.
  assert (Hc0 : nth c (idx (init_locals f)) 0 = 0)
    by (destruct c as [| [| [| ?]]]; try lia; reflexivity).
  assert (Hnn : forall r k, Forall (fun ij => 0 <= fst ij /\ 0 <= snd ij)
                              (cells_of [r; k])).
  { intros r k. apply Forall_forall. intros [i j] Hin.
    apply cells_of_bounds in Hin. cbn [fst snd]. lia. }
  assert (Hsub : forall r k i j,
             In (j, i) (cells_of [k; r]) -> In (i, j) (cells_of [r; k])).
  { intros r k i j Hin. apply cells_of_bounds in Hin.
    apply cells_of_In; lia. }
  destruct (walk_swap f pl pl' a b c _ (init_locals f) ps Hxy Hxy' Ha Hb Hc Hab Hca Hcb
              (Hnn rows cols) eq_refl Hc0 Hp (cells_of [cols; rows])
              (init_locals f) (Hsub rows cols) eq_refl Hc0)
    as (ps' & Hw' & Hall').
  exists ps'. split; [exact Hw' |].
  destruct (walk_swap f pl' pl b a c _ (init_locals f) ps' Hxy' Hxy Hb Ha Hc
              (not_eq_sym Hab) Hcb Hca (Hnn cols rows) eq_refl Hc0 Hw'
              (cells_of [rows; cols]) (init_locals f) (Hsub cols rows)
              eq_refl Hc0)
    as (ps2 & Hw2 & Hall2).
  rewrite Hp in Hw2. injection Hw2 as <-.
  split.
  - rewrite <- (length_map panel_cell ps'), <- (length_map panel_cell ps).
    rewrite (walk_cells _ _ _ _ _ _ _ Hw'), (walk_cells _ _ _ _ _ _ _ Hp).
    rewrite !cells_of_length. lia.
  - intros p. split; intros Hin.
    + rewrite Forall_forall in Hall2. exact (Hall2 p Hin).
    + rewrite Forall_forall in Hall'.
      rewrite <- (transpose_panel_involutive p). exact (Hall' _ Hin).
Qed.

Lemma swapped_figure_is_transposed_witness :
  let f := mkFigure 2 None [None] [0; 4] "ref" in
  let ps := [Drawn 0 0 (SelMember 0 0 0) (Some "+0h") (Some "model 0");
             Drawn 0 1 (SelMember 0 0 1) (Some "+24h") None;
             Drawn 1 0 (SelMember 1 0 0) None (Some "model 1");
             Drawn 1 1 (SelMember 1 0 1) None None] in
  plot f false false true =
    Ok [Drawn 0 0 (SelMember 0 0 0) (Some "model 0") (Some "+0h");
        Drawn 0 1 (SelMember 1 0 0) (Some "model 1") None;
        Drawn 1 0 (SelMember 0 0 1) None (Some "+24h");
        Drawn 1 1 (SelMember 1 0 1) None None] /\
  exists ps',
    plot f false false true = Ok ps' /\
    List.length ps' = List.length ps /\
    forall p, In p ps <-> In (transpose_panel p) ps'.
Proof.
  intros f ps. split; [vm_compute; reflexivity |].
  apply (swapped_figure_is_transposed f
           (mkPlan [2; 2] [Model; LeadTime] [2; 2] [None; None; None]
              [None; None]) ps); reflexivity.
Defined.

(** Two cells with the same number, in two packings of one axis, show the
    same. *)
Lemma cell_rewrap (f : figure) (pl pl' : plan) (a c d : nat)
    (count rows cols rows' cols' i j i' j' : Z) (st1 st1' st2 : locals)
    (p : panel) :
  var_idx_xy pl = [a] -> var_len_xy pl = [count] ->
  panel_shape pl = [rows; cols] ->
  var_idx_xy pl' = [a] -> var_len_xy pl' = [count] ->
  panel_shape pl' = [rows'; cols'] ->
  (a < 3)%nat -> (c < 3)%nat -> (d < 3)%nat -> a <> c -> a <> d -> c <> d ->
  List.length (idx st1) = 3%nat ->
  nth c (idx st1) 0 = 0 -> nth d (idx st1) 0 = 0 ->
  List.length (idx st2) = 3%nat ->
  nth c (idx st2) 0 = 0 -> nth d (idx st2) 0 = 0 ->
  cols * i + j = cols' * i' + j' ->
  cell f pl false false i j st1 = Ok (p, st1') ->
  (List.length (idx st1') = 3%nat /\
   nth c (idx st1') 0 = 0 /\ nth d (idx st1') 0 = 0) /\
  exists p' st2',
    cell f pl' false false i' j' st2 = Ok (p', st2') /\
    content p' = content p /\
    List.length (idx st2') = 3%nat /\
    nth c (idx st2') 0 = 0 /\ nth d (idx st2') 0 = 0.
Proof.
  intros Hxy Hln Hsh Hxy' Hln' Hsh' Ha Hc Hd Hac Had Hcd Hlen1 H1 H1'
    Hlen2 H2 H2' Hk H.
  destruct st1 as [ix ly dm fb]. cbn [idx] in Hlen1, H1, H1'.
  destruct ix as [| i0 [| i1 [| i2 [| ? ?]]]]; try discriminate.
  destruct st2 as [ix' ly' dm' fb']. cbn [idx] in Hlen2, H2, H2'.
  destruct ix' as [| i0' [| i1' [| i2' [| ? ?]]]]; try discriminate.
  destruct (labels_at f) as (L0 & L1 & L2).
  unfold cell in *. rewrite Hxy, Hln, Hsh in H. rewrite Hxy', Hln', Hsh'.
  cbn [nth List.length Nat.eqb] in H |- *. rewrite <- Hk. clear Hk.
  set (k := cols * i + j) in *. clearbody k.
  destruct a as [| [| [| ?]]]; try lia;
    destruct c as [| [| [| ?]]]; try lia;
    destruct d as [| [| [| ?]]]; try lia;
    cbn [nth] in H1, H1', H2, H2'; subst;
    cbn -[labels Py.index Z.leb model_label lt_label member_label]
      in H |- *;
    (destruct (count <=? k);
     [ injection H as <- <-; cbn; split; [repeat split |];
       do 2 eexists; repeat split
     | rewrite ?L0, ?L1, ?L2 in H |- *; cbn [bind] in H |- *;
       repeat match type of H with
              | context [model_label f ?k] =>
                  destruct (model_label f k); cbn [bind] in H |- *;
                  try discriminate
              | context [lt_label f ?k] =>
                  destruct (lt_label f k); cbn [bind] in H |- *;
                  try discriminate
              | context [member_label f ?k] =>
                  destruct (member_label f k); cbn [bind] in H |- *;
                  try discriminate
              end;
       match type of H with
       | context [Py.index (seq 0 (n_paths f)) ?k] =>
           destruct (Py.index (seq 0 (n_paths f)) k); cbn [bind] in H |- *;
           try discriminate
       end;
       injection H as <- <-; cbn; split; [repeat split |];
       do 2 eexists; repeat split ]).
Qed.

Lemma walk_rewrap (f : figure) (pl pl' : plan) (a c d : nat)
    (count rows cols rows' cols' : Z) :
  var_idx_xy pl = [a] -> var_len_xy pl = [count] ->
  panel_shape pl = [rows; cols] ->
  var_idx_xy pl' = [a] -> var_len_xy pl' = [count] ->
  panel_shape pl' = [rows'; cols'] ->
  (a < 3)%nat -> (c < 3)%nat -> (d < 3)%nat -> a <> c -> a <> d -> c <> d ->
  forall cells cells' st1 st2 ps,
    map (fun ij => cols * fst ij + snd ij) cells =
      map (fun ij => cols' * fst ij + snd ij) cells' ->
    List.length (idx st1) = 3%nat ->
    nth c (idx st1) 0 = 0 -> nth d (idx st1) 0 = 0 ->
    List.length (idx st2) = 3%nat ->
    nth c (idx st2) 0 = 0 -> nth d (idx st2) 0 = 0 ->
    walk f pl false false cells st1 = Ok ps ->
    exists ps',
      walk f pl' false false cells' st2 = Ok ps' /\
      map content ps' = map content ps.
Proof.
  intros Hxy Hln Hsh Hxy' Hln' Hsh' Ha Hc Hd Hac Had Hcd.
  induction cells as [| [i j] rest IH];
    intros [| [i' j'] rest'] st1 st2 ps Hmap Hlen1 H1 H1' Hlen2 H2 H2' H;
    try discriminate; cbn [walk] in H |- *.
  - injection H as <-. eexists. split; reflexivity.
  - cbn [map fst snd] in Hmap. injection Hmap as Hk Hmap.
    destruct (cell f pl false false i j st1) as [[p st1'] |] eqn:Ec;
      [| discriminate].
    cbn [bind] in H.
    destruct (walk f pl false false rest st1') as [ps0 |] eqn:Ew;
      [| discriminate].
    cbn [bind] in H. injection H as <-.
    destruct (cell_rewrap f pl pl' a c d count rows cols rows' cols' i j i' j'
                st1 st1' st2 p Hxy Hln Hsh Hxy' Hln' Hsh' Ha Hc Hd Hac Had Hcd
                Hlen1 H1 H1' Hlen2 H2 H2' Hk Ec)
      as ((Hl1 & H11 & H11') & p' & st2' & -> & Hp' & Hl2 & H21 & H21').
    cbn [bind].
    destruct (IH rest' st1' st2' ps0 Hmap Hl1 H11 H11' Hl2 H21 H21' Ew)
      as (ps' & -> & Hps').
    cbn [bind]. eexists. split; [reflexivity |].
    cbn [map]. now rewrite Hp', Hps'.
Qed.

(** The cells of a grid in row-major order are numbered 0, 1, 2, ... *)
Lemma cells_of_numbers (rows cols : Z) :
  map (fun ij => cols * fst ij + snd ij) (cells_of [rows; cols]) =
  map Z.of_nat (seq 0 (Z.to_nat rows * Z.to_nat cols)).
Proof.
  apply nth_error_ext. intros k.
  destruct (Nat.lt_ge_cases k (Z.to_nat rows * Z.to_nat cols)) as [Hk | Hk].
  - rewrite !nth_error_map. unfold cells_of, Py.range. cbn [nth].
    rewrite rows_nth by exact Hk.
    rewrite (nth_error_nth' _ 0%nat) by (rewrite length_seq; exact Hk).
    rewrite seq_nth by exact Hk. cbn [option_map fst snd Nat.add].
    f_equal.
    assert (Hc : (0 < Z.to_nat cols)%nat) by (destruct (Z.to_nat cols); lia).
    pose proof (Nat.div_mod_eq k (Z.to_nat cols)) as E.
    replace cols with (Z.of_nat (Z.to_nat cols)) at 1 by lia.
    lia.
  - transitivity (@None Z).
    + apply nth_error_None.
      now rewrite length_map, cells_of_length.
    + symmetry. apply nth_error_None.
      now rewrite length_map, length_seq.
Qed.

(** The plain single-axis plans, with and without [swap_axes]. *)
Lemma plain_one_axis_swap (nm nlt n : Z) (pl : plan) :
  panel_daemon nm nlt (Some n) false false false = Ok pl ->
  List.length (var_idx_xy pl) = 1%nat ->
  exists (a c d : nat) (count rows cols : Z) (pl' : plan),
    (a < 3)%nat /\ (c < 3)%nat /\ (d < 3)%nat /\ a <> c /\ a <> d /\ c <> d /\
    var_idx_xy pl = [a] /\ var_len_xy pl = [count] /\
    panel_shape pl = [rows; cols] /\
    panel_daemon nm nlt (Some n) false false true = Ok pl' /\
    var_idx_xy pl' = [a] /\ var_len_xy pl' = [count] /\
    panel_shape pl' = [cols; rows].
Proof.
  intros H Hlen. unfold panel_daemon in *.
  destruct (existsb (Z.eqb 0) _); [discriminate |].
  destruct (negb (existsb (Z.eqb 1) _)); [discriminate |].
  destruct (collapse _ _ _) as [p |] eqn:Ec; [| discriminate].
  cbn [bind] in H |- *.
  apply finish_fields in H. destruct H as (sh & em & rf & Hsh & Hem & Hrf & ->).
  cbn [var_idx_xy var_len_xy panel_shape] in *.
  unfold var_len, num_members, resolve_ens_size in Ec.
  cbn [Z.b2z] in Ec. rewrite Z.add_0_r in Ec.
  destruct (axes_sorted nm nlt n)
    as (z & x & y & Hxy & (Hz & Hx & Hy) & Hzx & Hzy & Hxy' & _).
  assert (Hs : st_shape (assign_axes [nm; nlt; n] n false false) =
               [nth x [nm; nlt; n] 0; nth y [nm; nlt; n] 0]).
  { unfold assign_axes. rewrite Hxy. reflexivity. }
  apply collapse_xy in Ec. rewrite assign_axes_xy, Hxy, Hs in Ec.
  destruct Ec as [(E1 & _) | (E1 & E2 & _ & _ & e & _ & E3)].
  { rewrite E1 in Hlen. discriminate. }
  rewrite E3 in Hsh. destruct e as [[rows cols] |]; [| discriminate].
  cbn in Hsh. injection Hsh as <-.
  exists y, x, z, (nth y [nm; nlt; n] 0), rows, cols.
  unfold finish. destruct p as [psh pxy pln pem prf].
  cbn [pk_xy pk_len pk_shape pk_ens_mean pk_ref] in *. subst.
  eexists. do 6 (split; [lia |]). cbn.
  repeat split.
Qed.

(** X14: with neither ensemble mean nor reference, [swap_axes] does not transpose
    a figure packed from a single axis: the grid is wrapped the other way
    (columns for rows), and the panels keep their reading order, each with
    the data and the labels it had. *)
Theorem swapped_packed_figure_keeps_order (f : figure) (pl : plan)
    (ps : list panel) :
  panel_daemon (Z.of_nat (n_paths f)) (Z.of_nat (List.length (lead_times f)))
    (Some (Z.of_nat (List.length (members f)))) false false false = Ok pl ->
  List.length (var_idx_xy pl) = 1%nat ->
  plot f false false false = Ok ps ->
  exists pl' ps',
    panel_daemon (Z.of_nat (n_paths f))
      (Z.of_nat (List.length (lead_times f)))
      (Some (Z.of_nat (List.length (members f)))) false false true = Ok pl' /\
    panel_shape pl' = rev (panel_shape pl) /\
    plot f false false true = Ok ps' /\
    map content ps' = map content ps.
Proof.
  intros H Hlen Hp.
  destruct (plain_one_axis_swap _ _ _ pl H Hlen)
    as (a & c & d & count & rows & cols & pl' & Ha & Hc & Hd & Hac & Had &
        Hcd & Hxy & Hln & Hsh & H' & Hxy' & Hln' & Hsh').
  exists pl'. unfold plot in *. rewrite H in Hp. rewrite H'.
  destruct (Py.index (seq 0 (n_paths f)) 0) as [? |]; [| discriminate].
  cbn [bind] in *. unfold bind_panels in *. rewrite Hsh in Hp.
  rewrite Hsh', Hsh.
  assert (Hc0 : nth c (idx (init_locals f)) 0 = 0)
    by (destruct c as [| [| [| ?]]]; try lia; reflexivity).
  assert (Hd0 : nth d (idx (init_locals f)) 0 = 0)
    by (destruct d as [| [| [| ?]]]; try lia; reflexivity).
  destruct (walk_rewrap f pl pl' a c d count rows cols cols rows Hxy Hln Hsh
              Hxy' Hln' Hsh' Ha Hc Hd Hac Had Hcd
              (cells_of [rows; cols]) (cells_of [cols; rows])
              (init_locals f) (init_locals f) ps)
    as (ps' & Hw' & Hps'); try reflexivity; try assumption.
  - rewrite !cells_of_numbers. f_equal. f_equal. lia.
  - exists ps'. repeat split; assumption.
Qed.

Lemma swapped_packed_figure_keeps_order_witness :
  let f := mkFigure 1 None [None] [0; 1; 2; 3; 4] "ref" in
  let ps := [Drawn 0 0 (SelMember 0 0 0) (Some "+0h") None;
             Drawn 0 1 (SelMember 0 0 1) (Some "+6h") None;
             Drawn 0 2 (SelMember 0 0 2) (Some "+12h") None;
             Drawn 1 0 (SelMember 0 0 3) (Some "+18h") None;
             Drawn 1 1 (SelMember 0 0 4) (Some "+24h") None;
             Deleted 1 2] in
  let pl := mkPlan [2; 3] [LeadTime] [5] [None; None; None] [None; None] in
  exists pl' ps',
    panel_daemon 1 5 (Some 1) false false true = Ok pl' /\
    panel_shape pl' = rev (panel_shape pl) /\
    plot f false false true = Ok ps' /\
    map content ps' = map content ps.
Proof.
  intros f ps pl.
  apply (swapped_packed_figure_keeps_order f pl ps); reflexivity.
Defined.

(** ** Labels of the grid *)

(** Takes a successful chain of binds apart, innermost first. *)
Ltac unbind_inner H :=
  repeat match type of H with
         | context [bind ?x _] =>
             lazymatch x with
             | bind _ _ => fail
             | _ => destruct x; cbn [bind] in H; try discriminate
             end
         end.

Lemma cell_edge_labels (f : figure) (pl : plan) (r : bool) (i j : Z)
    (st st' : locals) (p : panel) :
  List.length (var_idx_xy pl) = 2%nat ->
  cell f pl false r i j st = Ok (p, st') -> edge_labels_only p.
Proof.
  intros Hlen H. unfold cell in H. rewrite Hlen in H.
  cbn [Nat.eqb andb bind] in H.
  destruct (l <- Py.assign (idx st) (nth 0 (var_idx_xy pl) 0%nat) i;;
            Py.assign l (nth 1 (var_idx_xy pl) 0%nat) j) as [idx1 |];
    [| discriminate].
  cbn [bind] in H.
  destruct (if r then _ else _) as [[|] |]; [| | discriminate];
    cbn [bind] in H.
  - destruct (negb (features_bound _)); [discriminate |].
    injection H as <- _. cbn.
    destruct (Z.eqb_spec i 0), (Z.eqb_spec j 0);
      repeat split; intros; try congruence.
  - unfold label_if in H.
    destruct (Z.eqb_spec i 0), (Z.eqb_spec j 0); cbn [bind] in H;
      unbind_inner H;
      injection H as <- _; cbn; repeat split; intros; congruence.
Qed.

Lemma walk_edge_labels (f : figure) (pl : plan) (r : bool)
    (cells : list (Z * Z)) :
  List.length (var_idx_xy pl) = 2%nat ->
  forall st ps,
    walk f pl false r cells st = Ok ps -> Forall edge_labels_only ps.
Proof.
  intros Hlen.
  induction cells as [| [i j] rest IH]; intros st ps H; cbn [walk] in H.
  - injection H as <-. constructor.
  - destruct (cell f pl false r i j st) as [[p st'] |] eqn:Ec;
      [| discriminate].
    cbn [bind] in H.
    destruct (walk f pl false r rest st') as [ps' |] eqn:Ew; [| discriminate].
    cbn [bind] in H. injection H as <-.
    constructor; [exact (cell_edge_labels _ _ _ _ _ _ _ _ Hlen Ec) |].
    exact (IH _ _ Ew).
Qed.

(** X15: without the ensemble mean, every figure laid out on two axes is labelled
    on its edges only, with or without a reference and [swap_axes]: a panel
    has a top label exactly in row 0 and a left label exactly in column 0,
    and no cell is deleted. *)
Theorem two_axes_label_the_edges_only (f : figure) (r sw : bool) (pl : plan)
    (ps : list panel) :
  panel_daemon (Z.of_nat (n_paths f)) (Z.of_nat (List.length (lead_times f)))
    (Some (Z.of_nat (List.length (members f)))) false r sw = Ok pl ->
  List.length (var_idx_xy pl) = 2%nat ->
  plot f false r sw = Ok ps ->
  Forall edge_labels_only ps.
Proof.
  intros H Hlen Hp. unfold plot in Hp. rewrite H in Hp.
  destruct (Py.index (seq 0 (n_paths f)) 0); [| discriminate].
  cbn [bind] in Hp. unfold bind_panels in Hp.
  exact (walk_edge_labels f pl r _ Hlen _ _ Hp).
Qed.

Lemma two_axes_label_the_edges_only_witness :
  let f := mkFigure 1 None [None] [0; 4; 8; 12] "ERA5" in
  Forall edge_labels_only
    [Drawn 0 0 (SelMember 0 0 0) (Some "+0h") (Some "member None");
     Drawn 0 1 (SelMember 0 0 1) (Some "+24h") None;
     Drawn 0 2 (SelMember 0 0 2) (Some "+48h") None;
     Drawn 0 3 (SelMember 0 0 3) (Some "+72h") None;
     Drawn 1 0 (SelRef 0) None (Some "ERA5");
     Drawn 1 1 (SelRef 1) None None;
     Drawn 1 2 (SelRef 2) None None;
     Drawn 1 3 (SelRef 3) None None].
Proof.
  intros f.
  apply (two_axes_label_the_edges_only f true false
           (mkPlan [2; 4] [Ensemble; LeadTime] [2; 4] [None; None; None]
              [Some 1; None])); reflexivity.
Defined.

Lemma cell_top_label (f : figure) (pl : plan) (i j : Z)
    (st st' : locals) (p : panel) :
  List.length (var_idx_xy pl) = 1%nat ->
  cell f pl false false i j st = Ok (p, st') -> top_label_only p.
Proof.
  intros Hlen H. unfold cell in H. rewrite Hlen in H.
  cbn [Nat.eqb andb bind] in H.
  destruct (Py.assign _ _ _) as [idx1 |]; [| discriminate].
  cbn [bind] in H.
  destruct (_ <=? _); [injection H as <- _; exact I |].
  unbind_inner H.
  injection H as <- _. cbn. split; congruence.
Qed.

Lemma walk_top_label (f : figure) (pl : plan) (cells : list (Z * Z)) :
  List.length (var_idx_xy pl) = 1%nat ->
  forall st ps,
    walk f pl false false cells st = Ok ps -> Forall top_label_only ps.
Proof.
  intros Hlen.
  induction cells as [| [i j] rest IH]; intros st ps H; cbn [walk] in H.
  - injection H as <-. constructor.
  - destruct (cell f pl false false i j st) as [[p st'] |] eqn:Ec;
      [| discriminate].
    cbn [bind] in H.
    destruct (walk f pl false false rest st') as [ps' |] eqn:Ew;
      [| discriminate].
    cbn [bind] in H. injection H as <-.
    constructor; [exact (cell_top_label _ _ _ _ _ _ _ Hlen Ec) |].
    exact (IH _ _ Ew).
Qed.

(** X16: a figure packed from a single axis is not labelled on its edges: with
    neither ensemble mean nor reference, every panel that is drawn has a top
    label, in whatever row, and none has a left label. *)
Theorem packed_panels_have_top_labels (f : figure) (sw : bool) (pl : plan)
    (ps : list panel) :
  panel_daemon (Z.of_nat (n_paths f)) (Z.of_nat (List.length (lead_times f)))
    (Some (Z.of_nat (List.length (members f)))) false false sw = Ok pl ->
  List.length (var_idx_xy pl) = 1%nat ->
  plot f false false sw = Ok ps ->
  Forall top_label_only ps.
Proof.
  intros H Hlen Hp. unfold plot in Hp. rewrite H in Hp.
  destruct (Py.index (seq 0 (n_paths f)) 0); [| discriminate].
  cbn [bind] in Hp. unfold bind_panels in Hp.
  exact (walk_top_label f pl _ Hlen _ _ Hp).
Qed.

Lemma packed_panels_have_top_labels_witness :
  let f := mkFigure 1 None [None] [0; 1; 2] "ref" in
  Forall top_label_only
    [Drawn 0 0 (SelMember 0 0 0) (Some "+0h") None;
     Drawn 0 1 (SelMember 0 0 1) (Some "+6h") None;
     Drawn 1 0 (SelMember 0 0 2) (Some "+12h") None;
     Deleted 1 1].
Proof.
  intros f.
  apply (packed_panels_have_top_labels f false
           (mkPlan [2; 2] [LeadTime] [3] [None; None; None] [None; None]));
    reflexivity.
Defined.

(** ** Further facts on [get_data] *)

(** X17: an ensemble of no members (a size of 0 or less) has nothing to
    concatenate: [get_data] raises whatever the files are. *)
Theorem empty_ensemble_raises (glob : string -> list string)
    (open_dataset : string -> result Xr.Dataset)
    (path time file_prefix : string) (n : Z) :
  Py.endswith path ".nc" = false -> n <= 0 ->
  get_data glob open_dataset path time (Some n) file_prefix =
    Raise (ValueError "must supply at least one object to concatenate").
Proof.
  intros Hp Hn. unfold get_data. rewrite Hp.
  unfold Py.range. replace (Z.to_nat n) with 0%nat by lia. reflexivity.
Qed.

Lemma empty_ensemble_raises_witness :
  get_data (fun _ => ["a.nc"]) (fun _ => Raise FileNotFoundError)
    "run/" "2023-08-15T00" (Some 0) "" =
    Raise (ValueError "must supply at least one object to concatenate").
Proof.
  apply (empty_ensemble_raises (fun _ => ["a.nc"])
           (fun _ => Raise FileNotFoundError) "run/" "2023-08-15T00" "" 0);
    [reflexivity | lia].
Defined.

Lemma load_members_missing (glob : string -> list string)
    (open_dataset : string -> result Xr.Dataset)
    (path time file_prefix : string) (found : list Z) (i : Z)
    (later : list Z) :
  (forall k, In k found ->
     exists filename others d,
       glob (path ++ Py.str_of_Z k ++ "/" ++ file_prefix ++ "*" ++ time
               ++ ".nc")%string = filename :: others /\
       open_dataset filename = Ok d) ->
  glob (path ++ Py.str_of_Z i ++ "/" ++ file_prefix ++ "*" ++ time
          ++ ".nc")%string = [] ->
  load_members glob open_dataset path time file_prefix
    (found ++ i :: later)%list =
    Raise (Exception ("No inference file found for time stamp " ++ time
                        ++ ", member " ++ Py.str_of_Z i)%string).
Proof.
  intros Hfound Hi.
  induction found as [| k rest IH]; cbn [app load_members].
  - rewrite Hi. reflexivity.
  - destruct (Hfound k (or_introl eq_refl)) as (filename & others & d & -> & Ho).
    cbn [bind]. rewrite Ho. cbn [bind].
    rewrite IH by (intros k' Hk'; apply Hfound; now right). reflexivity.
Qed.

Lemma range_split (n i : Z) :
  0 <= i < n ->
  exists later, Py.range n = (Py.range i ++ i :: later)%list.
Proof.
  intros H. unfold Py.range.
  replace (Z.to_nat n) with (Z.to_nat i + S (Z.to_nat n - Z.to_nat i - 1))%nat
    by lia.
  rewrite seq_app, map_app. cbn [seq map Nat.add].
  rewrite Z2Nat.id by lia. eexists. reflexivity.
Qed.

(** X18: in ensemble mode the members are looked up in order, and the first one
    without a file stops the loading: when the members before [i] have files
    that open and member [i] has none, [get_data] raises the exception that
    names the time stamp and [i]. *)
Theorem first_missing_member_is_reported (glob : string -> list string)
    (open_dataset : string -> result Xr.Dataset)
    (path time file_prefix : string) (n i : Z) :
  Py.endswith path ".nc" = false ->
  0 <= i < n ->
  (forall k, 0 <= k < i ->
     exists filename others d,
       glob (path ++ Py.str_of_Z k ++ "/" ++ file_prefix ++ "*" ++ time
               ++ ".nc")%string = filename :: others /\
       open_dataset filename = Ok d) ->
  glob (path ++ Py.str_of_Z i ++ "/" ++ file_prefix ++ "*" ++ time
          ++ ".nc")%string = [] ->
  get_data glob open_dataset path time (Some n) file_prefix =
    Raise (Exception ("No inference file found for time stamp " ++ time
                        ++ ", member " ++ Py.str_of_Z i)%string).
Proof.
  intros Hp Hi Hfound Hmiss. unfold get_data. rewrite Hp.
  destruct (range_split n i Hi) as (later & ->).
  rewrite (load_members_missing glob open_dataset path time file_prefix
             (Py.range i) i later); [reflexivity | | exact Hmiss].
  intros k Hk. apply Hfound. unfold Py.range in Hk.
  apply in_map_iff in Hk. destruct Hk as (x & <- & Hx).
  apply in_seq in Hx. lia.
Qed.

Lemma first_missing_member_is_reported_witness :
  let glob := fun pattern : string =>
    if String.eqb pattern "run/0/*2023-08-15T00.nc" then ["run/0/fc.nc"]
    else [] in
  let open_dataset := fun _ : string =>
    Ok (Xr.mkDataset [("points", 4%nat)] [] [("air_temperature_2m", ["points"])]) in
  get_data glob open_dataset "run/" "2023-08-15T00" (Some 3) "" =
    Raise (Exception "No inference file found for time stamp 2023-08-15T00, member 1").
Proof.
  intros glob open_dataset.
  apply (first_missing_member_is_reported glob open_dataset "run/"
           "2023-08-15T00" "" 3 1); [reflexivity | lia | | reflexivity].
  intros k Hk. assert (k = 0) as -> by lia.
  do 3 eexists. split; reflexivity.
Defined.

(** X19: in ensemble mode with [n] member files of one structure, the result
    keeps the dimensions and the data variables of a member file, with the
    members dimension of size [n] put first, in the sizes and in every data
    variable, and the coordinates 0 .. n - 1 along it. *)
Theorem ensemble_keeps_member_structure (glob : string -> list string)
    (open_dataset : string -> result Xr.Dataset)
    (path time file_prefix : string) (n : Z) (d0 : Xr.Dataset) :
  Py.endswith path ".nc" = false ->
  1 <= n ->
  (forall i, 0 <= i < n ->
     exists filename others,
       glob (path ++ Py.str_of_Z i ++ "/" ++ file_prefix ++ "*" ++ time
               ++ ".nc")%string = filename :: others /\
       open_dataset filename = Ok d0) ->
  Xr.has "members" (Xr.sizes d0) = false ->
  Xr.has "members" (Xr.data_vars d0) = false ->
  exists ds,
    get_data glob open_dataset path time (Some n) file_prefix = Ok ds /\
    Xr.sizes ds = ("members"%string, Z.to_nat n) :: Xr.sizes d0 /\
    Xr.data_vars ds =
      map (fun v => (fst v, "members"%string :: snd v)) (Xr.data_vars d0) /\
    Xr.coords ds =
      ("members"%string, Py.range n) :: Xr.remove "members" (Xr.coords d0).
Proof.
  intros Hp Hn Hfiles Hs Hv. unfold get_data. rewrite Hp.
  rewrite (load_members_same glob open_dataset path time file_prefix d0).
  2:{ intros i Hi. apply Hfiles. unfold Py.range in Hi.
      apply in_map_iff in Hi. destruct Hi as (k & <- & Hk).
      apply in_seq in Hk. lia. }
  cbn [bind].
  assert (HN : List.length (Py.range n) = Z.to_nat n)
    by (unfold Py.range; now rewrite length_map, length_seq).
  rewrite HN.
  destruct (with_members_same d0 (Z.to_nat n) Hs Hv 0)
    as (l & Hw & Hlen & Hall).
  rewrite Hw. cbn [bind].
  destruct (with_members_spec _ _ _ Hw) as (_ & _ & _ & Hco).
  rewrite repeat_length in Hco.
  destruct l as [| e0 rest]; [cbn in Hlen; lia |].
  rewrite (concat_same d0 e0 rest Hs Hv Hall). cbn [bind].
  eexists. split; [reflexivity |].
  rewrite convert_units_structure. cbn [Xr.sizes Xr.data_vars Xr.coords].
  rewrite Hco. cbn [List.length] in Hlen. rewrite Hlen.
  repeat split.
Qed.

Lemma ensemble_keeps_member_structure_witness :
  let glob := fun pattern : string =>
    if String.eqb pattern "run/0/*2023-08-15T00.nc" then ["run/0/fc.nc"]
    else if String.eqb pattern "run/1/*2023-08-15T00.nc" then ["run/1/fc.nc"]
    else [] in
  let d0 :=
    Xr.mkDataset [("lead_times", 3%nat); ("points", 4%nat)]
      [("lead_times", [0; 1; 2])]
      [("air_temperature_2m", ["lead_times"; "points"])] in
  let open_dataset := fun _ : string => Ok d0 in
  exists ds,
    get_data glob open_dataset "run/" "2023-08-15T00" (Some 2) "" = Ok ds /\
    Xr.sizes ds = ("members"%string, Z.to_nat 2) :: Xr.sizes d0 /\
    Xr.data_vars ds =
      map (fun v => (fst v, "members"%string :: snd v)) (Xr.data_vars d0) /\
    Xr.coords ds =
      ("members"%string, Py.range 2) :: Xr.remove "members" (Xr.coords d0).
Proof.
  intros glob d0 open_dataset.
  apply (ensemble_keeps_member_structure glob open_dataset "run/"
           "2023-08-15T00" "" 2 d0); [reflexivity | lia | | reflexivity ..].
  intros i Hi. assert (i = 0 \/ i = 1) as [-> | ->] by lia;
    do 2 eexists; split; reflexivity.
Defined.
